(** * conda-content-trust: signing, OpenPGP signing and the command line

    A shallow embedding of [conda_content_trust/signing.py],
    [conda_content_trust/root_signing.py] and [conda_content_trust/cli.py],
    together with the properties their specification states about them.

    Layout: the Python object model ([Py]), the interfaces of the modules the
    sources import ([Common], [Gpg]), the three source modules ([Signing],
    [RootSigning], [Cli]), the verifiers of [conda_content_trust.authentication]
    ([Authentication]), sample collaborators ([Sample]), the key format of
    securesystemslib ([RootSigningFormats]), the interactive editor of
    [cli.py] ([Editor]), further samples ([Spellings], [Scenarios]), and then
    the lemmas and theorems. *)

From Stdlib Require Import ZArith NArith String Ascii List Lia.
From Stdlib.Strings Require Import Byte.
From stdpp Require Import base option strings pretty gmap list fin_maps fin_sets.

Set Warnings "-register-all".
Local Open Scope string_scope.
Local Open Scope Z_scope.

(* ===================================================================== *)
(** * The Python object model *)
(* ===================================================================== *)

Module Py.

(** A [bytes] object. *)
Abbreviation bytes := (list Byte.byte).

(** The concrete type of an object, as [type(obj)] reports it.  [TClass]
    stands for every class that is not one of the builtin ones listed. *)
Inductive pytype :=
| TNoneType | TBool | TInt | TFloat | TStr | TBytes | TList | TTuple | TDict
| TClass (name : string).

Definition pytype_eqb (a b : pytype) : bool :=
  match a, b with
  | TNoneType, TNoneType | TBool, TBool | TInt, TInt | TFloat, TFloat
  | TStr, TStr | TBytes, TBytes | TList, TList | TTuple, TTuple
  | TDict, TDict => true
  | TClass x, TClass y => String.eqb x y
  | _, _ => false
  end.

(** Python objects.  A [str] is a Rocq string whose characters are the code
    points U+0000..U+00FF; a [float] is kept as its IEEE-754 bit pattern; a
    [dict] has [str] keys, as every dict loaded from JSON has.
    [VInstance cls base] is an instance of a class [cls] that is not a builtin
    one: a subclass of the type of [base] holding that content (an
    [OrderedDict] over a dict), or an object wrapping it (a [PrivateKey] over
    its raw bytes). *)
Inductive value :=
| VNone
| VBool (b : bool)
| VInt (z : Z)
| VFloat (bits : Z)
| VStr (s : string)
| VBytes (b : bytes)
| VList (l : list value)
| VTuple (l : list value)
| VDict (d : gmap string value)
| VInstance (cls : string) (base : value).

(** [type(obj)] *)
Definition type_of (v : value) : pytype :=
  match v with
  | VNone => TNoneType
  | VBool _ => TBool
  | VInt _ => TInt
  | VFloat _ => TFloat
  | VStr _ => TStr
  | VBytes _ => TBytes
  | VList _ => TList
  | VTuple _ => TTuple
  | VDict _ => TDict
  | VInstance cls _ => TClass cls
  end.

(** [type(obj) in types] *)
Definition type_in (t : pytype) (types : list pytype) : bool :=
  existsb (pytype_eqb t) types.

(** [isinstance(obj, t)] for a builtin [t]: an instance of a subclass counts,
    and [bool] is a subclass of [int]. *)
Fixpoint isinstance (v : value) (t : pytype) : bool :=
  pytype_eqb (type_of v) t ||
  match v with
  | VBool _ => pytype_eqb t TInt
  | VInstance _ base => isinstance base t
  | _ => false
  end.

(** [copy.deepcopy(obj)]: a structurally equal object sharing nothing with the
    original. *)
Fixpoint deepcopy (v : value) : value :=
  match v with
  | VNone => VNone
  | VBool b => VBool b
  | VInt z => VInt z
  | VFloat f => VFloat f
  | VStr s => VStr s
  | VBytes b => VBytes b
  | VList l => VList (deepcopy <$> l)
  | VTuple l => VTuple (deepcopy <$> l)
  | VDict d => VDict (deepcopy <$> d)
  | VInstance cls base => VInstance cls (deepcopy base)
  end.

(** Number of constructors of an object, the measure for induction on
    objects. *)
Fixpoint value_size (v : value) : nat :=
  match v with
  | VList l | VTuple l => S (foldr (λ x n, value_size x + n)%nat 0%nat l)
  | VDict d => S (map_fold (λ _ x n, value_size x + n)%nat 0%nat d)
  | VInstance _ base => S (value_size base)
  | _ => 1%nat
  end.

(** ** Exceptions *)

Inductive exn_class :=
| TypeError | ValueError | KeyError | AttributeError | ImportError | OSError
| CCT_Error.

Definition exn_class_eqb (a b : exn_class) : bool :=
  match a, b with
  | TypeError, TypeError | ValueError, ValueError | KeyError, KeyError
  | AttributeError, AttributeError | ImportError, ImportError
  | OSError, OSError | CCT_Error, CCT_Error => true
  | _, _ => false
  end.

(** An exception object: its class ([CCT_Error] stands for that class and its
    subclasses) and [str(e)]. *)
Record exn := Exn { exn_cls : exn_class; exn_str : string }.

(** The result of evaluating an expression: a value or a raised exception. *)
Inductive outcome (A : Type) :=
| Ok (a : A)
| Raise (e : exn).
Arguments Ok {A} a.
Arguments Raise {A} e.

Definition outcome_bind {A B} (f : A → outcome B) (m : outcome A) : outcome B :=
  match m with
  | Ok a => f a
  | Raise e => Raise e
  end.

#[global] Instance outcome_mret : MRet outcome := λ A a, Ok a.
#[global] Instance outcome_mbind : MBind outcome := λ A B f m, outcome_bind f m.

(** ** Text *)

Definition dquote : string := String (ascii_of_nat 34) "".
Definition squote : string := String (ascii_of_nat 39) "".

(** [str.isspace()] of one character (code points below 256). *)
Definition py_isspace (c : ascii) : bool :=
  let n := nat_of_ascii c in
  ((9 <=? n) && (n <=? 13) || (28 <=? n) && (n <=? 32)
   || (n =? 133) || (n =? 160))%nat.

(** [str.lower()] of one character (code points below 256). *)
Definition py_lower_char (c : ascii) : ascii :=
  let n := nat_of_ascii c in
  if ((65 <=? n) && (n <=? 90))%nat then ascii_of_nat (n + 32)
  else if ((192 <=? n) && (n <=? 222) && negb (n =? 215))%nat
       then ascii_of_nat (n + 32)
  else c.

(** [s.lower()] *)
Fixpoint py_lower (s : string) : string :=
  match s with
  | EmptyString => EmptyString
  | String c s' => String (py_lower_char c) (py_lower s')
  end.

(** [s.replace(old, new)] for a one-character [old]. *)
Fixpoint py_replace_char (old : ascii) (new : string) (s : string) : string :=
  match s with
  | EmptyString => EmptyString
  | String c s' =>
      if Ascii.eqb c old then new +:+ py_replace_char old new s'
      else String c (py_replace_char old new s')
  end.

(** [s.split()]: the maximal runs of characters that are not whitespace.
    [word] is the run being read, if any. *)
Fixpoint py_split_from (s : string) (word : option string) : list string :=
  match s with
  | EmptyString => match word with Some w => [w] | None => [] end
  | String c s' =>
      if py_isspace c then
        match word with
        | Some w => w :: py_split_from s' None
        | None => py_split_from s' None
        end
      else
        py_split_from s'
          (Some (match word with
                 | Some w => w +:+ String c ""
                 | None => String c ""
                 end))
  end.

Definition py_split (s : string) : list string := py_split_from s None.

(** [sep.join(words)] *)
Fixpoint py_join (sep : string) (words : list string) : string :=
  match words with
  | [] => ""
  | [w] => w
  | w :: ws => w +:+ sep +:+ py_join sep ws
  end.

(** [needle in s] for two strings: [needle] occurs in [s]. *)
Fixpoint py_substring (needle s : string) : bool :=
  String.prefix needle s ||
  match s with
  | EmptyString => false
  | String _ s' => py_substring needle s'
  end.

(** [bytes.hex()] *)
Definition hex_digit (n : N) : ascii :=
  match String.get (N.to_nat n) "0123456789abcdef" with
  | Some c => c
  | None => "0"%char
  end.

Definition byte_hex (b : Byte.byte) : string :=
  let n := Byte.to_N b in
  String (hex_digit (n / 16)) (String (hex_digit (n mod 16)) "").

Fixpoint bytes_hex (bs : bytes) : string :=
  match bs with
  | [] => ""
  | b :: bs' => byte_hex b +:+ bytes_hex bs'
  end.

Definition is_lower_hex_char (c : ascii) : bool :=
  let n := nat_of_ascii c in
  ((48 <=? n) && (n <=? 57) || (97 <=? n) && (n <=? 102))%nat.

Fixpoint string_forallb (p : ascii → bool) (s : string) : bool :=
  match s with
  | EmptyString => true
  | String c s' => p c && string_forallb p s'
  end.

(** A string of exactly [n] lowercase hexadecimal digits. *)
Definition is_lower_hex (n : nat) (s : string) : bool :=
  (String.length s =? n)%nat && string_forallb is_lower_hex_char s.

(** ** Operations on objects *)

Definition type_error {A} (msg : string) : outcome A := Raise (Exn TypeError msg).
Definition key_error {A} (key : string) : outcome A :=
  Raise (Exn KeyError (squote +:+ key +:+ squote)).
Definition attribute_error {A} (attr : string) : outcome A :=
  Raise (Exn AttributeError ("object has no attribute " +:+ squote +:+ attr +:+ squote)).

(** [obj == s] for a string [s]. *)
Fixpoint eq_str (v : value) (s : string) : bool :=
  match v with
  | VStr s' => String.eqb s' s
  | VInstance _ base => eq_str base s
  | _ => false
  end.

(** [obj[key]] for a string [key]. *)
Fixpoint getitem (v : value) (key : string) : outcome value :=
  match v with
  | VDict d =>
      match d !! key with
      | Some x => Ok x
      | None => key_error key
      end
  | VInstance _ base => getitem base key
  | VStr _ | VBytes _ | VList _ | VTuple _ =>
      type_error "indices must be integers"
  | _ => type_error "object is not subscriptable"
  end.

(** [obj[key] = x] for a string [key]; the result is the object after the
    assignment. *)
Fixpoint setitem (v : value) (key : string) (x : value) : outcome value :=
  match v with
  | VDict d => Ok (VDict (<[key := x]> d))
  | VInstance cls base => b ← setitem base key x; Ok (VInstance cls b)
  | VList _ => type_error "list indices must be integers"
  | _ => type_error "object does not support item assignment"
  end.

(** [del obj[key]] for a string [key]; the result is the object after the
    deletion. *)
Fixpoint delitem (v : value) (key : string) : outcome value :=
  match v with
  | VDict d =>
      match d !! key with
      | Some _ => Ok (VDict (delete key d))
      | None => key_error key
      end
  | VInstance cls base => b ← delitem base key; Ok (VInstance cls b)
  | VList _ => type_error "list indices must be integers"
  | _ => type_error "object does not support item deletion"
  end.

(** [key in obj] for a string [key]. *)
Fixpoint contains (key : string) (v : value) : outcome bool :=
  match v with
  | VDict d => Ok (bool_decide (is_Some (d !! key)))
  | VList l | VTuple l => Ok (existsb (λ x, eq_str x key) l)
  | VStr s => Ok (py_substring key s)
  | VBytes _ => type_error "a bytes-like object is required, not 'str'"
  | VInstance _ base => contains key base
  | _ => type_error "argument is not iterable"
  end.

(** [obj.items()], as the list of its pairs.  A dict yields its pairs in the
    order of the map, which need not be the insertion order Python keeps; no
    result below depends on the order. *)
Fixpoint items (v : value) : outcome (list (string * value)) :=
  match v with
  | VDict d => Ok (map_to_list d)
  | VInstance _ base => items base
  | _ => attribute_error "items"
  end.

(** [obj.get(key, default)] *)
Fixpoint get (v : value) (key : string) (dflt : value) : outcome value :=
  match v with
  | VDict d => Ok (default dflt (d !! key))
  | VInstance _ base => get base key dflt
  | _ => attribute_error "get"
  end.

(** [obj.lower()] *)
Fixpoint lower (v : value) : outcome value :=
  match v with
  | VStr s => Ok (VStr (py_lower s))
  | VInstance _ base => lower base
  | _ => attribute_error "lower"
  end.

(** [obj.replace(old, new)] for a one-character [old]. *)
Fixpoint replace (v : value) (old : ascii) (new : string) : outcome value :=
  match v with
  | VStr s => Ok (VStr (py_replace_char old new s))
  | VInstance _ base => replace base old new
  | _ => attribute_error "replace"
  end.

(** [prefix + obj] for a string [prefix]: the concatenation when [obj] is a
    string, a [TypeError] otherwise. *)
Fixpoint concat (prefix : string) (v : value) : outcome string :=
  match v with
  | VStr s => Ok (prefix +:+ s)
  | VInstance _ base => concat prefix base
  | _ => type_error "can only concatenate str to str"
  end.

(** [container[key] = x] where the key is itself an object.  A [dict] of this
    model has [str] keys only: any other key is refused here, although Python
    would also take other hashable keys. *)
Definition setitem_at (v key x : value) : outcome value :=
  match key with
  | VStr k => setitem v k x
  | _ => type_error "unsupported key"
  end.

(** ** The world: files, console and calls to collaborators *)

(** A call to a collaborator that canonicalizes or does cryptographic work. *)
Inductive call :=
| CallCanonserialize (obj : value)
| CallSign (private_key : value) (data : bytes)
| CallGpgCreateSignature (data fingerprint : value)
| CallGpgExportPubkey (fingerprint : value).

(** A metadata file is kept as the object its JSON text denotes. *)
Record world := World {
  files : gmap string value;
  stdout : list string;
  calls : list call
}.

Definition set_files (fs : gmap string value) (w : world) : world :=
  World fs (stdout w) (calls w).
Definition add_stdout (line : string) (w : world) : world :=
  World (files w) (stdout w ++ [line]) (calls w).
Definition add_call (c : call) (w : world) : world :=
  World (files w) (stdout w) (calls w ++ [c]).

(** A statement: it runs in a world, returns or raises, and leaves a world. *)
Definition M (A : Type) : Type := world → outcome A * world.

Definition M_ret {A} (a : A) : M A := λ w, (Ok a, w).
Definition M_bind {A B} (f : A → M B) (m : M A) : M B :=
  λ w, match m w with
       | (Ok a, w') => f a w'
       | (Raise e, w') => (Raise e, w')
       end.

#[global] Instance M_mret : MRet M := @M_ret.
#[global] Instance M_mbind : MBind M := @M_bind.

(** An expression without effect, as a statement. *)
Definition lift {A} (m : outcome A) : M A := λ w, (m, w).
(** [raise e] *)
Definition raise {A} (e : exn) : M A := λ w, (Raise e, w).
(** [print(line)] *)
Definition print (line : string) : M unit := λ w, (Ok (), add_stdout line w).
(** Record a call to a collaborator. *)
Definition record (c : call) : M unit := λ w, (Ok (), add_call c w).

(** [try: body  except cls as e: handler(e)] *)
Definition try_except {A} (body : M A) (cls : exn_class) (handler : exn → M A)
  : M A :=
  λ w, match body w with
       | (Ok a, w') => (Ok a, w')
       | (Raise e, w') =>
           if exn_class_eqb (exn_cls e) cls then handler e w'
           else (Raise e, w')
       end.

(** [for k, x in pairs: acc = body(k, x, acc)] *)
Fixpoint for_each {A} (pairs : list (string * value))
    (body : string → value → A → M A) (acc : A) : M A :=
  match pairs with
  | [] => mret acc
  | (k, x) :: rest => acc' ← body k x acc; for_each rest body acc'
  end.

(** The object as a call left it: the one returned, or the unchanged one when
    the call raised before assigning. *)
Definition after {A} (before : A) (r : outcome A) : A :=
  match r with
  | Ok a => a
  | Raise _ => before
  end.

End Py.

Import Py.

(* ===================================================================== *)
(** * Collaborators *)
(* ===================================================================== *)

(** What [signing.py], [root_signing.py] and [cli.py] import from
    [conda_content_trust.common], whose source is not part of this
    development.  Every function takes objects and returns or raises.
    Ed25519 signing is a function of the key and the message. *)
Class Common := {
  SUPPORTED_SERIALIZABLE_TYPES : list pytype;
  canonserialize : value → outcome bytes;
  (** [private_key.sign(data)] *)
  PrivateKey_sign : value → bytes → outcome bytes;
  (** [private_key.public_key()] *)
  PrivateKey_public_key : value → outcome value;
  PrivateKey_from_hex : value → outcome value;
  PublicKey_to_hex : value → outcome value;
  checkformat_key : value → outcome unit;
  checkformat_signable : value → outcome unit;
  checkformat_signature : value → outcome unit;
  checkformat_hex_key : value → outcome unit;
  checkformat_string : value → outcome unit;
  checkformat_byteslike : value → outcome unit;
  checkformat_gpg_fingerprint : value → outcome unit;
  is_signable : value → bool;
  (** [str(obj)] of an object that is not a string *)
  repr : value → string
}.

(** [securesystemslib.gpg.functions], an optional dependency. *)
Class Gpg := {
  SSLIB_AVAILABLE : bool;
  create_signature : value → value → outcome value;
  export_pubkey : value → outcome value
}.

(** Modelled from the spec: [load_metadata_from_file] of
    [conda_content_trust.common], the file-system read helper ("Envelope file
    format (persisted JSON-like object)"): the object held by the file. *)
Definition load_metadata_from_file (fname : value) : M value :=
  λ w, match fname with
       | VStr f =>
           match files w !! f with
           | Some obj => (Ok obj, w)
           | None => (Raise (Exn OSError "No such file or directory"), w)
           end
       | _ => (type_error "expected str, bytes or os.PathLike object", w)
       end.

(** Modelled from the spec: [write_metadata_to_file] of
    [conda_content_trust.common], the file-system write helper: the file now
    holds the object. *)
Definition write_metadata_to_file (obj fname : value) : M unit :=
  λ w, match fname with
       | VStr f => (Ok (), set_files (<[f := obj]> (files w)) w)
       | _ => (type_error "expected str, bytes or os.PathLike object", w)
       end.

(** [str(obj)] *)
Definition str `{Common} (v : value) : string :=
  match v with
  | VStr s => s
  | _ => repr v
  end.

(** [str(type(obj))] *)
Definition type_str (t : pytype) : string :=
  "<class " +:+ squote +:+
  match t with
  | TNoneType => "NoneType" | TBool => "bool" | TInt => "int"
  | TFloat => "float" | TStr => "str" | TBytes => "bytes" | TList => "list"
  | TTuple => "tuple" | TDict => "dict" | TClass name => name
  end +:+ squote +:+ ">".

(* ===================================================================== *)
(** * conda_content_trust/signing.py *)
(* ===================================================================== *)

Module Signing.
Section Signing.
Context `{Common}.

Definition serialize_and_sign (obj private_key : value) : M string :=
  serialized ← (record (CallCanonserialize obj);; lift (canonserialize obj));
  signature_as_bytes ←
    (record (CallSign private_key serialized);;
     lift (PrivateKey_sign private_key serialized));
  let signature_as_hexstr := bytes_hex signature_as_bytes in
  mret signature_as_hexstr.

Definition wrap_as_signable (obj : value) : M value :=
  if negb (type_in (type_of obj) SUPPORTED_SERIALIZABLE_TYPES) then
    raise (Exn TypeError
      ("wrap_dict_as_signable requires a JSON-serializable object, "
       +:+ "but the given argument is of type " +:+ type_str (type_of obj)
       +:+ ", " +:+ "which is not supported by the json library functions."))
  else
    mret (VDict (<["signatures" := VDict ∅]> (<["signed" := deepcopy obj]> ∅))).

(** [{"signature": signature_hex}] *)
Definition signature_record (signature_hex : string) : value :=
  VDict {["signature" := VStr signature_hex]}.

(** The call updates [signable] in place: the result is that object after the
    call. *)
Definition sign_signable (signable private_key : value) : M value :=
  lift (checkformat_key private_key);;
  lift (checkformat_signable signable);;
  signed ← lift (getitem signable "signed");
  signature_as_hexstr ← serialize_and_sign signed private_key;
  public_key ← lift (PrivateKey_public_key private_key);
  public_key_as_hexstr ← lift (PublicKey_to_hex public_key);
  let signature_dict := signature_record signature_as_hexstr in
  lift (checkformat_signature signature_dict);;
  signatures ← lift (getitem signable "signatures");
  signatures ← lift (setitem_at signatures public_key_as_hexstr signature_dict);
  lift (setitem signable "signatures" signatures).

(** [signable["signatures"][key]] *)
Definition signature_entry (signable : value) (key : string) : outcome value :=
  signatures ← getitem signable "signatures"; getitem signatures key.

(** [PublicKey.to_hex(private_key.public_key())] *)
Definition public_hex_of (private_key : value) : outcome value :=
  PrivateKey_public_key private_key ≫= PublicKey_to_hex.

(** The hex text [serialize_and_sign(obj, private_key)] returns, without the
    record of the calls. *)
Definition signature_hex_of (private_key obj : value) : outcome string :=
  data ← canonserialize obj;
  sig ← PrivateKey_sign private_key data;
  Ok (bytes_hex sig).

(** [{public_hex: {"signature": signature_hex}}] *)
Definition artifact_entry (public_hex signature_hex : string) : value :=
  VDict {[public_hex := signature_record signature_hex]}.

(** The entry stored for an artifact: a function of the key and of the
    metadata of the artifact. *)
Definition entry_for (private_key : value) (public_hex : string)
    (metadata : value) : value :=
  artifact_entry public_hex (after "" (signature_hex_of private_key metadata)).

(** The entries a loop over [pairs] assigns to the signatures [sigs], one
    after the other. *)
Definition assign_entries (private_key : value) (public_hex : string)
    (pairs : list (string * value)) (sigs : gmap string value)
  : gmap string value :=
  foldl (λ acc kv, <[kv.1 := entry_for private_key public_hex kv.2]> acc)
        sigs pairs.

(** The body of the first loop: [repodata] after one iteration. *)
Definition sign_package (private : value) (public_hex : value)
    (artifact_name : string) (metadata : value) (repodata : value) : M value :=
  signature_hex ← serialize_and_sign metadata private;
  let signature_dict := signature_record signature_hex in
  lift (checkformat_signature signature_dict);;
  entry ← lift (setitem_at (VDict ∅) public_hex signature_dict);
  signatures ← lift (getitem repodata "signatures");
  signatures ← lift (setitem signatures artifact_name entry);
  lift (setitem repodata "signatures" signatures).

(** The body of the second loop, over ["packages.conda"]. *)
Definition sign_package_conda (private : value) (public_hex : value)
    (artifact_name : string) (metadata : value) (repodata : value) : M value :=
  signature_hex ← serialize_and_sign metadata private;
  entry ← lift (setitem_at (VDict ∅) public_hex (signature_record signature_hex));
  signatures ← lift (getitem repodata "signatures");
  signatures ← lift (setitem signatures artifact_name entry);
  lift (setitem repodata "signatures" signatures).

Definition sign_all_in_repodata (fname private_key_hex : value) : M unit :=
  lift (checkformat_hex_key private_key_hex);;
  lift (checkformat_string fname);;
  private ← lift (PrivateKey_from_hex private_key_hex);
  public ← lift (PrivateKey_public_key private);
  public_hex ← lift (PublicKey_to_hex public);
  repodata ← load_metadata_from_file fname;
  has_packages ← lift (contains "packages" repodata);
  if negb has_packages then
    raise (Exn ValueError
      ("Expected a " +:+ dquote +:+ "packages" +:+ dquote
       +:+ " entry in given repodata file."))
  else
    repodata ← lift (setitem repodata "signatures" (VDict ∅));
    packages ← lift (getitem repodata "packages");
    pairs ← lift (items packages);
    repodata ← for_each pairs (sign_package private public_hex) repodata;
    packages_conda ← lift (get repodata "packages.conda" (VDict ∅));
    pairs ← lift (items packages_conda);
    repodata ← for_each pairs (sign_package_conda private public_hex) repodata;
    write_metadata_to_file repodata fname.

End Signing.
End Signing.

(* ===================================================================== *)
(** * conda_content_trust/root_signing.py *)
(* ===================================================================== *)

Module RootSigning.
Section RootSigning.
Context `{Common} `{Gpg}.

Definition _check_sslib_available : M unit :=
  if negb SSLIB_AVAILABLE then
    raise (Exn ImportError
      "The securesystemslib library is required, which appears to be unavailable.")
  else mret ().

Definition sign_via_gpg (data_to_sign gpg_key_fingerprint : value)
    (include_fingerprint : bool) : M value :=
  _check_sslib_available;;
  lift (checkformat_gpg_fingerprint gpg_key_fingerprint);;
  lift (checkformat_byteslike data_to_sign);;
  sig ← (record (CallGpgCreateSignature data_to_sign gpg_key_fingerprint);;
         lift (create_signature data_to_sign gpg_key_fingerprint));
  sig ← (if include_fingerprint then
           keyid ← lift (getitem sig "keyid");
           lift (setitem sig "see_also" keyid)
         else mret sig);
  sig ← lift (delitem sig "keyid");
  mret sig.

(** The no-break space U+00A0, written [\xa0] in the source. *)
Definition nbsp : ascii := ascii_of_nat 160.

Definition fetch_keyval_from_gpg (fingerprint : value) : M value :=
  _check_sslib_available;;
  fingerprint ← lift (lowered ← lower fingerprint;
                      stripped ← replace lowered " " "";
                      replace stripped nbsp "");
  lift (checkformat_gpg_fingerprint fingerprint);;
  key_parameters ← (record (CallGpgExportPubkey fingerprint);;
                    lift (export_pubkey fingerprint));
  lift (keyval ← getitem key_parameters "keyval";
        public ← getitem keyval "public";
        getitem public "q").


(** [fingerprint.lower().replace(" ", "").replace("\xa0", "")] *)
Definition normalized (fingerprint : value) : outcome value :=
  lowered ← lower fingerprint;
  stripped ← replace lowered " " "";
  replace stripped nbsp "".

(** [key_parameters["keyval"]["public"]["q"]] *)
Definition raw_key_of (key_parameters : value) : outcome value :=
  keyval ← getitem key_parameters "keyval";
  public ← getitem keyval "public";
  getitem public "q".

(** The call signs [root_signable] in place and returns it. *)
Definition sign_root_metadata_dict_via_gpg
    (root_signable gpg_key_fingerprint : value) : M value :=
  _check_sslib_available;;
  if negb (is_signable root_signable) then
    raise (Exn TypeError "Expected a signable dictionary.")
  else
    signed ← lift (getitem root_signable "signed");
    data_to_sign ← (record (CallCanonserialize signed);;
                    lift (canonserialize signed));
    sig_dict ← sign_via_gpg (VBytes data_to_sign) gpg_key_fingerprint false;
    raw_pubkey ← fetch_keyval_from_gpg gpg_key_fingerprint;
    signatures ← lift (getitem root_signable "signatures");
    signatures ← lift (setitem_at signatures raw_pubkey sig_dict);
    root_signable ← lift (setitem root_signable "signatures" signatures);
    mret root_signable.

Definition sign_root_metadata_via_gpg
    (root_md_fname gpg_key_fingerprint : value) : M unit :=
  root_signable ← load_metadata_from_file root_md_fname;
  root_signable ← sign_root_metadata_dict_via_gpg root_signable gpg_key_fingerprint;
  write_metadata_to_file root_signable root_md_fname.

End RootSigning.
End RootSigning.

(* ===================================================================== *)
(** * conda_content_trust/cli.py *)
(* ===================================================================== *)

Module Cli.

(** What [ArgumentParser.parse_args] hands to the body of [cli]: the
    subcommand and its positional arguments, all of them strings. *)
Inductive arguments :=
| GpgSign (gpg_key_fingerprint filename : string)
| SignArtifacts (repodata_fname private_key_hex : string)
| GpgKeyLookup (gpg_key_fingerprint : string)
| ModifyMetadata (metadata_filename : string)
| VerifyMetadata (trusted_metadata_filename untrusted_metadata_filename : string)
| NoSubcommand.

Definition newline : string := String (ascii_of_nat 10) "".

(** The character [c'] writes the lowercase hexadecimal digit [c]: it is [c]
    itself, or the capital of the letter [c]. *)
Definition writes_digit (c' c : ascii) : bool :=
  is_lower_hex_char c &&
  (Ascii.eqb c' c
   || ((97 <=? nat_of_ascii c) && (nat_of_ascii c' + 32 =? nat_of_ascii c)))%nat.

(** [spells canonical spelling]: the text [spelling] is the string of
    lowercase hexadecimal digits [canonical] up to letter case and to
    whitespace before, between and after the digits. *)
Inductive spells : string → string → Prop :=
| spells_end : spells "" ""
| spells_space c canonical spelling :
    py_isspace c = true →
    spells canonical spelling →
    spells canonical (String c spelling)
| spells_digit c c' canonical spelling :
    writes_digit c' c = true →
    spells canonical spelling →
    spells (String c canonical) (String c' spelling).

Section Cli.
Context `{Common} `{Gpg}.

(** [conda_content_trust.authentication.verify_root(trusted, untrusted)] *)
Variable verify_root : value → value → outcome unit.
(** [conda_content_trust.authentication.verify_delegation(delegation_name,
    untrusted_delegated_metadata, trusted_delegating_metadata)] *)
Variable verify_delegation : value → value → value → outcome unit.
(** The interactive editor, a loop over console input. *)
Variable interactive_modify_metadata : value → M unit.

(** [''.join(s.split()).lower()] *)
Definition strip_and_lower (s : string) : string :=
  py_lower (py_join "" (py_split s)).

(** The value [cli] returns: [None], or the exit code. *)
Definition cli (args : arguments) : M (option Z) :=
  match args with
  | GpgSign fingerprint filename =>
      let gpg_key_fingerprint := strip_and_lower fingerprint in
      RootSigning.sign_root_metadata_via_gpg
        (VStr filename) (VStr gpg_key_fingerprint);;
      mret None
  | SignArtifacts repodata_fname private_key_hex =>
      Signing.sign_all_in_repodata (VStr repodata_fname) (VStr private_key_hex);;
      mret None
  | GpgKeyLookup fingerprint =>
      let gpg_key_fingerprint := strip_and_lower fingerprint in
      keyval ← RootSigning.fetch_keyval_from_gpg (VStr gpg_key_fingerprint);
      print ("Underlying ed25519 key value: " +:+ str keyval);;
      mret None
  | ModifyMetadata metadata_filename =>
      old_metadata ← load_metadata_from_file (VStr metadata_filename);
      interactive_modify_metadata old_metadata;;
      mret None
  | VerifyMetadata trusted_metadata_filename untrusted_metadata_filename =>
      untrusted_metadata ← load_metadata_from_file (VStr untrusted_metadata_filename);
      trusted_metadata ← load_metadata_from_file (VStr trusted_metadata_filename);
      metadata_type ← lift (signed ← getitem untrusted_metadata "signed";
                            getitem signed "type");
      (* [None]: the branch returned 0; [Some]: errorcode and errorstring *)
      failure ←
        (if eq_str metadata_type "root" then
           try_except
             (lift (verify_root trusted_metadata untrusted_metadata);;
              print "Root metadata verification successful.";;
              mret None)
             CCT_Error
             (λ e, mret (Some (10, exn_str e)))
         else
           try_except
             (lift (verify_delegation metadata_type untrusted_metadata
                      trusted_metadata);;
              print "Metadata verification successful.";;
              mret None)
             CCT_Error
             (λ e, mret (Some (20, exn_str e))));
      match failure with
      | None => mret (Some 0)
      | Some (errorcode, errorstring) =>
          line ← lift (prefix ← concat
                         ("Verification of untrusted metadata failed.  Metadata "
                          +:+ "type was " +:+ dquote) metadata_type;
                       Ok (prefix +:+ dquote +:+ ".  Error reads:" +:+ newline
                           +:+ "  " +:+ dquote +:+ errorstring +:+ dquote));
          print line;;
          mret (Some errorcode)
      end
  | NoSubcommand =>
      print ("No command provided.  Please use  " +:+ dquote
             +:+ "conda-content-trust -h" +:+ dquote +:+ " for help.");;
      mret None
  end.

(** What the process exits with: [sys.exit(cli(...))] exits with 0 for [None]
    and with 1 when an exception escapes. *)
Definition exit_status (r : outcome (option Z)) : Z :=
  match r with
  | Ok (Some code) => code
  | Ok None => 0
  | Raise _ => 1
  end.

End Cli.
End Cli.

(* ===================================================================== *)
(** * conda_content_trust/authentication.py *)
(* ===================================================================== *)

(** The source of this module is not part of the development: everything in
    this module is modelled from the specification, sections 3, 4.2, 4.4, 4.5
    and 7. *)
Module Authentication.

(** Modelled from the spec: the two checks of the root chain, section 4.5,
    steps 2 and 3. *)
Inductive chain_check := Continuity | SelfConsistency.

(** Modelled from the spec: the error taxonomy of section 7. *)
Inductive fault :=
| FormatFault
| UnsupportedPayloadFault
| UnknownDelegationFault
| RoleMismatchFault
| InsufficientSignaturesFault (tally threshold : Z)
| VersionMismatchFault
| ChainVerificationFault (failed : chain_check).

(** Modelled from the spec: what a verifier answers, acceptance or a fault. *)
Inductive verdict := Accept | Reject (f : fault).

(** Modelled from the spec: Delegation,
    [{pubkeys: set<pubkey-hex>, threshold: integer >= 1}]. *)
Record delegation := Delegation { pubkeys : list string; threshold : Z }.

Definition as_str (v : value) : option string :=
  match v with
  | VStr s => Some s
  | _ => None
  end.

(** [envelope.signed.<field>] *)
Definition signed_field (envelope : value) (field : string) : option value :=
  match envelope with
  | VDict e =>
      match e !! "signed" with
      | Some (VDict signed) => signed !! field
      | _ => None
      end
  | _ => None
  end.

(** [envelope.signed] *)
Definition signed_payload (envelope : value) : option value :=
  match envelope with
  | VDict e => e !! "signed"
  | _ => None
  end.

(** [envelope.signatures], a mapping from pubkey-hex to signature records. *)
Definition signatures_of (envelope : value) : option (gmap string value) :=
  match envelope with
  | VDict e =>
      match e !! "signatures" with
      | Some (VDict sigs) => Some sigs
      | _ => None
      end
  | _ => None
  end.

(** [envelope.signed.version], when it is an integer. *)
Definition declared_version (envelope : value) : option Z :=
  match signed_field envelope "version" with
  | Some (VInt z) => Some z
  | _ => None
  end.

(** Modelled from the spec: a delegation record read from its JSON form
    [{"pubkeys": [hex...], "threshold": int}] of section 6; extra fields are
    ignored, a threshold below 1 is refused. *)
Definition read_delegation (v : value) : option delegation :=
  match v with
  | VDict d =>
      match d !! "pubkeys", d !! "threshold" with
      | Some (VList keys), Some (VInt t) =>
          if 1 <=? t then
            keys' ← mapM as_str keys; Some (Delegation keys' t)
          else None
      | _, _ => None
      end
  | _ => None
  end.

(** The delegations of a delegating envelope:
    [envelope.signed.delegations]. *)
Definition delegations_of (envelope : value) : option (gmap string value) :=
  match signed_field envelope "delegations" with
  | Some (VDict ds) => Some ds
  | _ => None
  end.

(** Modelled from the spec: SignatureRecord,
    [{signature: hex128, other_headers?: hex, see_also?: hex40}]; the
    signature of a record that parses. *)
Definition read_signature (record : value) : option string :=
  match record with
  | VDict r =>
      match r !! "signature" with
      | Some (VStr s) => if is_lower_hex 128 s then Some s else None
      | _ => None
      end
  | _ => None
  end.

Section Authentication.
Context `{Common}.

(** Modelled from the spec: the verification of the Key Codec of section 4.2,
    "verify a signature against a message and a public key, returning a
    boolean"; its arguments are the signature (hex), the public key (hex) and
    the message. *)
Variable verify_signature : string → string → bytes → bool.

(** Modelled from the spec: the key has a signature record in [sigs] that
    parses and verifies against [data]. *)
Definition signature_verifies (sigs : gmap string value) (data : bytes)
    (key : string) : bool :=
  match sigs !! key with
  | Some record =>
      match read_signature record with
      | Some s => verify_signature s key data
      | None => false
      end
  | None => false
  end.

(** Modelled from the spec: step 3 of section 4.4.  Go through the
    delegation's keys; a key already counted, a key without signature and a
    key whose record does not parse or verify are skipped.  [counted] holds
    the keys counted so far. *)
Fixpoint count_keys (sigs : gmap string value) (data : bytes)
    (keys : list string) (counted : gset string) : gset string :=
  match keys with
  | [] => counted
  | key :: rest =>
      if bool_decide (key ∈ counted) then count_keys sigs data rest counted
      else if signature_verifies sigs data key
           then count_keys sigs data rest ({[key]} ∪ counted)
           else count_keys sigs data rest counted
  end.

(** Modelled from the spec: the tally, the count of distinct keys whose
    signature verifies. *)
Definition tally (sigs : gmap string value) (data : bytes)
    (keys : list string) : Z :=
  Z.of_nat (size (count_keys sigs data keys ∅)).

(** Modelled from the spec: [verify_delegation] of
    [conda_content_trust.authentication], section 4.4 (Threshold Verifier),
    steps 1 to 5 in their order; shapes that the data model of section 3 does
    not allow are format faults. *)
Definition verify_delegation (role_name : string)
    (untrusted_envelope trusted_envelope : value) : verdict :=
  match delegations_of trusted_envelope with
  | None => Reject FormatFault
  | Some delegations =>
      match delegations !! role_name with
      | None => Reject UnknownDelegationFault
      | Some record =>
          match read_delegation record,
                signed_payload untrusted_envelope,
                signatures_of untrusted_envelope with
          | Some delegation, Some signed, Some sigs =>
              match canonserialize signed with
              | Raise _ => Reject FormatFault
              | Ok data =>
                  let n := tally sigs data (pubkeys delegation) in
                  if n <? threshold delegation then
                    Reject (InsufficientSignaturesFault n (threshold delegation))
                  else
                    match signed_field untrusted_envelope "type" with
                    | Some t =>
                        if eq_str t role_name then Accept
                        else Reject RoleMismatchFault
                    | None => Reject FormatFault
                    end
              end
          | _, _, _ => Reject FormatFault
          end
      end
  end.

(** Modelled from the spec: [verify_root] of
    [conda_content_trust.authentication], section 4.5 (Root Chain Verifier),
    steps 1 to 5 in their order. *)
Definition verify_root (trusted_root_envelope untrusted_root_envelope : value)
    : verdict :=
  match signed_field trusted_root_envelope "type",
        signed_field untrusted_root_envelope "type" with
  | Some trusted_type, Some untrusted_type =>
      if eq_str trusted_type "root" && eq_str untrusted_type "root" then
        match declared_version trusted_root_envelope,
              declared_version untrusted_root_envelope with
        | Some trusted_version, Some untrusted_version =>
            if untrusted_version =? trusted_version + 1 then
              match verify_delegation "root" untrusted_root_envelope
                      trusted_root_envelope with
              | Reject _ => Reject (ChainVerificationFault Continuity)
              | Accept =>
                  match verify_delegation "root" untrusted_root_envelope
                          untrusted_root_envelope with
                  | Reject _ => Reject (ChainVerificationFault SelfConsistency)
                  | Accept => Accept
                  end
              end
            else Reject VersionMismatchFault
        | _, _ => Reject FormatFault
        end
      else Reject RoleMismatchFault
  | _, _ => Reject FormatFault
  end.

(** The keys a tally is about: those of the delegation that have a signature
    record in the envelope which parses and verifies. *)
Definition valid_signers (sigs : gmap string value) (data : bytes)
    (keys : list string) : gset string :=
  filter (λ key, key ∈ keys ∧ signature_verifies sigs data key = true)
         (dom sigs).

(** The envelope declares the type [role]: [envelope.signed.type == role]. *)
Definition declares (envelope : value) (role : string) : bool :=
  match signed_field envelope "type" with
  | Some t => eq_str t role
  | None => false
  end.

(** The threshold rule without the type of the payload: on a delegating
    envelope with a delegation for [role_name] and an envelope to verify,
    acceptance is the tally reaching the threshold, and nothing else. *)
Definition threshold_alone (role_name : string)
    (untrusted_envelope trusted_envelope : value) : Prop :=
  ∀ delegations record delegation signed sigs data,
    delegations_of trusted_envelope = Some delegations →
    delegations !! role_name = Some record →
    read_delegation record = Some delegation →
    signed_payload untrusted_envelope = Some signed →
    signatures_of untrusted_envelope = Some sigs →
    canonserialize signed = Ok data →
    (verify_delegation role_name untrusted_envelope trusted_envelope = Accept
     ↔ threshold delegation
       ≤ Z.of_nat (size (valid_signers sigs data (pubkeys delegation)))).

(** The verifiers as [cli] calls them: a fault is raised as a [CCT_Error]. *)
Definition raising (v : verdict) : outcome unit :=
  match v with
  | Accept => Ok ()
  | Reject _ => Raise (Exn CCT_Error "verification failed")
  end.

End Authentication.
End Authentication.

(* ===================================================================== *)
(** * Sample collaborators and data *)
(* ===================================================================== *)

(** Stand-ins for the collaborators, small enough to run: they are not
    ed25519 nor JSON, only functions of the right shape, used to run the
    definitions above on concrete inputs. *)
Module Sample.

Definition hex_value (c : ascii) : option N :=
  let n := N_of_ascii c in
  if ((48 <=? n) && (n <=? 57))%N then Some (n - 48)%N
  else if ((97 <=? n) && (n <=? 102))%N then Some (n - 87)%N
  else None.

(** [bytes.fromhex(s)] on lowercase text *)
Fixpoint bytes_fromhex (s : string) : option bytes :=
  match s with
  | EmptyString => Some []
  | String a (String b rest) =>
      hi ← hex_value a; lo ← hex_value b;
      byte ← Byte.of_N (16 * hi + lo);
      tl ← bytes_fromhex rest;
      Some (byte :: tl)
  | _ => None
  end.

Definition text (s : string) : bytes := list_byte_of_string s.

(** A toy serialization: total on the JSON kinds, refusing the others. *)
Fixpoint serialize (v : value) : option bytes :=
  match v with
  | VNone => Some (text "null")
  | VBool b => Some (text (if b then "true" else "false"))
  | VInt z => Some (text ("i" +:+ pretty z))
  | VFloat bits => Some (text ("f" +:+ pretty bits))
  | VStr s => Some (text (dquote +:+ s +:+ dquote))
  | VList l | VTuple l =>
      foldr (λ x acc, b ← serialize x; a ← acc; Some (text "," ++ b ++ a)%list)
            (Some (text "]")) l
  | VDict d =>
      map_fold (λ k x acc, b ← serialize x; a ← acc;
                           Some (text (k +:+ ":") ++ b ++ text ";" ++ a)%list)
               (Some (text "}")) d
  | _ => None
  end.

Definition sample_canonserialize (v : value) : outcome bytes :=
  match serialize v with
  | Some b => Ok b
  | None => type_error "Object is not JSON serializable"
  end.

(** A toy signature: 64 bytes read off the seed and the message. *)
Definition toy_sign (seed data : bytes) : bytes :=
  take 64 (seed ++ data ++ replicate 64 Byte.x00)%list.

(** A toy key pair: the public key is the seed reversed. *)
Definition toy_public (seed : bytes) : bytes := reverse seed.

Definition private_key (seed : bytes) : value := VInstance "PrivateKey" (VBytes seed).
Definition public_key (raw : bytes) : value := VInstance "PublicKey" (VBytes raw).

Definition ok_if (b : bool) (e : exn) : outcome unit :=
  if b then Ok () else Raise e.

Definition signable_shape (v : value) : bool :=
  match v with
  | VDict d =>
      match d !! "signatures", d !! "signed" with
      | Some (VDict _), Some _ => true
      | _, _ => false
      end
  | _ => false
  end.

Definition sample_common : Common := {|
  SUPPORTED_SERIALIZABLE_TYPES :=
    [TDict; TList; TTuple; TStr; TInt; TFloat; TBool; TNoneType];
  canonserialize := sample_canonserialize;
  PrivateKey_sign := λ key data,
    match key with
    | VInstance "PrivateKey" (VBytes seed) => Ok (toy_sign seed data)
    | _ => attribute_error "sign"
    end;
  PrivateKey_public_key := λ key,
    match key with
    | VInstance "PrivateKey" (VBytes seed) => Ok (public_key (toy_public seed))
    | _ => attribute_error "public_key"
    end;
  PrivateKey_from_hex := λ v,
    match v with
    | VStr s =>
        match bytes_fromhex s with
        | Some seed => Ok (private_key seed)
        | None => Raise (Exn ValueError "non-hexadecimal number found")
        end
    | _ => type_error "fromhex() argument must be str"
    end;
  PublicKey_to_hex := λ key,
    match key with
    | VInstance "PublicKey" (VBytes raw) => Ok (VStr (bytes_hex raw))
    | _ => type_error "Expected a PublicKey"
    end;
  checkformat_key := λ key,
    match key with
    | VInstance "PrivateKey" (VBytes raw) | VInstance "PublicKey" (VBytes raw) =>
        ok_if (length raw =? 32)%nat (Exn ValueError "Expected a 32-byte key")
    | _ => type_error "Expected a key object"
    end;
  checkformat_signable := λ v,
    ok_if (signable_shape v) (Exn TypeError "Expected a signable dictionary");
  checkformat_signature := λ v,
    match getitem v "signature" with
    | Ok (VStr s) =>
        ok_if (is_lower_hex 128 s) (Exn ValueError "Expected 128 hex characters")
    | _ => type_error "Expected a signature dictionary"
    end;
  checkformat_hex_key := λ v,
    match v with
    | VStr s => ok_if (is_lower_hex 64 s) (Exn ValueError "Expected 64 hex characters")
    | _ => type_error "Expected a hex string"
    end;
  checkformat_string := λ v,
    match v with
    | VStr _ => Ok ()
    | _ => type_error "Expected a string"
    end;
  checkformat_byteslike := λ v,
    match v with
    | VBytes _ => Ok ()
    | _ => type_error "Expected bytes"
    end;
  checkformat_gpg_fingerprint := λ v,
    match v with
    | VStr s => ok_if (is_lower_hex 40 s) (Exn ValueError "Expected 40 hex characters")
    | _ => type_error "Expected a hex string"
    end;
  is_signable := signable_shape;
  repr := λ _, "<object>"
|}.

(** Verification for the toy signature. *)
Definition sample_verify (signature_hex pubkey_hex : string) (data : bytes) : bool :=
  match bytes_fromhex pubkey_hex with
  | Some raw => String.eqb signature_hex (bytes_hex (toy_sign (reverse raw) data))
  | None => false
  end.

Definition seed_of (b : Byte.byte) : bytes := replicate 32 b.

Definition seed_A : bytes := seed_of Byte.x0a.
Definition seed_B : bytes := seed_of Byte.x0b.
Definition hex_A : string := bytes_hex (toy_public seed_A).
Definition hex_B : string := bytes_hex (toy_public seed_B).

(** A dict from its pairs. *)
Definition dict (pairs : list (string * value)) : value :=
  VDict (list_to_map pairs).

(** The GPG key of the samples: its fingerprint, and the raw key and seed
    behind it. *)
Definition fingerprint : string := "94a3eed0806c1f107754a446fdad11b82dd40e8c".
Definition seed_G : bytes := seed_of Byte.x0c.
Definition hex_G : string := bytes_hex (toy_public seed_G).

Definition sample_gpg : Gpg := {|
  SSLIB_AVAILABLE := true;
  create_signature := λ data keyid,
    match data with
    | VBytes b =>
        Ok (dict [("keyid", keyid);
                  ("other_headers", VStr "04001608001d1621");
                  ("signature", VStr (bytes_hex (toy_sign seed_G b)))])
    | _ => type_error "Expected bytes"
    end;
  export_pubkey := λ keyid,
    if eq_str keyid fingerprint then
      Ok (dict [("keyid", keyid);
                ("keyval", dict [("private", VStr "");
                                 ("public", dict [("q", VStr hex_G)])]);
                ("type", VStr "eddsa")])
    else Raise (Exn ValueError "Key not found")
|}.

(** ** Sample metadata *)

Definition delegation_record (keys : list string) (threshold : Z) : value :=
  dict [("pubkeys", VList (VStr <$> keys)); ("threshold", VInt threshold)].

(** An envelope over [signed], signed with each of the seeds. *)
Definition signed_by (seeds : list bytes) (signed : value) : value :=
  dict [("signatures",
         dict ((λ seed,
                  (bytes_hex (toy_public seed),
                   Signing.signature_record
                     (after "" (Signing.signature_hex_of (H := sample_common)
                                  (private_key seed) signed)))) <$> seeds));
        ("signed", signed)].

(** Root version 1: the root keys are [A], threshold 1. *)
Definition root_v1_signed : value :=
  dict [("type", VStr "root"); ("version", VInt 1);
        ("timestamp", VStr "2020-01-01T00:00:00Z");
        ("delegations",
         dict [("root", delegation_record [hex_A] 1);
               ("key_mgr", delegation_record [hex_A; hex_B] 2)])].

(** Root version 2 rotates the root key to [B]. *)
Definition root_v2_signed : value :=
  dict [("type", VStr "root"); ("version", VInt 2);
        ("timestamp", VStr "2021-01-01T00:00:00Z");
        ("delegations",
         dict [("root", delegation_record [hex_B] 1);
               ("key_mgr", delegation_record [hex_A] 1)])].

(** The same content declaring version 3. *)
Definition root_v3_signed : value :=
  dict [("type", VStr "root"); ("version", VInt 3);
        ("timestamp", VStr "2021-01-01T00:00:00Z");
        ("delegations",
         dict [("root", delegation_record [hex_B] 1);
               ("key_mgr", delegation_record [hex_A] 1)])].

Definition key_mgr_signed : value :=
  dict [("type", VStr "key_mgr"); ("version", VInt 1);
        ("timestamp", VStr "2021-06-01T00:00:00Z");
        ("delegations", dict [("pkg_mgr", delegation_record [hex_B] 1)])].

Definition root_v1 : value := signed_by [seed_A] root_v1_signed.
Definition root_v2 : value := signed_by [seed_A; seed_B] root_v2_signed.
Definition root_v2_without_B : value := signed_by [seed_A] root_v2_signed.
Definition root_v3 : value := signed_by [seed_A; seed_B] root_v3_signed.
Definition key_mgr_by_A : value := signed_by [seed_A] key_mgr_signed.
Definition key_mgr_by_A_and_B : value := signed_by [seed_A; seed_B] key_mgr_signed.

(** A repository index: two artifacts with the same metadata, one [.conda]
    artifact, and a signature left over for an artifact no longer listed. *)
Definition packages : gmap string value :=
  list_to_map [("foo-1.0-0.tar.bz2", dict [("name", VStr "foo")]);
               ("bar-1.0-0.tar.bz2", dict [("name", VStr "foo")])].
Definition packages_conda : gmap string value :=
  list_to_map [("foo-1.0-0.conda", dict [("name", VStr "foo")])].
Definition repodata : gmap string value :=
  list_to_map [("info", dict [("subdir", VStr "noarch")]);
               ("packages", VDict packages);
               ("packages.conda", VDict packages_conda);
               ("signatures", dict [("gone-0.1-0.conda", dict [])])].

Definition key_hex_A : string := bytes_hex seed_A.

Definition metadata_foo : value := dict [("name", VStr "foo")].
(** The same content held by an instance of a subclass of [dict]. *)
Definition ordered_foo : value := VInstance "OrderedDict" metadata_foo.
(** An envelope over [metadata_foo], not signed yet. *)
Definition envelope_foo : gmap string value :=
  list_to_map [("signatures", VDict ∅); ("signed", metadata_foo)].

(** The canonical bytes of [metadata_foo] and the signature of [A] over
    them. *)
Definition data_foo : bytes := after [] (sample_canonserialize metadata_foo).
Definition sig_foo : bytes := toy_sign seed_A data_foo.

(** The fingerprint as GPG prints it. *)
Definition fingerprint_as_printed : string :=
  "94A3 EED0 806C 1F10 7754  A446 FDAD 11B8 2DD4 0E8C".

(** The fingerprint with a tab in the middle. *)
Definition fingerprint_with_tab : string :=
  "94a3eed0806c1f107754" +:+ String (ascii_of_nat 9) "a446fdad11b82dd40e8c".

(** The verifiers and the editor handed to [cli]. *)
Definition cli_verify_root (trusted untrusted : value) : outcome unit :=
  Authentication.raising
    (Authentication.verify_root (H := sample_common) sample_verify
       trusted untrusted).
Definition cli_verify_delegation (delegation_name untrusted trusted : value)
  : outcome unit :=
  match delegation_name with
  | VStr name =>
      Authentication.raising
        (Authentication.verify_delegation (H := sample_common) sample_verify
           name untrusted trusted)
  | _ => type_error "Expected a string"
  end.
Definition no_editor (metadata : value) : M unit := mret ().

Definition no_files : world := World ∅ [] [].
Definition with_files (pairs : list (string * value)) : world :=
  World (list_to_map pairs) [] [].

End Sample.

(* ===================================================================== *)
(** * conda_content_trust/root_signing.py: keys in securesystemslib's format *)
(* ===================================================================== *)

Module RootSigningFormats.

(** The constants [_gpg_pubkey_in_ssl_format] reads from
    [securesystemslib.formats].  An instance stands for the imported module:
    the function is modelled for a system on which the import succeeded. *)
Class SslibFormats := {
  GPG_ED25519_PUBKEY_METHOD_STRING : value;
  GPG_HASH_ALGORITHM_STRING : value
}.

Section RootSigningFormats.
Context `{Common} `{SslibFormats}.

Definition _gpg_pubkey_in_ssl_format (fingerprint q : value) : outcome value :=
  checkformat_gpg_fingerprint fingerprint;;
  checkformat_hex_key q;;
  let ssl_format_key :=
    VDict (list_to_map
      [("type", VStr "eddsa");
       ("method", GPG_ED25519_PUBKEY_METHOD_STRING);
       ("hashes", VList [GPG_HASH_ALGORITHM_STRING]);
       ("keyid", fingerprint);
       ("keyval", VDict (list_to_map
          [("private", VStr "");
           ("public", VDict (list_to_map [("q", q)]))]))]) in
  Ok ssl_format_key.

End RootSigningFormats.
End RootSigningFormats.

(* ===================================================================== *)
(** * conda_content_trust/cli.py: the interactive editor *)
(* ===================================================================== *)

Module Editor.

(** ** Basic text formatting string constants *)

(** The escape character, written [\033] in the source. *)
Definition ESC : string := String (ascii_of_nat 27) "".

Definition PINK : string := ESC +:+ "[95m".
Definition BLUE : string := ESC +:+ "[94m".
Definition CYAN : string := ESC +:+ "[96m".
Definition GREEN : string := ESC +:+ "[92m".
Definition YELLOW : string := ESC +:+ "[93m".
Definition RED : string := ESC +:+ "[91m".
Definition ENDC : string := ESC +:+ "[0m".
Definition BOLD : string := ESC +:+ "[1m".
Definition UNDERLINE : string := ESC +:+ "[4m".

Definition F_LABEL : string := ENDC +:+ UNDERLINE +:+ BOLD +:+ PINK.
Definition F_INSTRUCT : string := ENDC +:+ BOLD +:+ PINK.
Definition F_OPTS : string := ENDC +:+ GREEN.

(** The newline character, written [\n] in the source. *)
Definition nl : string := Cli.newline.

(** ** The console *)

(** The lines still to be read from standard input, and the world.  What is
    written to standard output is kept in [stdout] of the world, one entry for
    each [print] and one for each prompt of [input]. *)
Record console := Console { stdin : list string; env : world }.

(** What a statement of the editor raises: an exception of one of the classes
    of [exn], or the [EOFError] of [input] at the end of the input. *)
Inductive raised :=
| Error (e : exn)
| EOFError.

Inductive result (A : Type) :=
| Returns (a : A)
| Raises (r : raised).
Arguments Returns {A} a.
Arguments Raises {A} r.

(** A statement of the editor: it runs on a console, returns or raises, and
    leaves a console. *)
Definition E (A : Type) : Type := console → result A * console.

Definition E_ret {A} (a : A) : E A := λ c, (Returns a, c).
Definition E_bind {A B} (f : A → E B) (m : E A) : E B :=
  λ c, match m c with
       | (Returns a, c') => f a c'
       | (Raises r, c') => (Raises r, c')
       end.

#[global] Instance E_mret : MRet E := @E_ret.
#[global] Instance E_mbind : MBind E := @E_bind.

(** A statement that reads no input. *)
Definition run {A} (m : M A) : E A :=
  λ c, match m (env c) with
       | (Ok a, w) => (Returns a, Console (stdin c) w)
       | (Raise e, w) => (Raises (Error e), Console (stdin c) w)
       end.

(** [input(prompt)]: the prompt is written, and the next line is read without
    its end of line; at the end of the input [EOFError] is raised. *)
Definition _input_func (prompt : string) : E string :=
  λ c, let w := add_stdout prompt (env c) in
       match stdin c with
       | [] => (Raises EOFError, Console [] w)
       | line :: rest => (Returns line, Console rest w)
       end.

(** [try: body  except: ...]: whether [body] returned, and what; an [except]
    without class catches whatever is raised. *)
Definition attempt {A} (body : E A) : E (option A) :=
  λ c, match body c with
       | (Returns a, c') => (Returns (Some a), c')
       | (Raises _, c') => (Returns None, c')
       end.

(** [dict[key]] for a dict literal with integer keys, [None] when the key is
    not in it. *)
Fixpoint dict_get {A} (key : Z) (pairs : list (Z * A)) : option A :=
  match pairs with
  | [] => None
  | (k, a) :: rest => if k =? key then Some a else dict_get key rest
  end.

(** What [interactive_modify_metadata] uses besides the modules above: two
    predicates of [conda_content_trust.common], the optional package
    [pygments], and the builtins [json.dumps] and [int]. *)
Class Interactive := {
  is_hex_key : value → bool;
  is_gpg_fingerprint : value → bool;
  (** whether [import pygments], [pygments.lexers] and [pygments.formatters]
      succeed *)
  pygments_available : bool;
  (** [json.dumps(obj, sort_keys=True, indent=4)] *)
  json_dumps : value → outcome string;
  (** [pygments.highlight(text.encode('utf-8'), pygments.lexers.JsonLexer(),
      pygments.formatters.TerminalFormatter())] *)
  highlight : string → outcome string;
  (** [int(text)] for a string: the integer, and [None] where [int] raises
      [ValueError] *)
  int : string → option Z
}.

Section Editor.
Context `{Common} `{Gpg} `{Interactive}.

Definition promptfor (s : string) : E string :=
  _input_func (F_INSTRUCT +:+ nl +:+ "----- Please provide " +:+ s +:+ ENDC
               +:+ ": ").

(** The functions of the options share the variable [metadata] and change the
    object it holds in place: each takes that object and returns, with its
    return value, the object as it leaves it. *)

Definition fn_write (metadata : value) : E (Z * value) :=
  fname ← promptfor "a filename to save this metadata as";
  run (print "Writing to file....");;
  run (write_metadata_to_file metadata (VStr fname));;
  run (print "Modified metadata written!");;
  mret (1, metadata).

Definition fn_abort (metadata : value) : E (Z * value) :=
  run (print (RED +:+ BOLD +:+ nl +:+ "Aborting!" +:+ nl +:+ ENDC));;
  mret (1, metadata).

Definition fn_addsig (metadata : value) : E (Z * value) :=
  (if negb SSLIB_AVAILABLE then
     run (print (F_OPTS +:+ "Signing.  " +:+ RED +:+ "Please ABORT (control-c) if "
                 +:+ "the metadata above is not EXACTLY what you want to sign!"
                 +:+ ENDC))
   else mret ());;
  key ← promptfor
    ("a key: either:" +:+ nl +:+ "     - a 40-character-hex-string GPG PUBLIC "
     +:+ "key fingerprint" +:+ nl
     +:+ "       for GPG keys (e.g. root YubiKeys), or " +:+ nl +:+ "     - a "
     +:+ "64-character-hex-string PRIVATE key value for normal "
     +:+ "keys." +:+ nl +:+ nl
     +:+ "     Whitespace will be removed and characters will "
     +:+ "be lowercased." +:+ nl +:+ "     Key");
  let key := VStr (Cli.strip_and_lower key) in
  if is_hex_key key then
    private_key ← run (lift (PrivateKey_from_hex key));
    metadata ← run (Signing.sign_signable metadata private_key);
    run (print (F_OPTS +:+ nl +:+ nl +:+ "--- Successfully signed!  Please save."
                +:+ ENDC));;
    mret (0, metadata)
  else if is_gpg_fingerprint key then
    signed ← attempt (run (RootSigning.sign_root_metadata_dict_via_gpg metadata key));
    match signed with
    | None =>
        run (print (F_OPTS +:+ nl +:+ nl +:+ "--- " +:+ RED +:+ "Signing FAILED."
                    +:+ F_OPTS +:+ "  Do you have this key loaded in GPG on "
                    +:+ "this system?"));;
        mret (0, metadata)
    | Some metadata =>
        run (print (F_OPTS +:+ nl +:+ nl
                    +:+ "--- Successfully signed!  Please save." +:+ ENDC));;
        mret (0, metadata)
    end
  else
    run (print (F_OPTS +:+ RED +:+ "Unable to recognize key.  Please try again."
                +:+ ENDC));;
    mret (0, metadata).

Definition fn_remsig (metadata : value) : E (Z * value) := mret (0, metadata).
Definition fn_update (metadata : value) : E (Z * value) := mret (0, metadata).
Definition fn_adddel (metadata : value) : E (Z * value) := mret (0, metadata).
Definition fn_remdel (metadata : value) : E (Z * value) := mret (0, metadata).

(** [metadata['signed']['delegations']] *)
Definition delegations_in (metadata : value) : outcome value :=
  signed ← getitem metadata "signed"; getitem signed "delegations".

(** [metadata['signed']['delegations'][delegation]['threshold']] *)
Definition threshold_in (metadata : value) (delegation : string) : outcome value :=
  delegations ← delegations_in metadata;
  entry ← getitem delegations delegation;
  getitem entry "threshold".

(** [metadata['signed']['delegations'][delegation]['threshold'] = new_thresh]:
    the assignment is to the innermost dict, in place; the result is
    [metadata] after it. *)
Definition set_threshold_in (metadata : value) (delegation : string)
    (new_thresh : value) : outcome value :=
  signed ← getitem metadata "signed";
  delegations ← getitem signed "delegations";
  entry ← getitem delegations delegation;
  entry ← setitem entry "threshold" new_thresh;
  delegations ← setitem delegations delegation entry;
  signed ← setitem signed "delegations" delegations;
  setitem metadata "signed" signed.

(** The [assert] is taken as executed (Python not run with [-O]). *)
Definition fn_thresh (metadata : value) : E (Z * value) :=
  delegation ← promptfor
    ("a delegation name (one of the entries in the" +:+ nl
     +:+ "     " +:+ dquote +:+ "delegations" +:+ dquote
     +:+ " dictionary in the metadata above).  "
     +:+ "This will" +:+ nl
     +:+ "     be the delegation whose threshold number of "
     +:+ "required keys we" +:+ nl +:+ "     will change.");
  present ← run (lift (delegations ← delegations_in metadata;
                       contains delegation delegations));
  if negb present then
    run (print (F_OPTS +:+ nl +:+ nl +:+ "--- " +:+ RED
                +:+ "Unable to find that delegation."
                +:+ "  Please try again." +:+ ENDC));;
    mret (0, metadata)
  else
    current ← run (lift (threshold_in metadata delegation));
    new_thresh ← promptfor ("a new threshold value.  The current value is "
                            +:+ str current);
    match int new_thresh with
    | Some new_thresh =>
        if 1 <=? new_thresh then
          metadata ← run (lift (set_threshold_in metadata delegation
                                  (VInt new_thresh)));
          run (print (F_OPTS +:+ nl +:+ "--- Threshold successfully updated."
                      +:+ ENDC));;
          mret (0, metadata)
        else
          run (print (F_OPTS +:+ nl +:+ "--- " +:+ RED
                      +:+ "Invalid value.  Expecting integer "
                      +:+ "greater than or equal to 1.  Please try again."
                      +:+ ENDC));;
          mret (0, metadata)
    | None =>
        run (print (F_OPTS +:+ nl +:+ "--- " +:+ RED
                    +:+ "Invalid value.  Expecting integer "
                    +:+ "greater than or equal to 1.  Please try again."
                    +:+ ENDC));;
        mret (0, metadata)
    end.

Definition fn_addkey (metadata : value) : E (Z * value) := mret (0, metadata).
Definition fn_remkey (metadata : value) : E (Z * value) := mret (0, metadata).

Definition options : list (Z * ((value → E (Z * value)) * string)) :=
  [(0, (fn_write, "Done: write and save metadata"));
   (1, (fn_abort, "Abort: discard changes -- abort without writing"));
   (2, (fn_addsig, "Add a signature (sign with a key you have)"));
   (3, (fn_remsig, "Remove a signature"));
   (4, (fn_update, "Update any top-level dictionary entry"));
   (5, (fn_adddel, "Add a delegation"));
   (6, (fn_remdel, "Remove a delegation"));
   (7, (fn_thresh, "Change the threshold number of keys for a delegation"));
   (8, (fn_addkey, "Add an authorized key to a delegation"));
   (9, (fn_remkey, "Remove an authorized key from a delegation"))].

Definition option_text : string :=
  foldl (λ text option,
           text +:+ ("    " +:+ F_LABEL +:+ pretty option.1 +:+ ENDC +:+ ": "
                     +:+ option.2.2 +:+ ENDC +:+ nl))
        (F_INSTRUCT +:+ nl +:+ "--- Please choose an operation by entering its "
         +:+ "number" +:+ nl +:+ ENDC)
        options.

(** One round of the [while] loop: the value assigned to [done], 0 where the
    round ends in [continue], and [metadata] as the round leaves it. *)
Definition iteration (metadata : value) : E (Z * value) :=
  run (print (F_OPTS +:+ BOLD +:+ nl +:+ nl +:+ "---------------------" +:+ nl
              +:+ "--- Current metadata:" +:+ nl +:+ "---------------------"
              +:+ nl +:+ ENDC));;
  formatted_metadata ← run (lift (json_dumps metadata));
  highlighted ← run (lift (highlight formatted_metadata));
  run (print highlighted);;
  run (print option_text);;
  selected ← _input_func (F_OPTS +:+ "Choice: " +:+ ENDC);
  match int selected with
  | None =>
      run (print (RED +:+ BOLD +:+ nl +:+ "Invalid entry.  Try again." +:+ nl
                  +:+ ENDC));;
      mret (0, metadata)
  | Some selected =>
      match dict_get selected options with
      | None =>
          run (print (RED +:+ BOLD +:+ nl +:+ "Invalid entry.  Try again."
                      +:+ nl +:+ ENDC));;
          mret (0, metadata)
      | Some (fn, description) =>
          run (print (F_OPTS +:+ nl +:+ "Chose " +:+ dquote +:+ description
                      +:+ dquote +:+ ENDC));;
          fn metadata
      end
  end.

(** [while not done: ...], for at most [fuel] rounds: [metadata] at the end of
    the loop, or [None] when the rounds allowed do not reach it. *)
Fixpoint while_not_done (fuel : nat) (metadata : value) : E (option value) :=
  match fuel with
  | O => mret None
  | S fuel =>
      '(done, metadata) ← iteration metadata;
      if done =? 0 then while_not_done fuel metadata
      else mret (Some metadata)
  end.

(** The editor.  It returns nothing in the source; the result here is the
    object [metadata] holds when the loop ends.  Each round reads a line, so
    one round more than there are lines of input is allowed.  With [pygments]
    missing, the clause [except ImportError():] evaluates an instance and not
    a class, which raises [TypeError] in place of running the handler. *)
Definition interactive_modify_metadata (metadata : value) : E (option value) :=
  let initial_metadata := metadata in
  let metadata := deepcopy initial_metadata in
  if negb pygments_available then
    λ c, (Raises (Error (Exn TypeError
            "catching classes that do not inherit from BaseException is not allowed")),
          c)
  else
    λ c, while_not_done (S (length (stdin c))) metadata c.

End Editor.
End Editor.

(* ===================================================================== *)
(** * Spellings of a fingerprint *)
(* ===================================================================== *)

Module Spellings.

(** The two characters [fetch_keyval_from_gpg] removes: U+0020 and U+00A0. *)
Definition is_blank (c : ascii) : bool :=
  Ascii.eqb c " " || Ascii.eqb c RootSigning.nbsp.

(** [spells_with_blanks canonical spelling]: the text [spelling] is the
    string of lowercase hexadecimal digits [canonical] up to letter case and
    to the characters U+0020 and U+00A0 before, between and after the
    digits. *)
Inductive spells_with_blanks : string → string → Prop :=
| blanks_end : spells_with_blanks "" ""
| blanks_blank c canonical spelling :
    is_blank c = true →
    spells_with_blanks canonical spelling →
    spells_with_blanks canonical (String c spelling)
| blanks_digit c c' canonical spelling :
    Cli.writes_digit c' c = true →
    spells_with_blanks canonical spelling →
    spells_with_blanks (String c canonical) (String c' spelling).

(** The characters of a text. *)
Definition chars (s : string) : list ascii := list_ascii_of_string s.

(** The acceptance of every spelling by the lookup itself:
    [fetch_keyval_from_gpg], given a text that is 40 lowercase hexadecimal
    digits up to letter case and to whitespace anywhere, normalizes it to
    these digits and asks GPG for the key of that fingerprint. *)
Definition lookup_accepts_every_spelling `{Common} `{Gpg} : Prop :=
  ∀ spelling canonical w,
    Cli.spells canonical spelling →
    String.length canonical = 40%nat →
    RootSigning.normalized (VStr spelling) = Ok (VStr canonical) ∧
    RootSigning.fetch_keyval_from_gpg (VStr spelling) w
    = (export_pubkey (VStr canonical) ≫= RootSigning.raw_key_of,
       add_call (CallGpgExportPubkey (VStr canonical)) w).

End Spellings.

(* ===================================================================== *)
(** * Further sample collaborators and data *)
(* ===================================================================== *)

Module Scenarios.
Import Sample RootSigningFormats Editor.

(** A system without securesystemslib. *)
Definition no_gpg : Gpg := {|
  SSLIB_AVAILABLE := false;
  create_signature := create_signature (Gpg := sample_gpg);
  export_pubkey := export_pubkey (Gpg := sample_gpg)
|}.

(** A GPG whose reply has no ["keyid"]. *)
Definition gpg_without_keyid : Gpg := {|
  SSLIB_AVAILABLE := true;
  create_signature := λ data keyid,
    Ok (dict [("other_headers", VStr "04001608001d1621");
              ("signature", VStr (bytes_hex (toy_sign seed_G [])))]);
  export_pubkey := export_pubkey (Gpg := sample_gpg)
|}.

(** The fingerprint as GPG prints it, with no-break spaces. *)
Definition fingerprint_with_nbsp : string :=
  py_replace_char " " (String RootSigning.nbsp "") fingerprint_as_printed.

Definition sample_formats : SslibFormats := {|
  GPG_ED25519_PUBKEY_METHOD_STRING := VStr "pgp+eddsa-ed25519";
  GPG_HASH_ALGORITHM_STRING := VStr "pgp+SHA2"
|}.

(** A GPG that exports the sample key in the format of securesystemslib. *)
Definition gpg_in_ssl_format : Gpg := {|
  SSLIB_AVAILABLE := true;
  create_signature := create_signature (Gpg := sample_gpg);
  export_pubkey := λ keyid,
    _gpg_pubkey_in_ssl_format (H := sample_common) (H0 := sample_formats)
      keyid (VStr hex_G)
|}.

(** A verifier that rejects whatever it is given. *)
Definition reject_delegation (delegation_name untrusted trusted : value)
  : outcome unit :=
  Raise (Exn CCT_Error "verification failed").

(** Metadata whose declared type is a number. *)
Definition numbered : value :=
  dict [("signatures", dict []); ("signed", dict [("type", VInt 5)])].

(** A toy [int]: plain decimal numerals. *)
Definition digit (c : ascii) : option Z :=
  let n := nat_of_ascii c in
  if ((48 <=? n) && (n <=? 57))%nat then Some (Z.of_nat (n - 48)) else None.

Fixpoint digits (s : string) (acc : Z) : option Z :=
  match s with
  | EmptyString => Some acc
  | String c s' => d ← digit c; digits s' (10 * acc + d)
  end.

Definition decimal (s : string) : option Z :=
  match s with
  | EmptyString => None
  | _ => digits s 0
  end.

Definition sample_interactive : Interactive := {|
  is_hex_key := λ v,
    match v with VStr s => is_lower_hex 64 s | _ => false end;
  is_gpg_fingerprint := λ v,
    match v with VStr s => is_lower_hex 40 s | _ => false end;
  pygments_available := true;
  json_dumps := λ v,
    match serialize v with
    | Some b => Ok (string_of_list_byte b)
    | None => type_error "Object is not JSON serializable"
    end;
  highlight := λ formatted, Ok formatted;
  int := decimal
|}.

(** A system without pygments. *)
Definition no_pygments : Interactive := {|
  is_hex_key := is_hex_key (Interactive := sample_interactive);
  is_gpg_fingerprint := is_gpg_fingerprint (Interactive := sample_interactive);
  pygments_available := false;
  json_dumps := json_dumps (Interactive := sample_interactive);
  highlight := highlight (Interactive := sample_interactive);
  int := decimal
|}.

(** A console with the lines to be typed and no file. *)
Definition typing (lines : list string) : console := Console lines no_files.

End Scenarios.

(* ===================================================================== *)
(** * Properties of the object model *)
(* ===================================================================== *)

Import Signing RootSigning Cli Authentication.

(** Unfolds the statement combinators, leaving a term on worlds. *)
Ltac run :=
  unfold mbind, mret, M_mbind, M_mret, M_bind, M_ret, lift, raise, record,
    print, outcome_mbind, outcome_mret, outcome_bind in *; simpl in *.

Section ObjectInduction.

Lemma value_size_elem (l : list value) (x : value) :
  x ∈ l → (value_size x ≤ foldr (λ x n, value_size x + n) 0 l)%nat.
Proof.
  induction 1 as [x l|x y l _ IH]; simpl; lia.
Qed.

Lemma value_size_lookup (d : gmap string value) (k : string) (x : value) :
  d !! k = Some x →
  (value_size x ≤ map_fold (λ _ x n, value_size x + n) 0 d)%nat.
Proof.
  intros Hk.
  rewrite (map_fold_delete_L _ _ k x d); [lia | | done].
  intros; lia.
Qed.

(** Induction on objects, with the hypothesis for every element of a list, a
    tuple or a dict. *)
Lemma value_ind_deep (P : value → Prop) :
  P VNone →
  (∀ b, P (VBool b)) →
  (∀ z, P (VInt z)) →
  (∀ bits, P (VFloat bits)) →
  (∀ s, P (VStr s)) →
  (∀ b, P (VBytes b)) →
  (∀ l, Forall P l → P (VList l)) →
  (∀ l, Forall P l → P (VTuple l)) →
  (∀ d, map_Forall (λ _, P) d → P (VDict d)) →
  (∀ cls base, P base → P (VInstance cls base)) →
  ∀ v, P v.
Proof.
  intros HNone HBool HInt HFloat HStr HBytes HList HTuple HDict HInst v.
  remember (value_size v) as n eqn:Hn.
  revert v Hn.
  induction (lt_wf n) as [n _ IH]; intros v ->.
  destruct v as [| | | | | |l|l|d|cls base]; auto.
  - apply HList, Forall_forall. intros x Hx.
    apply (IH (value_size x)); [|done].
    pose proof (value_size_elem l x Hx). simpl. lia.
  - apply HTuple, Forall_forall. intros x Hx.
    apply (IH (value_size x)); [|done].
    pose proof (value_size_elem l x Hx). simpl. lia.
  - apply HDict. intros k x Hk.
    apply (IH (value_size x)); [|done].
    pose proof (value_size_lookup d k x Hk). simpl. lia.
  - apply HInst. apply (IH (value_size base)); [simpl; lia | done].
Qed.

(** A deep copy is structurally the object it copies. *)
Lemma deepcopy_id (v : value) : deepcopy v = v.
Proof.
  induction v as [| | | | | |l IH|l IH|d IH|cls base IH] using value_ind_deep;
    simpl; try done.
  - f_equal. rewrite <- (list_fmap_id l) at 2. by apply Forall_fmap_ext_1.
  - f_equal. rewrite <- (list_fmap_id l) at 2. by apply Forall_fmap_ext_1.
  - f_equal. apply map_eq. intros k. rewrite lookup_fmap.
    destruct (d !! k) as [x|] eqn:Hk; simpl; [|done].
    f_equal. by apply (IH k).
  - by rewrite IH.
Qed.

End ObjectInduction.

Section ItemLemmas.

Lemma getitem_setitem_eq (v v' x : value) (k : string) :
  setitem v k x = Ok v' → getitem v' k = Ok x.
Proof.
  revert v'. induction v as [| | | | | | | |d|cls base IH]; intros v' Hset;
    simpl in Hset; try discriminate.
  - injection Hset as <-. simpl. by rewrite lookup_insert_eq.
  - destruct (setitem base k x) as [b|e] eqn:Hb; simpl in Hset; [|discriminate].
    injection Hset as <-. simpl. by apply IH.
Qed.

Lemma getitem_setitem_ne (v v' x : value) (k k' : string) :
  setitem v k x = Ok v' → k' ≠ k → getitem v' k' = getitem v k'.
Proof.
  revert v'. induction v as [| | | | | | | |d|cls base IH]; intros v' Hset Hne;
    simpl in Hset; try discriminate.
  - injection Hset as <-. simpl. by rewrite lookup_insert_ne.
  - destruct (setitem base k x) as [b|e] eqn:Hb; simpl in Hset; [|discriminate].
    injection Hset as <-. simpl. by apply IH.
Qed.

(** Assigning again what was just assigned changes nothing. *)
Lemma setitem_again (v v' x : value) (k : string) :
  setitem v k x = Ok v' → setitem v' k x = Ok v'.
Proof.
  revert v'. induction v as [| | | | | | | |d|cls base IH]; intros v' Hset;
    simpl in Hset; try discriminate.
  - injection Hset as <-. simpl. by rewrite insert_insert_eq.
  - destruct (setitem base k x) as [b|e] eqn:Hb; simpl in Hset; [|discriminate].
    injection Hset as <-. simpl. by rewrite (IH b).
Qed.

Lemma setitem_at_str (v key x v' : value) :
  setitem_at v key x = Ok v' → ∃ k, key = VStr k ∧ setitem v k x = Ok v'.
Proof. destruct key; simpl; try discriminate. eauto. Qed.

End ItemLemmas.

(* ===================================================================== *)
(** * Properties of signing.py *)
(* ===================================================================== *)

(** C3.  [wrap_as_signable] returns the dict with exactly the two entries
    ["signatures": {}] and ["signed": deepcopy(obj)] when [type(obj)] is one
    of [SUPPORTED_SERIALIZABLE_TYPES], and raises [TypeError] otherwise.  The
    test is on the concrete type alone: an object that is an instance of a
    supported type only through a subclass is refused.  In both cases the world is left as it
    was: no call to the canonical serializer or to a signer has been made. *)
Theorem wrap_as_signable_strict `{Common} (obj : value) (w : world) :
  (type_in (type_of obj) SUPPORTED_SERIALIZABLE_TYPES = true →
   ∃ d, wrap_as_signable obj w = (Ok (VDict d), w) ∧
        dom d = {["signatures"; "signed"]} ∧
        d !! "signatures" = Some (VDict ∅) ∧
        d !! "signed" = Some (deepcopy obj) ∧
        deepcopy obj = obj) ∧
  (type_in (type_of obj) SUPPORTED_SERIALIZABLE_TYPES = false →
   ∃ msg, wrap_as_signable obj w = (Raise (Exn TypeError msg), w)) ∧
  (∀ cls base t,
     obj = VInstance cls base →
     type_in t SUPPORTED_SERIALIZABLE_TYPES = true → isinstance obj t = true →
     type_in (TClass cls) SUPPORTED_SERIALIZABLE_TYPES = false →
     ∃ msg, wrap_as_signable obj w = (Raise (Exn TypeError msg), w)).
Proof.
  unfold wrap_as_signable. repeat split.
  - intros ->.
    exists (<["signatures" := VDict ∅]> (<["signed" := deepcopy obj]> ∅)).
    split; [reflexivity|].
    split; [|split; [|split]].
    + rewrite !dom_insert_L, dom_empty_L. set_solver.
    + by rewrite lookup_insert_eq.
    + rewrite lookup_insert_ne by done. by rewrite lookup_insert_eq.
    + apply deepcopy_id.
  - intros ->. simpl. eexists. reflexivity.
  - intros cls base t -> _ _ Hcls. simpl. rewrite Hcls. simpl.
    eexists. reflexivity.
Qed.

Section SignSignable.
Context `{Common}.

Lemma setitem_defined (v x y : value) (k : string) :
  getitem v k = Ok x → ∃ v', setitem v k y = Ok v'.
Proof.
  induction v as [| | | | | | | |d|cls base IH]; intros Hget;
    simpl in Hget; try discriminate; simpl.
  - eauto.
  - destruct (IH Hget) as [b ->]. simpl. eauto.
Qed.

(** What a call of [sign_signable] that returns has done, step by step. *)
Lemma sign_signable_inv (signable private_key signable' : value) (w w' : world) :
  sign_signable signable private_key w = (Ok signable', w') →
  ∃ signed data sig public pubhex sigs sigs',
    checkformat_key private_key = Ok () ∧
    checkformat_signable signable = Ok () ∧
    getitem signable "signed" = Ok signed ∧
    canonserialize signed = Ok data ∧
    PrivateKey_sign private_key data = Ok sig ∧
    PrivateKey_public_key private_key = Ok public ∧
    PublicKey_to_hex public = Ok (VStr pubhex) ∧
    checkformat_signature (signature_record (bytes_hex sig)) = Ok () ∧
    getitem signable "signatures" = Ok sigs ∧
    setitem sigs pubhex (signature_record (bytes_hex sig)) = Ok sigs' ∧
    setitem signable "signatures" sigs' = Ok signable' ∧
    w' = add_call (CallSign private_key data)
           (add_call (CallCanonserialize signed) w).
Proof.
  unfold sign_signable, serialize_and_sign. run. intros Hrun.
  repeat (case_match; simplify_eq/=).
  match goal with
  | Hat : setitem_at _ _ _ = Ok _ |- _ =>
      apply setitem_at_str in Hat as (pubhex & -> & Hat)
  end.
  repeat match goal with u : unit |- _ => destruct u end.
  do 7 eexists. repeat split; eauto.
Qed.

(** The converse: when every step goes through, the call returns. *)
Lemma sign_signable_run (signable private_key : value) (w : world)
    signed data sig public pubhex sigs sigs' signable' :
  checkformat_key private_key = Ok () →
  checkformat_signable signable = Ok () →
  getitem signable "signed" = Ok signed →
  canonserialize signed = Ok data →
  PrivateKey_sign private_key data = Ok sig →
  PrivateKey_public_key private_key = Ok public →
  PublicKey_to_hex public = Ok (VStr pubhex) →
  checkformat_signature (signature_record (bytes_hex sig)) = Ok () →
  getitem signable "signatures" = Ok sigs →
  setitem sigs pubhex (signature_record (bytes_hex sig)) = Ok sigs' →
  setitem signable "signatures" sigs' = Ok signable' →
  sign_signable signable private_key w =
    (Ok signable', add_call (CallSign private_key data)
                     (add_call (CallCanonserialize signed) w)).
Proof.
  intros Hkey Hfmt Hsigned Hdata Hsig Hpub Hhex Hrec Hsigs Hset Hset'.
  unfold sign_signable, serialize_and_sign. run.
  rewrite Hkey, Hfmt, Hsigned, Hdata, Hsig, Hpub, Hhex, Hrec, Hsigs.
  simpl. by rewrite Hset, Hset'.
Qed.

(** Whether the call returns, and what it returns, does not depend on the
    world it runs in. *)
Lemma sign_signable_any_world (signable private_key : value) (w1 w2 : world) :
  (sign_signable signable private_key w1).1
  = (sign_signable signable private_key w2).1.
Proof.
  unfold sign_signable, serialize_and_sign. run.
  repeat (case_match; simplify_eq/=); done.
Qed.

Lemma sign_signable_world (signable private_key : value) (w : world) :
  files (sign_signable signable private_key w).2 = files w ∧
  stdout (sign_signable signable private_key w).2 = stdout w.
Proof.
  unfold sign_signable, serialize_and_sign. run.
  repeat (case_match; simplify_eq/=); done.
Qed.

End SignSignable.

(** C4.  [sign_signable] changes the envelope in its signatures map only, and
    there in one entry only.  Whatever the arguments: files and console are
    untouched, every field of the envelope other than ["signatures"] (so
    ["signed"]) reads as before, and a signature entry that reads differently
    is the one under the hex of the public key of [private_key].  When the
    checks of the function pass on a well-formed envelope and a valid key, the
    call returns and the entry under that hex is
    [{"signature": hex of the signature over canonserialize(signable["signed"])}],
    whatever was there before. *)
Theorem sign_signable_frame `{Common} (signable private_key : value) (w : world) :
  let r := sign_signable signable private_key w in
  let signable' := after signable r.1 in
  files r.2 = files w ∧ stdout r.2 = stdout w ∧
  (∀ field, field ≠ "signatures" →
     getitem signable' field = getitem signable field) ∧
  (∀ key, signature_entry signable' key = signature_entry signable key ∨
          public_hex_of private_key = Ok (VStr key)) ∧
  (∀ signed data sig public pubhex sigs,
     checkformat_key private_key = Ok () →
     checkformat_signable signable = Ok () →
     getitem signable "signed" = Ok signed →
     getitem signable "signatures" = Ok (VDict sigs) →
     canonserialize signed = Ok data →
     PrivateKey_sign private_key data = Ok sig →
     PrivateKey_public_key private_key = Ok public →
     PublicKey_to_hex public = Ok (VStr pubhex) →
     checkformat_signature (signature_record (bytes_hex sig)) = Ok () →
     r.1 = Ok signable' ∧
     getitem signable' "signatures"
       = Ok (VDict (<[pubhex := signature_record (bytes_hex sig)]> sigs)) ∧
     getitem signable' "signed" = Ok signed).
Proof.
  intros r signable'.
  destruct (sign_signable_world signable private_key w) as [Hfiles Hout].
  split; [done|]. split; [done|].
  assert (Hcases : (∃ e, r.1 = Raise e ∧ signable' = signable) ∨
    (∃ signed (sig : bytes) public pubhex sigs sigs',
       getitem signable "signed" = Ok signed ∧
       PrivateKey_public_key private_key = Ok public ∧
       PublicKey_to_hex public = Ok (VStr pubhex) ∧
       getitem signable "signatures" = Ok sigs ∧
       setitem sigs pubhex (signature_record (bytes_hex sig)) = Ok sigs' ∧
       setitem signable "signatures" sigs' = Ok signable')).
  { subst signable' r.
    destruct (sign_signable signable private_key w) as [[s'|e] w'] eqn:Hrun.
    - right. apply sign_signable_inv in Hrun
        as (signed & data & sig & public & pubhex & sigs & sigs' & ? & ? & ?
            & ? & ? & ? & ? & ? & ? & ? & ? & ?).
      simpl. by exists signed, sig, public, pubhex, sigs, sigs'.
    - left. by exists e. }
  split; [|split].
  - intros field Hfield.
    destruct Hcases as [(e & _ & ->)|(? & ? & ? & ? & ? & sigs' & ? & ? & ?
                                      & ? & ? & Hset)]; [done|].
    by apply (getitem_setitem_ne _ _ _ _ _ Hset).
  - intros key.
    destruct Hcases as [(e & _ & ->)|(? & ? & public & pubhex & sigs & sigs'
                                      & ? & Hpub & Hhex & Hsigs & Hset & Hset')];
      [by left|].
    destruct (decide (key = pubhex)) as [->|Hne].
    + right. unfold public_hex_of. by rewrite Hpub.
    + left. unfold signature_entry.
      rewrite (getitem_setitem_eq _ _ _ _ Hset'), Hsigs. simpl.
      by apply (getitem_setitem_ne _ _ _ _ _ Hset).
  - intros signed data sig public pubhex sigs
      Hkey Hfmt Hsigned Hsigs Hdata Hsig Hpub Hhex Hrec.
    destruct (setitem_defined signable (VDict sigs)
                (VDict (<[pubhex := signature_record (bytes_hex sig)]> sigs))
                "signatures" Hsigs) as [s' Hset'].
    assert (Hrun := sign_signable_run signable private_key w signed data sig
                      public pubhex (VDict sigs) _ s'
                      Hkey Hfmt Hsigned Hdata Hsig Hpub Hhex Hrec Hsigs
                      eq_refl Hset').
    subst signable' r. rewrite Hrun. simpl.
    split; [done|]. split.
    + by apply (getitem_setitem_eq _ _ _ _ Hset').
    + rewrite <- Hsigned. by apply (getitem_setitem_ne _ _ _ _ _ Hset').
Qed.

(** C5.  Signing twice in a row with the same key leaves the envelope as
    signing once left it: the second call computes the same signature over
    the same payload (signing is a function of key and message) and assigns
    the same record under the same key.  This holds for every envelope and
    key, also when a call raises; and when the first call returned and the
    format check accepts the signed envelope, the second call returns it
    too. *)
Theorem sign_signable_idempotent `{Common} (signable private_key : value)
    (w : world) :
  let r1 := sign_signable signable private_key w in
  let signable1 := after signable r1.1 in
  let r2 := sign_signable signable1 private_key r1.2 in
  after signable1 r2.1 = signable1 ∧
  (r1.1 = Ok signable1 → checkformat_signable signable1 = Ok () →
   r2.1 = Ok signable1).
Proof.
  intros r1 signable1 r2. subst r2 signable1 r1.
  destruct (sign_signable signable private_key w) as [[s1|e] w1] eqn:Hrun1;
    simpl.
  - apply sign_signable_inv in Hrun1
      as (signed & data & sig & public & pubhex & sigs & sigs' & Hkey & Hfmt
          & Hsigned & Hdata & Hsig & Hpub & Hhex & Hrec & Hsigs & Hset & Hset'
          & ->).
    assert (Hsigned1 : getitem s1 "signed" = Ok signed).
    { rewrite <- Hsigned. by apply (getitem_setitem_ne _ _ _ _ _ Hset'). }
    assert (Hsigs1 : getitem s1 "signatures" = Ok sigs')
      by apply (getitem_setitem_eq _ _ _ _ Hset').
    split.
    + destruct (sign_signable s1 private_key _) as [[s2|e2] w2] eqn:Hrun2;
        simpl; [|done].
      apply sign_signable_inv in Hrun2
        as (signed2 & data2 & sig2 & public2 & pubhex2 & sigs2 & sigs2' & _ & _
            & Hsigned2 & Hdata2 & Hsig2 & Hpub2 & Hhex2 & _ & Hsigs2 & Hset2
            & Hset2' & _).
      rewrite Hsigned1 in Hsigned2. injection Hsigned2 as <-.
      rewrite Hdata in Hdata2. injection Hdata2 as <-.
      rewrite Hsig in Hsig2. injection Hsig2 as <-.
      rewrite Hpub in Hpub2. injection Hpub2 as <-.
      rewrite Hhex in Hhex2. injection Hhex2 as <-.
      rewrite Hsigs1 in Hsigs2. injection Hsigs2 as <-.
      rewrite (setitem_again _ _ _ _ Hset) in Hset2. injection Hset2 as <-.
      rewrite (setitem_again _ _ _ _ Hset') in Hset2'. by injection Hset2'.
    + intros _ Hfmt1.
      erewrite sign_signable_run; eauto using setitem_again.
  - split; [|done].
    pose proof (sign_signable_any_world signable private_key w w1) as Hany.
    rewrite Hrun1 in Hany. simpl in Hany.
    destruct (sign_signable signable private_key w1) as [[s2|e2] w2]; simpl in *;
      [discriminate|done].
Qed.

Section SignAllInRepodata.
Context `{Common}.

Lemma byte_hex_lower (b : Byte.byte) : is_lower_hex 2 (byte_hex b) = true.
Proof. destruct b; reflexivity. Qed.

Lemma string_forallb_app (p : ascii → bool) (s t : string) :
  string_forallb p (s +:+ t) = string_forallb p s && string_forallb p t.
Proof.
  induction s as [|c s IH]; simpl; [done|]. rewrite IH. by destruct (p c).
Qed.

Lemma string_length_app (s t : string) :
  String.length (s +:+ t) = (String.length s + String.length t)%nat.
Proof. induction s as [|c s IH]; simpl; [done|]. by rewrite IH. Qed.

(** The hex text of [n] bytes is [2 * n] lowercase hexadecimal digits. *)
Lemma bytes_hex_lower (bs : bytes) :
  is_lower_hex (2 * length bs) (bytes_hex bs) = true.
Proof.
  unfold is_lower_hex. apply andb_true_iff. split.
  - apply Nat.eqb_eq. induction bs as [|b bs IH]; [done|].
    change (bytes_hex (b :: bs)) with (byte_hex b +:+ bytes_hex bs).
    rewrite string_length_app, IH. simpl. lia.
  - induction bs as [|b bs IH]; [done|].
    change (bytes_hex (b :: bs)) with (byte_hex b +:+ bytes_hex bs).
    rewrite string_forallb_app, IH.
    pose proof (byte_hex_lower b) as Hb. unfold is_lower_hex in Hb.
    apply andb_true_iff in Hb as [_ ->]. done.
Qed.

Lemma serialize_and_sign_run (private metadata : value) (h : string) (w : world) :
  signature_hex_of private metadata = Ok h →
  ∃ w', serialize_and_sign metadata private w = (Ok h, w') ∧
        files w' = files w ∧ stdout w' = stdout w.
Proof.
  unfold signature_hex_of, serialize_and_sign. run. intros Hh.
  repeat (case_match; simplify_eq/=). eauto.
Qed.

Lemma assign_entries_union (private : value) (pubhex : string)
    (pairs : list (string * value)) (sigs : gmap string value) :
  NoDup pairs.*1 →
  assign_entries private pubhex pairs sigs
  = (entry_for private pubhex <$> (list_to_map pairs : gmap string value)) ∪ sigs.
Proof.
  unfold assign_entries. revert sigs.
  induction pairs as [|[k x] pairs IH]; intros sigs Hnodup; simpl.
  - by rewrite fmap_empty, (left_id_L ∅ (∪)).
  - apply NoDup_cons in Hnodup as [Hk Hnodup].
    rewrite IH by done. rewrite fmap_insert.
    rewrite <- insert_union_l, <- insert_union_r; [done|].
    rewrite lookup_fmap. by rewrite (not_elem_of_list_to_map_1 _ _ Hk).
Qed.

Lemma assign_entries_map (private : value) (pubhex : string)
    (m sigs : gmap string value) :
  assign_entries private pubhex (map_to_list m) sigs
  = (entry_for private pubhex <$> m) ∪ sigs.
Proof.
  rewrite assign_entries_union by apply NoDup_fst_map_to_list.
  by rewrite list_to_map_to_list.
Qed.

Lemma for_each_cons_ok {A} (k : string) (x : value)
    (rest : list (string * value)) (body : string → value → A → M A)
    (acc acc' : A) (w w' : world) :
  body k x acc w = (Ok acc', w') →
  for_each ((k, x) :: rest) body acc w = for_each rest body acc' w'.
Proof. intros Hbody. simpl. unfold mbind, M_mbind, M_bind. by rewrite Hbody. Qed.

Lemma sign_package_run (private : value) (pubhex k h : string) (x : value)
    (rd sigs : gmap string value) (w : world) :
  rd !! "signatures" = Some (VDict sigs) →
  signature_hex_of private x = Ok h →
  checkformat_signature (signature_record h) = Ok () →
  ∃ w', sign_package private (VStr pubhex) k x (VDict rd) w
        = (Ok (VDict (<["signatures" :=
                          VDict (<[k := entry_for private pubhex x]> sigs)]> rd)),
           w') ∧
        files w' = files w ∧ stdout w' = stdout w.
Proof.
  intros Hsigs Hh Hrec.
  destruct (serialize_and_sign_run private x h w Hh) as (w1 & Hrun & Hf & Ho).
  exists w1. split; [|done].
  unfold sign_package, entry_for. run. rewrite Hrun, Hrec, Hh. simpl.
  by rewrite Hsigs.
Qed.

Lemma sign_package_conda_run (private : value) (pubhex k h : string) (x : value)
    (rd sigs : gmap string value) (w : world) :
  rd !! "signatures" = Some (VDict sigs) →
  signature_hex_of private x = Ok h →
  ∃ w', sign_package_conda private (VStr pubhex) k x (VDict rd) w
        = (Ok (VDict (<["signatures" :=
                          VDict (<[k := entry_for private pubhex x]> sigs)]> rd)),
           w') ∧
        files w' = files w ∧ stdout w' = stdout w.
Proof.
  intros Hsigs Hh.
  destruct (serialize_and_sign_run private x h w Hh) as (w1 & Hrun & Hf & Ho).
  exists w1. split; [|done].
  unfold sign_package_conda, entry_for. run. rewrite Hrun, Hh. simpl.
  by rewrite Hsigs.
Qed.

(** The first loop, when every artifact can be signed. *)
Lemma sign_packages_run (private : value) (pubhex : string)
    (pairs : list (string * value)) (rd sigs : gmap string value) (w : world) :
  rd !! "signatures" = Some (VDict sigs) →
  Forall (λ kv, ∃ h, signature_hex_of private kv.2 = Ok h ∧
                     checkformat_signature (signature_record h) = Ok ()) pairs →
  ∃ w', for_each pairs (sign_package private (VStr pubhex)) (VDict rd) w
        = (Ok (VDict (<["signatures" :=
                          VDict (assign_entries private pubhex pairs sigs)]> rd)),
           w') ∧
        files w' = files w ∧ stdout w' = stdout w.
Proof.
  revert rd sigs w.
  induction pairs as [|[k x] pairs IH]; intros rd sigs w Hsigs Hall.
  - exists w. simpl. by rewrite insert_id.
  - apply Forall_cons in Hall as [(h & Hh & Hrec) Hall]. simpl in Hh.
    destruct (sign_package_run private pubhex k h x rd sigs w Hsigs Hh Hrec)
      as (w1 & Hstep & Hf & Ho).
    set (rd1 := <["signatures" :=
                   VDict (<[k := entry_for private pubhex x]> sigs)]> rd) in *.
    destruct (IH rd1 (<[k := entry_for private pubhex x]> sigs) w1)
      as (w' & Hloop & Hf' & Ho'); [by apply lookup_insert_eq | done |].
    exists w'. split; [|by rewrite Hf', Ho'].
    rewrite (for_each_cons_ok _ _ _ _ _ _ _ _ Hstep), Hloop.
    unfold rd1. by rewrite insert_insert_eq.
Qed.

(** The second loop, over ["packages.conda"]. *)
Lemma sign_packages_conda_run (private : value) (pubhex : string)
    (pairs : list (string * value)) (rd sigs : gmap string value) (w : world) :
  rd !! "signatures" = Some (VDict sigs) →
  Forall (λ kv, ∃ h, signature_hex_of private kv.2 = Ok h) pairs →
  ∃ w', for_each pairs (sign_package_conda private (VStr pubhex)) (VDict rd) w
        = (Ok (VDict (<["signatures" :=
                          VDict (assign_entries private pubhex pairs sigs)]> rd)),
           w') ∧
        files w' = files w ∧ stdout w' = stdout w.
Proof.
  revert rd sigs w.
  induction pairs as [|[k x] pairs IH]; intros rd sigs w Hsigs Hall.
  - exists w. simpl. by rewrite insert_id.
  - apply Forall_cons in Hall as [(h & Hh) Hall]. simpl in Hh.
    destruct (sign_package_conda_run private pubhex k h x rd sigs w Hsigs Hh)
      as (w1 & Hstep & Hf & Ho).
    set (rd1 := <["signatures" :=
                   VDict (<[k := entry_for private pubhex x]> sigs)]> rd) in *.
    destruct (IH rd1 (<[k := entry_for private pubhex x]> sigs) w1)
      as (w' & Hloop & Hf' & Ho'); [by apply lookup_insert_eq | done |].
    exists w'. split; [|by rewrite Hf', Ho'].
    rewrite (for_each_cons_ok _ _ _ _ _ _ _ _ Hstep), Hloop.
    unfold rd1. by rewrite insert_insert_eq.
Qed.

End SignAllInRepodata.

Section SignAllInRepodataRun.
Context `{Common}.

Lemma map_Forall_pairs (P : value → Prop) (m : gmap string value) :
  map_Forall (λ _, P) m → Forall (λ kv, P kv.2) (map_to_list m).
Proof.
  intros Hm. apply Forall_forall. intros [k x] Hkx.
  apply elem_of_map_to_list in Hkx. by apply (Hm k).
Qed.

(** The whole function, when the key, the file and every artifact are as the
    function expects them: the file is rewritten with the signatures mapping
    replaced, and nothing else changes. *)
Lemma sign_all_in_repodata_run (fname private_key_hex : string) (w : world)
    (repodata packages conda : gmap string value) (private public : value)
    (pubhex : string) :
  checkformat_hex_key (VStr private_key_hex) = Ok () →
  checkformat_string (VStr fname) = Ok () →
  PrivateKey_from_hex (VStr private_key_hex) = Ok private →
  PrivateKey_public_key private = Ok public →
  PublicKey_to_hex public = Ok (VStr pubhex) →
  files w !! fname = Some (VDict repodata) →
  repodata !! "packages" = Some (VDict packages) →
  default (VDict ∅) (repodata !! "packages.conda") = VDict conda →
  map_Forall (λ _ md, ∃ h, signature_hex_of private md = Ok h ∧
                checkformat_signature (signature_record h) = Ok ()) packages →
  map_Forall (λ _ md, ∃ h, signature_hex_of private md = Ok h) conda →
  ∃ w', sign_all_in_repodata (VStr fname) (VStr private_key_hex) w = (Ok (), w') ∧
        files w' = <[fname := VDict (<["signatures" :=
                      VDict (entry_for private pubhex <$> (conda ∪ packages))]>
                      repodata)]> (files w) ∧
        stdout w' = stdout w.
Proof.
  intros Hhexkey Hstring Hfrom Hpub Hhex Hfile Hpackages Hconda Hall Hall_conda.
  set (rd0 := <["signatures" := VDict ∅]> repodata).
  destruct (sign_packages_run private pubhex (map_to_list packages) rd0 ∅ w)
    as (w1 & Hloop1 & Hf1 & Ho1);
    [by apply lookup_insert_eq | by apply map_Forall_pairs in Hall |].
  set (rd1 := <["signatures" :=
                 VDict (assign_entries private pubhex (map_to_list packages) ∅)]>
                rd0) in *.
  destruct (sign_packages_conda_run private pubhex (map_to_list conda) rd1
              (assign_entries private pubhex (map_to_list packages) ∅) w1)
    as (w2 & Hloop2 & Hf2 & Ho2);
    [by apply lookup_insert_eq | by apply map_Forall_pairs in Hall_conda |].
  exists (set_files (<[fname := VDict (<["signatures" :=
            VDict (entry_for private pubhex <$> (conda ∪ packages))]>
            repodata)]> (files w)) w2).
  split; [|split; [done | simpl; congruence]].
  unfold sign_all_in_repodata, load_metadata_from_file, write_metadata_to_file.
  unfold mbind, mret, M_mbind, M_mret, M_bind, M_ret, lift, raise.
  rewrite Hhexkey, Hstring, Hfrom, Hpub, Hhex, Hfile.
  cbn [contains getitem setitem items get outcome_mbind outcome_bind negb].
  rewrite Hpackages.
  rewrite bool_decide_eq_true_2 by eauto. cbn [negb].
  fold rd0.
  replace (rd0 !! "packages") with (Some (VDict packages))
    by (unfold rd0; by rewrite lookup_insert_ne).
  cbn [items]. rewrite Hloop1. cbn [get].
  replace (rd1 !! "packages.conda") with (repodata !! "packages.conda")
    by (unfold rd1, rd0; by rewrite !lookup_insert_ne).
  rewrite Hconda. cbn [items]. rewrite Hloop2.
  f_equal. unfold set_files. rewrite Hf2, Hf1. f_equal. f_equal. f_equal.
  unfold rd1, rd0. rewrite !insert_insert_eq. f_equal. f_equal.
  rewrite !assign_entries_map, map_fmap_union.
  by rewrite (right_id_L ∅ (∪)).
Qed.

End SignAllInRepodataRun.

Section SignAllInRepodataClaims.
Context `{Common}.

Lemma signature_hex_of_inv (private md : value) (h : string) :
  signature_hex_of private md = Ok h →
  ∃ data sig, canonserialize md = Ok data ∧
              PrivateKey_sign private data = Ok sig ∧ h = bytes_hex sig.
Proof.
  unfold signature_hex_of. run. intros Hh.
  repeat (case_match; simplify_eq/=). eauto.
Qed.

Lemma lookup_union_packages (packages conda : gmap string value)
    (name : string) (md : value) :
  (conda ∪ packages) !! name = Some md →
  conda !! name = Some md ∨ packages !! name = Some md.
Proof. rewrite lookup_union_Some_raw. naive_solver. Qed.

End SignAllInRepodataClaims.

(** C6.  On a repodata file that holds a mapping with a ["packages"] mapping
    (and, when present, a ["packages.conda"] mapping), with a key and
    artifacts that can be signed, [sign_all_in_repodata] returns and rewrites
    the file with the top-level ["signatures"] replaced and nothing else
    changed.  Whatever ["signatures"] held before, it now has an entry exactly
    for the artifacts listed in the two mappings, and the entry of an artifact
    is [{pubkey-hex: {"signature": h}}] for the public key of the signing key,
    with [h] the 128 hex digits of the signature over the metadata of the
    artifact. *)
Theorem sign_all_in_repodata_replaces_signatures `{Common}
    (fname private_key_hex : string) (w : world)
    (repodata packages conda : gmap string value) (private public : value)
    (pubhex : string) :
  checkformat_hex_key (VStr private_key_hex) = Ok () →
  checkformat_string (VStr fname) = Ok () →
  PrivateKey_from_hex (VStr private_key_hex) = Ok private →
  PrivateKey_public_key private = Ok public →
  PublicKey_to_hex public = Ok (VStr pubhex) →
  (∀ data sig, PrivateKey_sign private data = Ok sig → length sig = 64%nat) →
  files w !! fname = Some (VDict repodata) →
  repodata !! "packages" = Some (VDict packages) →
  default (VDict ∅) (repodata !! "packages.conda") = VDict conda →
  map_Forall (λ _ md, ∃ h, signature_hex_of private md = Ok h ∧
                checkformat_signature (signature_record h) = Ok ()) packages →
  map_Forall (λ _ md, ∃ h, signature_hex_of private md = Ok h) conda →
  ∃ w' signatures,
    sign_all_in_repodata (VStr fname) (VStr private_key_hex) w = (Ok (), w') ∧
    files w' = <[fname := VDict (<["signatures" := VDict signatures]> repodata)]>
                 (files w) ∧
    dom signatures = dom packages ∪ dom conda ∧
    (∀ name, name ∉ dom packages → name ∉ dom conda → signatures !! name = None) ∧
    (∀ name entry, signatures !! name = Some entry →
       ∃ md h, (conda ∪ packages) !! name = Some md ∧
               signature_hex_of private md = Ok h ∧
               entry = artifact_entry pubhex h ∧
               is_lower_hex 128 h = true).
Proof.
  intros Hhexkey Hstring Hfrom Hpub Hhex Hlen Hfile Hpackages Hconda Hall
    Hall_conda.
  destruct (sign_all_in_repodata_run fname private_key_hex w repodata packages
              conda private public pubhex) as (w' & Hrun & Hfiles & _); try done.
  exists w', (entry_for private pubhex <$> (conda ∪ packages)).
  assert (Hdom : dom (entry_for private pubhex <$> (conda ∪ packages))
                 = dom packages ∪ dom conda).
  { rewrite dom_fmap_L, dom_union_L. set_solver. }
  split; [done|]. split; [done|]. split; [done|]. split.
  - intros name Hp Hc. apply not_elem_of_dom. rewrite Hdom. set_solver.
  - intros name entry. rewrite lookup_fmap.
    destruct ((conda ∪ packages) !! name) as [md|] eqn:Hname; [|done].
    simpl. intros [= <-]. exists md.
    assert (Hh : ∃ h, signature_hex_of private md = Ok h).
    { destruct (lookup_union_packages _ _ _ _ Hname) as [Hc|Hp].
      - exact (Hall_conda name md Hc).
      - destruct (Hall name md Hp) as (h & Hh & _). eauto. }
    destruct Hh as [h Hh]. exists h.
    split; [done|]. split; [done|]. split.
    + unfold entry_for. by rewrite Hh.
    + apply signature_hex_of_inv in Hh as (data & sig & _ & Hsig & ->).
      pose proof (bytes_hex_lower sig) as Hlower.
      by rewrite (Hlen data sig Hsig) in Hlower.
Qed.

(** C10.  The entry [sign_all_in_repodata] stores for an artifact is a
    function of the signing key and of the metadata of the artifact, and not
    of its name: the signatures mapping is that one function applied to the
    metadata under every name.  So two names with equal metadata get the same
    record, and nothing in the signatures tells one of them from the other. *)
Theorem signatures_ignore_artifact_name `{Common}
    (fname private_key_hex : string) (w : world)
    (repodata packages conda : gmap string value) (private public : value)
    (pubhex : string) :
  checkformat_hex_key (VStr private_key_hex) = Ok () →
  checkformat_string (VStr fname) = Ok () →
  PrivateKey_from_hex (VStr private_key_hex) = Ok private →
  PrivateKey_public_key private = Ok public →
  PublicKey_to_hex public = Ok (VStr pubhex) →
  files w !! fname = Some (VDict repodata) →
  repodata !! "packages" = Some (VDict packages) →
  default (VDict ∅) (repodata !! "packages.conda") = VDict conda →
  map_Forall (λ _ md, ∃ h, signature_hex_of private md = Ok h ∧
                checkformat_signature (signature_record h) = Ok ()) packages →
  map_Forall (λ _ md, ∃ h, signature_hex_of private md = Ok h) conda →
  ∃ w' signatures,
    sign_all_in_repodata (VStr fname) (VStr private_key_hex) w = (Ok (), w') ∧
    files w' = <[fname := VDict (<["signatures" := VDict signatures]> repodata)]>
                 (files w) ∧
    (∀ name, signatures !! name
             = entry_for private pubhex <$> (conda ∪ packages) !! name) ∧
    (∀ name1 name2 md,
       (conda ∪ packages) !! name1 = Some md →
       (conda ∪ packages) !! name2 = Some md →
       signatures !! name1 = Some (entry_for private pubhex md) ∧
       signatures !! name2 = signatures !! name1).
Proof.
  intros Hhexkey Hstring Hfrom Hpub Hhex Hfile Hpackages Hconda Hall Hall_conda.
  destruct (sign_all_in_repodata_run fname private_key_hex w repodata packages
              conda private public pubhex) as (w' & Hrun & Hfiles & _); try done.
  exists w', (entry_for private pubhex <$> (conda ∪ packages)).
  split; [done|]. split; [done|]. split.
  - intros name. by rewrite lookup_fmap.
  - intros name1 name2 md H1 H2. by rewrite !lookup_fmap, H1, H2.
Qed.

(* ===================================================================== *)
(** * Properties of root_signing.py *)
(* ===================================================================== *)

Section RootSigningLemmas.
Context `{Common} `{Gpg}.


(** What a call of [sign_via_gpg] that returns has done. *)
Lemma sign_via_gpg_inv (data fp sig : value) (incl : bool) (w w' : world) :
  sign_via_gpg data fp incl w = (Ok sig, w') →
  ∃ raw,
    SSLIB_AVAILABLE = true ∧
    checkformat_gpg_fingerprint fp = Ok () ∧
    checkformat_byteslike data = Ok () ∧
    create_signature data fp = Ok raw ∧
    (if incl then
       ∃ keyid with_see, getitem raw "keyid" = Ok keyid ∧
                         setitem raw "see_also" keyid = Ok with_see ∧
                         delitem with_see "keyid" = Ok sig
     else delitem raw "keyid" = Ok sig) ∧
    w' = add_call (CallGpgCreateSignature data fp) w.
Proof.
  unfold sign_via_gpg, _check_sslib_available. run. intros Hrun.
  destruct SSLIB_AVAILABLE; simpl in Hrun; [|discriminate].
  destruct incl; repeat (case_match; simplify_eq/=);
    repeat match goal with u : unit |- _ => destruct u end;
    eexists; repeat split; eauto.
Qed.

(** What a call of [fetch_keyval_from_gpg] that returns has done. *)
Lemma fetch_keyval_from_gpg_inv (fp q : value) (w w' : world) :
  fetch_keyval_from_gpg fp w = (Ok q, w') →
  ∃ nfp params,
    SSLIB_AVAILABLE = true ∧
    normalized fp = Ok nfp ∧
    checkformat_gpg_fingerprint nfp = Ok () ∧
    export_pubkey nfp = Ok params ∧
    raw_key_of params = Ok q ∧
    w' = add_call (CallGpgExportPubkey nfp) w.
Proof.
  unfold fetch_keyval_from_gpg, _check_sslib_available, normalized, raw_key_of.
  unfold mbind, mret, M_mbind, M_mret, M_bind, M_ret, lift, raise, record.
  intros Hrun.
  destruct SSLIB_AVAILABLE; simpl in Hrun; [|discriminate].
  repeat (case_match; simplify_eq/=);
    repeat match goal with u : unit |- _ => destruct u end.
  do 2 eexists. repeat split; eauto.
Qed.

End RootSigningLemmas.


(* ===================================================================== *)
(** * Properties of cli.py *)
(* ===================================================================== *)

Section Text.

Lemma append_empty_r (s : string) : s +:+ "" = s.
Proof.
  induction s as [|c s IH]; [done|].
  change (String c (s +:+ "") = String c s). by rewrite IH.
Qed.

Lemma append_assoc (s t u : string) : (s +:+ t) +:+ u = s +:+ (t +:+ u).
Proof.
  induction s as [|c s IH]; [done|].
  change (String c ((s +:+ t) +:+ u) = String c (s +:+ (t +:+ u))).
  by rewrite IH.
Qed.

Lemma py_join_empty_cons (w : string) (ws : list string) :
  py_join "" (w :: ws) = w +:+ py_join "" ws.
Proof. destruct ws; simpl; [by rewrite append_empty_r | done]. Qed.

(** Joining the words read with a run under way: the run, then the rest. *)
Lemma py_join_split_from (s w : string) :
  py_join "" (py_split_from s (Some w)) = w +:+ py_join "" (py_split_from s None).
Proof.
  revert w. induction s as [|c s IH]; intros w.
  - simpl. by rewrite append_empty_r.
  - cbn [py_split_from]. destruct (py_isspace c).
    + by rewrite py_join_empty_cons.
    + rewrite IH, (IH (String c "")). by rewrite append_assoc.
Qed.

Lemma writes_digit_sound (c' c : ascii) :
  writes_digit c' c = true →
  is_lower_hex_char c = true ∧ py_isspace c' = false ∧ py_lower_char c' = c.
Proof.
  unfold writes_digit. intros Hw.
  apply andb_true_iff in Hw as [Hc Hw]. split; [done|].
  apply orb_true_iff in Hw as [Heq|Hcap].
  - apply Ascii.eqb_eq in Heq as ->.
    destruct c as [[] [] [] [] [] [] [] []]; try discriminate Hc; by vm_compute.
  - apply andb_true_iff in Hcap as [Hletter Hcap].
    apply Nat.eqb_eq in Hcap.
    assert (c' = ascii_of_nat (nat_of_ascii c - 32)) as ->.
    { rewrite <- (ascii_nat_embedding c'). f_equal. lia. }
    destruct c as [[] [] [] [] [] [] [] []];
      try discriminate Hc; try discriminate Hletter; by vm_compute.
Qed.

Lemma lower_hex_char_fixed (c : ascii) :
  is_lower_hex_char c = true →
  py_lower_char c = c ∧ Ascii.eqb c " " = false ∧
  Ascii.eqb c (ascii_of_nat 160) = false.
Proof.
  intros Hc.
  destruct c as [[] [] [] [] [] [] [] []]; try discriminate Hc; by vm_compute.
Qed.

(** Stripping and lowering a spelling gives the canonical text. *)
Lemma strip_and_lower_spelling (canonical spelling : string) :
  spells canonical spelling → strip_and_lower spelling = canonical.
Proof.
  unfold strip_and_lower, py_split.
  induction 1 as [|c canonical spelling Hspace _ IH
                  |c c' canonical spelling Hdigit _ IH].
  - done.
  - cbn [py_split_from]. by rewrite Hspace.
  - apply writes_digit_sound in Hdigit as (_ & Hnospace & Hlower).
    cbn [py_split_from]. rewrite Hnospace, py_join_split_from.
    change (py_lower (String c' (py_join "" (py_split_from spelling None)))
            = String c canonical).
    cbn [py_lower]. by rewrite Hlower, IH.
Qed.

Lemma spells_lower_hex (canonical spelling : string) :
  spells canonical spelling → string_forallb is_lower_hex_char canonical = true.
Proof.
  induction 1 as [| |c c' canonical spelling Hdigit _ IH]; [done..|].
  apply writes_digit_sound in Hdigit as (Hc & _). simpl. by rewrite Hc, IH.
Qed.

(** Lowercase hexadecimal text is its own normal form. *)
Lemma normalized_lower_hex (s : string) :
  string_forallb is_lower_hex_char s = true →
  normalized (VStr s) = Ok (VStr s).
Proof.
  intros Hs. unfold normalized. simpl. do 2 f_equal.
  induction s as [|c s IH]; [done|].
  simpl in Hs. apply andb_true_iff in Hs as [Hc Hs].
  destruct (lower_hex_char_fixed c Hc) as (Hlower & Hsp & Hnbsp).
  simpl. rewrite Hlower, Hsp. simpl. unfold nbsp. rewrite Hnbsp.
  f_equal. by apply IH.
Qed.

End Text.

Section CliClaims.
Context `{Common} `{Gpg}.
Variable verify_root : value → value → outcome unit.
Variable verify_delegation : value → value → value → outcome unit.
Variable interactive_modify_metadata : value → M unit.

Lemma eq_str_VStr (s t : string) : eq_str (VStr s) t = bool_decide (s = t).
Proof.
  simpl. destruct (String.eqb_spec s t).
  - by rewrite bool_decide_eq_true_2.
  - by rewrite bool_decide_eq_false_2.
Qed.

(** The [verify-metadata] branch, once both files are loaded and the declared
    type is read: what it returns for each outcome of the verifier. *)
Lemma verify_metadata_run (trusted_fn untrusted_fn metadata_type : string)
    (trusted untrusted : value) (w : world) :
  files w !! untrusted_fn = Some untrusted →
  files w !! trusted_fn = Some trusted →
  (getitem untrusted "signed" ≫= λ signed, getitem signed "type")
    = Ok (VStr metadata_type) →
  let verification :=
    if bool_decide (metadata_type = "root") then verify_root trusted untrusted
    else verify_delegation (VStr metadata_type) untrusted trusted in
  let errorcode := if bool_decide (metadata_type = "root") then 10 else 20 in
  (cli verify_root verify_delegation interactive_modify_metadata
     (VerifyMetadata trusted_fn untrusted_fn) w).1
  = match verification with
    | Ok _ => Ok (Some 0)
    | Raise e =>
        if exn_class_eqb (exn_cls e) CCT_Error then Ok (Some errorcode)
        else Raise e
    end.
Proof.
  intros Huntrusted Htrusted Htype verification errorcode.
  subst verification errorcode.
  unfold cli, load_metadata_from_file, try_except.
  unfold mbind, mret, M_mbind, M_mret, M_bind, M_ret, lift, raise, print,
    outcome_mbind in *.
  rewrite Huntrusted, Htrusted, Htype.
  rewrite eq_str_VStr.
  destruct (bool_decide (metadata_type = "root")).
  - destruct (verify_root trusted untrusted) as [[]|e]; [done|].
    destruct (exn_class_eqb (exn_cls e) CCT_Error); done.
  - destruct (verify_delegation (VStr metadata_type) untrusted trusted)
      as [[]|e]; [done|].
    destruct (exn_class_eqb (exn_cls e) CCT_Error); done.
Qed.

End CliClaims.

(** C8.  On two metadata files that load, with a declared type that is a
    string, [verify-metadata] returns 0 when the verifier returns.  When the
    verifier raises a [CCT_Error], it returns 10 if the untrusted file
    declares the type ["root"] (the verifier is then [verify_root]) and 20 for
    every other declared role (the verifier is then [verify_delegation] for
    that role).  What is returned is what the process exits with.  An
    exception of another class is not caught. *)
Theorem verify_metadata_exit_codes `{Common} `{Gpg}
    (verify_root : value → value → outcome unit)
    (verify_delegation : value → value → value → outcome unit)
    (interactive_modify_metadata : value → M unit)
    (trusted_fn untrusted_fn metadata_type : string)
    (trusted untrusted : value) (w : world) :
  files w !! untrusted_fn = Some untrusted →
  files w !! trusted_fn = Some trusted →
  (getitem untrusted "signed" ≫= λ signed, getitem signed "type")
    = Ok (VStr metadata_type) →
  let returned :=
    (cli verify_root verify_delegation interactive_modify_metadata
       (VerifyMetadata trusted_fn untrusted_fn) w).1 in
  (metadata_type = "root" →
     (verify_root trusted untrusted = Ok () →
      returned = Ok (Some 0) ∧ exit_status returned = 0) ∧
     (∀ e, verify_root trusted untrusted = Raise e → exn_cls e = CCT_Error →
           returned = Ok (Some 10) ∧ exit_status returned = 10) ∧
     (∀ e, verify_root trusted untrusted = Raise e → exn_cls e ≠ CCT_Error →
           returned = Raise e)) ∧
  (metadata_type ≠ "root" →
     (verify_delegation (VStr metadata_type) untrusted trusted = Ok () →
      returned = Ok (Some 0) ∧ exit_status returned = 0) ∧
     (∀ e, verify_delegation (VStr metadata_type) untrusted trusted = Raise e →
           exn_cls e = CCT_Error →
           returned = Ok (Some 20) ∧ exit_status returned = 20) ∧
     (∀ e, verify_delegation (VStr metadata_type) untrusted trusted = Raise e →
           exn_cls e ≠ CCT_Error → returned = Raise e)).
Proof.
  intros Huntrusted Htrusted Htype returned. subst returned.
  rewrite (verify_metadata_run verify_root verify_delegation
             interactive_modify_metadata trusted_fn untrusted_fn metadata_type
             trusted untrusted w Huntrusted Htrusted Htype).
  split; intros Hroot.
  - rewrite bool_decide_eq_true_2 by done.
    split_and!.
    + by intros ->.
    + intros e -> ->. done.
    + intros e -> Hcls. by destruct (exn_cls e).
  - rewrite bool_decide_eq_false_2 by done.
    split_and!.
    + by intros ->.
    + intros e -> ->. done.
    + intros e -> Hcls. by destruct (exn_cls e).
Qed.

(* ===================================================================== *)
(** * Properties of the verifiers *)
(* ===================================================================== *)

Section Tally.
Context `{Common}.
Variable verify_signature : string → string → bytes → bool.

(** Going through the keys adds to the counted ones exactly the keys of the
    list whose signature verifies. *)
Lemma count_keys_spec (sigs : gmap string value) (data : bytes)
    (keys : list string) (counted : gset string) (key : string) :
  key ∈ count_keys verify_signature sigs data keys counted ↔
  key ∈ counted ∨
  (key ∈ keys ∧ signature_verifies verify_signature sigs data key = true).
Proof.
  revert counted. induction keys as [|k keys IH]; intros counted; simpl.
  - set_solver.
  - case_bool_decide as Hcounted.
    + rewrite IH. set_solver.
    + destruct (signature_verifies verify_signature sigs data k) eqn:Hk;
        rewrite IH.
      * set_solver.
      * split; [set_solver|].
        intros [?|[Hin Hv]]; [by left|].
        apply elem_of_cons in Hin as [->|Hin]; [congruence|].
        right. done.
Qed.

Lemma verifies_in_dom (sigs : gmap string value) (data : bytes) (key : string) :
  signature_verifies verify_signature sigs data key = true → key ∈ dom sigs.
Proof.
  unfold signature_verifies. intros Hv. apply elem_of_dom.
  destruct (sigs !! key); [eauto | discriminate].
Qed.

(** The keys counted are the valid signers. *)
Lemma count_keys_valid_signers (sigs : gmap string value) (data : bytes)
    (keys : list string) :
  count_keys verify_signature sigs data keys ∅
  = valid_signers verify_signature sigs data keys.
Proof.
  apply set_eq. intros key. rewrite count_keys_spec.
  unfold valid_signers. rewrite elem_of_filter.
  split.
  - intros [?|[Hin Hv]]; [set_solver|].
    split; [done|]. by apply (verifies_in_dom _ data).
  - intros [[Hin Hv] _]. right. done.
Qed.

Lemma tally_valid_signers (sigs : gmap string value) (data : bytes)
    (keys : list string) :
  tally verify_signature sigs data keys
  = Z.of_nat (size (valid_signers verify_signature sigs data keys)).
Proof. unfold tally. by rewrite count_keys_valid_signers. Qed.

(** The valid signers depend on which keys are listed, not on how often. *)
Lemma valid_signers_same_keys (sigs : gmap string value) (data : bytes)
    (keys keys' : list string) :
  (∀ key, key ∈ keys ↔ key ∈ keys') →
  valid_signers verify_signature sigs data keys
  = valid_signers verify_signature sigs data keys'.
Proof.
  intros Hsame. apply set_eq. intros key. unfold valid_signers.
  rewrite !elem_of_filter, Hsame. done.
Qed.

(** A record that does not verify counts as no record. *)
Lemma valid_signers_delete (sigs : gmap string value) (data : bytes)
    (keys : list string) (key : string) :
  signature_verifies verify_signature sigs data key = false →
  valid_signers verify_signature (delete key sigs) data keys
  = valid_signers verify_signature sigs data keys.
Proof.
  intros Hbad. apply set_eq. intros k. unfold valid_signers.
  rewrite !elem_of_filter, dom_delete_L.
  destruct (decide (k = key)) as [->|Hne].
  - unfold signature_verifies at 1. rewrite lookup_delete_eq.
    split; [naive_solver | rewrite Hbad; naive_solver].
  - unfold signature_verifies. rewrite lookup_delete_ne by done.
    set_solver.
Qed.

(** The verdict of [verify_delegation] once the delegation, the payload and
    the signatures are read. *)
Lemma verify_delegation_run (role_name : string) (untrusted trusted : value)
    delegations record delegation signed sigs data :
  delegations_of trusted = Some delegations →
  delegations !! role_name = Some record →
  read_delegation record = Some delegation →
  signed_payload untrusted = Some signed →
  signatures_of untrusted = Some sigs →
  canonserialize signed = Ok data →
  verify_delegation verify_signature role_name untrusted trusted
  = let n := Z.of_nat (size (valid_signers verify_signature sigs data
                               (pubkeys delegation))) in
    if n <? threshold delegation
    then Reject (InsufficientSignaturesFault n (threshold delegation))
    else match signed_field untrusted "type" with
         | Some t => if eq_str t role_name then Accept
                     else Reject RoleMismatchFault
         | None => Reject FormatFault
         end.
Proof.
  intros Hds Hrole Hread Hsigned Hsigs Hdata. unfold verify_delegation.
  rewrite Hds, Hrole, Hread, Hsigned, Hsigs, Hdata. simpl.
  by rewrite tally_valid_signers.
Qed.

End Tally.

(** C2, as amended.  On a delegating envelope with a delegation for the role
    and an envelope to verify, [verify_delegation] accepts exactly when the
    number of distinct keys of the delegation that have a signature record in
    the envelope which parses and verifies against the canonical bytes of its
    payload reaches the threshold, and the payload declares the role as its
    type.  Below the threshold the fault carries the tally and the threshold.
    A record that does not parse or does not verify counts as no record, and
    listing a key of the delegation once more leaves the tally as it was. *)
Theorem verify_delegation_threshold `{Common}
    (verify_signature : string → string → bytes → bool)
    (role_name : string) (untrusted trusted : value)
    delegations record delegation signed sigs data :
  delegations_of trusted = Some delegations →
  delegations !! role_name = Some record →
  read_delegation record = Some delegation →
  signed_payload untrusted = Some signed →
  signatures_of untrusted = Some sigs →
  canonserialize signed = Ok data →
  let keys := pubkeys delegation in
  let signers := valid_signers verify_signature sigs data keys in
  let verdict := verify_delegation verify_signature role_name untrusted trusted in
  (verdict = Accept ↔
     threshold delegation ≤ Z.of_nat (size signers) ∧
     declares untrusted role_name = true) ∧
  (Z.of_nat (size signers) < threshold delegation →
     verdict = Reject (InsufficientSignaturesFault (Z.of_nat (size signers))
                         (threshold delegation))) ∧
  (∀ key, key ∈ signers ↔
     key ∈ keys ∧
     ∃ entry s, sigs !! key = Some entry ∧ read_signature entry = Some s ∧
                verify_signature s key data = true) ∧
  (∀ key entry,
     sigs !! key = Some entry →
     (read_signature entry = None ∨
      ∃ s, read_signature entry = Some s ∧ verify_signature s key data = false) →
     valid_signers verify_signature (delete key sigs) data keys = signers) ∧
  (∀ key, key ∈ keys →
     tally verify_signature sigs data (key :: keys)
       = tally verify_signature sigs data keys ∧
     tally verify_signature sigs data (keys ++ [key])
       = tally verify_signature sigs data keys).
Proof.
  intros Hds Hrole Hread Hsigned Hsigs Hdata keys signers verdict.
  subst verdict.
  rewrite (verify_delegation_run verify_signature role_name untrusted trusted
             delegations record delegation signed sigs data) by done.
  cbn zeta. fold keys. fold signers. unfold declares.
  split_and!.
  - destruct (Z.ltb_spec (Z.of_nat (size signers)) (threshold delegation)).
    + split; [done | lia].
    + destruct (signed_field untrusted "type") as [t|]; [|naive_solver].
      destruct (eq_str t role_name); naive_solver.
  - intros Hlt. by rewrite (proj2 (Z.ltb_lt _ _) Hlt).
  - intros key. unfold signers, valid_signers. rewrite elem_of_filter.
    unfold signature_verifies.
    split.
    + intros [[Hin Hv] _]. split; [done|].
      destruct (sigs !! key) as [entry|]; [|discriminate].
      destruct (read_signature entry) as [s|] eqn:Hs; [|discriminate].
      by exists entry, s.
    + intros [Hin (entry & s & Hentry & Hs & Hv)].
      split; [|apply elem_of_dom; eauto].
      split; [done|]. by rewrite Hentry, Hs.
  - intros key entry Hentry Hbad.
    apply valid_signers_delete. unfold signature_verifies. rewrite Hentry.
    destruct Hbad as [->|(s & -> & ->)]; done.
  - intros key Hkey. rewrite !tally_valid_signers.
    split; do 2 f_equal; apply valid_signers_same_keys; intros k; set_solver.
Qed.

(** C1.  [verify_root] accepts exactly when both envelopes declare the type
    ["root"], the untrusted version is the trusted version plus 1, the
    untrusted envelope passes [verify_delegation] for ["root"] against the
    trusted envelope (continuity) and against itself (self-consistency).  On
    two root envelopes, any other version is rejected with the
    version-mismatch fault. *)
Theorem verify_root_accepts_iff `{Common}
    (verify_signature : string → string → bytes → bool)
    (trusted untrusted : value) :
  (verify_root verify_signature trusted untrusted = Accept ↔
     declares trusted "root" = true ∧
     declares untrusted "root" = true ∧
     (∃ version, declared_version trusted = Some version ∧
                 declared_version untrusted = Some (version + 1)) ∧
     verify_delegation verify_signature "root" untrusted trusted = Accept ∧
     verify_delegation verify_signature "root" untrusted untrusted = Accept) ∧
  (∀ trusted_version untrusted_version,
     declares trusted "root" = true →
     declares untrusted "root" = true →
     declared_version trusted = Some trusted_version →
     declared_version untrusted = Some untrusted_version →
     untrusted_version ≠ trusted_version + 1 →
     verify_root verify_signature trusted untrusted
       = Reject VersionMismatchFault).
Proof.
  unfold verify_root, declares. split.
  - destruct (signed_field trusted "type") as [tt|]; [|naive_solver].
    destruct (signed_field untrusted "type") as [ut|];
      [|split; [done | intros (_ & ? & _); done]].
    destruct (eq_str tt "root"); [|naive_solver].
    destruct (eq_str ut "root"); [|naive_solver]. cbn [andb].
    destruct (declared_version trusted) as [vt|]; [|naive_solver].
    destruct (declared_version untrusted) as [vu|]; [|naive_solver].
    destruct (Z.eqb_spec vu (vt + 1)) as [->|Hne].
    + destruct (verify_delegation verify_signature "root" untrusted trusted);
        [|naive_solver].
      destruct (verify_delegation verify_signature "root" untrusted untrusted);
        naive_solver.
    + split; [done|]. intros (_ & _ & (v & [= ->] & [= ->]) & _). done.
  - intros vt vu Ht Hu -> -> Hne.
    destruct (signed_field trusted "type") as [tt|]; [|done].
    destruct (signed_field untrusted "type") as [ut|]; [|done].
    rewrite Ht, Hu. cbn [andb].
    by rewrite (proj2 (Z.eqb_neq _ _) Hne).
Qed.

(* ===================================================================== *)
(** * The properties on the sample data *)
(* ===================================================================== *)

Import Sample.

Lemma wrap_as_signable_strict_witness :
  (∃ d, wrap_as_signable (H := sample_common) metadata_foo no_files
        = (Ok (VDict d), no_files) ∧
        d !! "signed" = Some metadata_foo) ∧
  (∃ msg, wrap_as_signable (H := sample_common) ordered_foo no_files
          = (Raise (Exn TypeError msg), no_files)).
Proof.
  split.
  - destruct (wrap_as_signable_strict (H := sample_common) metadata_foo no_files)
      as (Haccept & _).
    destruct (Haccept eq_refl) as (d & Hrun & _ & _ & Hsigned & Hcopy).
    exists d. split; [exact Hrun|]. rewrite Hsigned, Hcopy. reflexivity.
  - destruct (wrap_as_signable_strict (H := sample_common) ordered_foo no_files)
      as (_ & Hreject & _).
    exact (Hreject eq_refl).
Defined.

Lemma sign_signable_frame_witness :
  ∃ signable',
    (sign_signable (H := sample_common) (VDict envelope_foo) (private_key seed_A)
       no_files).1 = Ok signable' ∧
    getitem signable' "signatures"
      = Ok (VDict (<[hex_A := signature_record (bytes_hex sig_foo)]> ∅)) ∧
    getitem signable' "signed" = Ok metadata_foo.
Proof.
  pose proof (sign_signable_frame (H := sample_common) (VDict envelope_foo)
                (private_key seed_A) no_files) as (_ & _ & _ & _ & Heffect).
  destruct (Heffect metadata_foo data_foo sig_foo
              (public_key (toy_public seed_A)) hex_A ∅
              eq_refl eq_refl eq_refl eq_refl eq_refl eq_refl eq_refl eq_refl
              eq_refl) as (Hret & Hsigs & Hsigned).
  eexists. split; [exact Hret|]. split; [exact Hsigs | exact Hsigned].
Defined.

Lemma sign_signable_idempotent_witness :
  let r1 := sign_signable (H := sample_common) (VDict envelope_foo)
              (private_key seed_A) no_files in
  let signable1 := after (VDict envelope_foo) r1.1 in
  r1.1 = Ok signable1 ∧
  (sign_signable (H := sample_common) signable1 (private_key seed_A) r1.2).1
    = Ok signable1.
Proof.
  intros r1 signable1. split; [reflexivity|].
  exact (proj2 (sign_signable_idempotent (H := sample_common)
                  (VDict envelope_foo) (private_key seed_A) no_files)
           eq_refl eq_refl).
Defined.

Section SampleFacts.

Lemma toy_sign_length (seed data : bytes) : length (toy_sign seed data) = 64%nat.
Proof.
  unfold toy_sign. rewrite length_take, !length_app, length_replicate. lia.
Qed.

Lemma sample_sign_length (seed data sig : bytes) :
  PrivateKey_sign (Common := sample_common) (private_key seed) data = Ok sig →
  length sig = 64%nat.
Proof. intros [= <-]. apply toy_sign_length. Qed.

Lemma sample_packages_sign :
  map_Forall (λ _ md, ∃ h,
      signature_hex_of (H := sample_common) (private_key seed_A) md = Ok h ∧
      checkformat_signature (Common := sample_common) (signature_record h)
        = Ok ()) packages.
Proof.
  unfold packages. simpl.
  repeat (apply map_Forall_insert_2; [eexists; split; reflexivity|]).
  apply map_Forall_empty.
Qed.

Lemma sample_packages_conda_sign :
  map_Forall (λ _ md, ∃ h,
      signature_hex_of (H := sample_common) (private_key seed_A) md = Ok h)
    packages_conda.
Proof.
  unfold packages_conda. simpl.
  repeat (apply map_Forall_insert_2; [eexists; reflexivity|]).
  apply map_Forall_empty.
Qed.




Lemma sample_fingerprint_accepted (s : string) :
  is_lower_hex 40 s = true →
  checkformat_gpg_fingerprint (Common := sample_common) (VStr s) = Ok ().
Proof. simpl. by intros ->. Qed.

Lemma fingerprint_spelled : spells fingerprint fingerprint_as_printed.
Proof.
  unfold fingerprint, fingerprint_as_printed.
  repeat first
    [ apply spells_end
    | apply spells_digit; [reflexivity|]
    | apply spells_space; [reflexivity|] ].
Qed.

End SampleFacts.

Lemma sign_all_in_repodata_replaces_signatures_witness :
  ∃ w' signatures,
    sign_all_in_repodata (H := sample_common) (VStr "repodata.json")
      (VStr key_hex_A) (with_files [("repodata.json", VDict repodata)])
    = (Ok (), w') ∧
    files w' !! "repodata.json"
      = Some (VDict (<["signatures" := VDict signatures]> repodata)) ∧
    dom signatures
      = {["foo-1.0-0.tar.bz2"; "bar-1.0-0.tar.bz2"; "foo-1.0-0.conda"]} ∧
    signatures !! "gone-0.1-0.conda" = None.
Proof.
  destruct (sign_all_in_repodata_replaces_signatures (H := sample_common)
              "repodata.json" key_hex_A
              (with_files [("repodata.json", VDict repodata)])
              repodata packages packages_conda
              (private_key seed_A) (public_key (toy_public seed_A)) hex_A
              eq_refl eq_refl eq_refl eq_refl eq_refl
              (sample_sign_length seed_A) eq_refl eq_refl eq_refl
              sample_packages_sign sample_packages_conda_sign)
    as (w' & signatures & Hrun & Hfiles & Hdom & Hgone & _).
  exists w', signatures. split; [exact Hrun|]. split; [|split].
  - rewrite Hfiles. apply lookup_insert_eq.
  - rewrite Hdom. unfold packages, packages_conda. simpl.
    rewrite !dom_insert_L, !dom_empty_L. set_solver.
  - apply Hgone; apply not_elem_of_dom; reflexivity.
Defined.

Lemma signatures_ignore_artifact_name_witness :
  ∃ w' signatures,
    sign_all_in_repodata (H := sample_common) (VStr "repodata.json")
      (VStr key_hex_A) (with_files [("repodata.json", VDict repodata)])
    = (Ok (), w') ∧
    files w' !! "repodata.json"
      = Some (VDict (<["signatures" := VDict signatures]> repodata)) ∧
    signatures !! "foo-1.0-0.tar.bz2"
      = Some (artifact_entry hex_A (bytes_hex sig_foo)) ∧
    signatures !! "bar-1.0-0.tar.bz2" = signatures !! "foo-1.0-0.tar.bz2".
Proof.
  destruct (signatures_ignore_artifact_name (H := sample_common)
              "repodata.json" key_hex_A
              (with_files [("repodata.json", VDict repodata)])
              repodata packages packages_conda
              (private_key seed_A) (public_key (toy_public seed_A)) hex_A
              eq_refl eq_refl eq_refl eq_refl eq_refl eq_refl eq_refl eq_refl
              sample_packages_sign sample_packages_conda_sign)
    as (w' & signatures & Hrun & Hfiles & _ & Hsame).
  exists w', signatures. split; [exact Hrun|]. split.
  - rewrite Hfiles. apply lookup_insert_eq.
  - exact (Hsame "foo-1.0-0.tar.bz2" "bar-1.0-0.tar.bz2" metadata_foo
             eq_refl eq_refl).
Defined.


Lemma verify_metadata_exit_codes_witness :
  let w := with_files [("1.root.json", root_v1); ("2.root.json", root_v2);
                       ("3.root.json", root_v3);
                       ("key_mgr.json", key_mgr_by_A)] in
  let run := cli (H := sample_common) (H0 := sample_gpg)
               cli_verify_root cli_verify_delegation no_editor in
  (run (VerifyMetadata "1.root.json" "2.root.json") w).1 = Ok (Some 0) ∧
  (run (VerifyMetadata "1.root.json" "3.root.json") w).1 = Ok (Some 10) ∧
  (run (VerifyMetadata "1.root.json" "key_mgr.json") w).1 = Ok (Some 20).
Proof.
  intros w run.
  assert (H12 : cli_verify_root root_v1 root_v2 = Ok ())
    by (vm_compute; reflexivity).
  assert (H13 : cli_verify_root root_v1 root_v3
                = Raise (Exn CCT_Error "verification failed"))
    by (vm_compute; reflexivity).
  assert (H1k : cli_verify_delegation (VStr "key_mgr") key_mgr_by_A root_v1
                = Raise (Exn CCT_Error "verification failed"))
    by (vm_compute; reflexivity).
  split; [|split].
  - destruct (verify_metadata_exit_codes (H := sample_common) (H0 := sample_gpg)
                cli_verify_root cli_verify_delegation no_editor
                "1.root.json" "2.root.json" "root" root_v1 root_v2 w
                eq_refl eq_refl eq_refl) as [Hroot _].
    destruct (Hroot eq_refl) as (Hok & _). exact (proj1 (Hok H12)).
  - destruct (verify_metadata_exit_codes (H := sample_common) (H0 := sample_gpg)
                cli_verify_root cli_verify_delegation no_editor
                "1.root.json" "3.root.json" "root" root_v1 root_v3 w
                eq_refl eq_refl eq_refl) as [Hroot _].
    destruct (Hroot eq_refl) as (_ & Hfail & _).
    exact (proj1 (Hfail _ H13 eq_refl)).
  - destruct (verify_metadata_exit_codes (H := sample_common) (H0 := sample_gpg)
                cli_verify_root cli_verify_delegation no_editor
                "1.root.json" "key_mgr.json" "key_mgr" root_v1 key_mgr_by_A w
                eq_refl eq_refl eq_refl) as [_ Hother].
    assert (Hne : "key_mgr" ≠ "root") by discriminate.
    destruct (Hother Hne) as (_ & Hfail & _).
    exact (proj1 (Hfail _ H1k eq_refl)).
Defined.

Lemma verify_root_accepts_iff_witness :
  verify_root (H := sample_common) sample_verify root_v1 root_v2 = Accept ∧
  verify_root (H := sample_common) sample_verify root_v1 root_v3
    = Reject VersionMismatchFault.
Proof.
  split.
  - apply (proj1 (verify_root_accepts_iff (H := sample_common) sample_verify
                    root_v1 root_v2)).
    split; [vm_compute; reflexivity|]. split; [vm_compute; reflexivity|].
    split; [exists 1; split; vm_compute; reflexivity|].
    split; vm_compute; reflexivity.
  - apply (proj2 (verify_root_accepts_iff (H := sample_common) sample_verify
                    root_v1 root_v3) 1 3); try (vm_compute; reflexivity).
    discriminate.
Defined.

Lemma verify_delegation_threshold_witness :
  verify_delegation (H := sample_common) sample_verify "key_mgr"
    key_mgr_by_A_and_B root_v1 = Accept ∧
  verify_delegation (H := sample_common) sample_verify "key_mgr"
    key_mgr_by_A root_v1 = Reject (InsufficientSignaturesFault 1 2).
Proof.
  set (data := after [] (sample_canonserialize key_mgr_signed)).
  set (ds := default ∅ (delegations_of root_v1)).
  assert (Hds : delegations_of root_v1 = Some ds) by reflexivity.
  assert (Hrecord : ds !! "key_mgr" = Some (delegation_record [hex_A; hex_B] 2))
    by reflexivity.
  assert (Hread : read_delegation (delegation_record [hex_A; hex_B] 2)
                  = Some (Delegation [hex_A; hex_B] 2))
    by reflexivity.
  assert (Hdata : canonserialize (Common := sample_common) key_mgr_signed = Ok data)
    by reflexivity.
  split.
  - set (sigs := default ∅ (signatures_of key_mgr_by_A_and_B)).
    assert (Hsigs : signatures_of key_mgr_by_A_and_B = Some sigs)
      by reflexivity.
    assert (Hsigned : signed_payload key_mgr_by_A_and_B = Some key_mgr_signed)
      by reflexivity.
    destruct (verify_delegation_threshold (H := sample_common) sample_verify
                "key_mgr" key_mgr_by_A_and_B root_v1 ds _
                (Delegation [hex_A; hex_B] 2) key_mgr_signed sigs data
                Hds Hrecord Hread Hsigned Hsigs Hdata)
      as (Haccept & _).
    apply Haccept. split; [|vm_compute; reflexivity].
    rewrite <- tally_valid_signers. vm_compute. discriminate.
  - set (sigs := default ∅ (signatures_of key_mgr_by_A)).
    assert (Hsigs : signatures_of key_mgr_by_A = Some sigs)
      by reflexivity.
    assert (Hsigned : signed_payload key_mgr_by_A = Some key_mgr_signed)
      by reflexivity.
    destruct (verify_delegation_threshold (H := sample_common) sample_verify
                "key_mgr" key_mgr_by_A root_v1 ds _
                (Delegation [hex_A; hex_B] 2) key_mgr_signed sigs data
                Hds Hrecord Hread Hsigned Hsigs Hdata)
      as (_ & Hreject & _).
    assert (Htally : tally sample_verify sigs data
                       [hex_A; hex_B] = 1) by (vm_compute; reflexivity).
    rewrite tally_valid_signers in Htally.
    simpl in Hreject. rewrite Htally in Hreject. apply Hreject. lia.
Defined.

(** C2, as stated, fails.  [root_v1] delegates ["key_mgr"] to the keys [A] and
    [B] with threshold 2, and [root_v2] carries valid signatures of both, so
    the tally reaches the threshold; but [root_v2] declares the type ["root"],
    and [verify_delegation] for ["key_mgr"] rejects it with the role-mismatch
    fault. *)
Lemma threshold_alone_fails :
  ¬ threshold_alone (H := sample_common) sample_verify "key_mgr" root_v2 root_v1.
Proof.
  intros Hrule.
  set (data := after [] (sample_canonserialize root_v2_signed)).
  set (ds := default ∅ (delegations_of root_v1)).
  set (sigs := default ∅ (signatures_of root_v2)).
  assert (Hds : delegations_of root_v1 = Some ds) by reflexivity.
  assert (Hrecord : ds !! "key_mgr" = Some (delegation_record [hex_A; hex_B] 2))
    by reflexivity.
  assert (Hread : read_delegation (delegation_record [hex_A; hex_B] 2)
                  = Some (Delegation [hex_A; hex_B] 2))
    by reflexivity.
  assert (Hsigned : signed_payload root_v2 = Some root_v2_signed)
    by reflexivity.
  assert (Hsigs : signatures_of root_v2 = Some sigs) by reflexivity.
  assert (Hdata : canonserialize (Common := sample_common) root_v2_signed = Ok data)
    by reflexivity.
  destruct (Hrule ds _ (Delegation [hex_A; hex_B] 2) root_v2_signed sigs data
              Hds Hrecord Hread Hsigned Hsigs Hdata) as [_ Haccept].
  assert (Hverdict : verify_delegation (H := sample_common) sample_verify
                       "key_mgr" root_v2 root_v1 = Reject RoleMismatchFault)
    by (vm_compute; reflexivity).
  rewrite Hverdict in Haccept.
  enough (Hreached : threshold (Delegation [hex_A; hex_B] 2)
            ≤ Z.of_nat (size (valid_signers sample_verify sigs data
                                (pubkeys (Delegation [hex_A; hex_B] 2)))))
    by (specialize (Haccept Hreached); discriminate Haccept).
  rewrite <- tally_valid_signers. vm_compute. discriminate.
Qed.

(* ===================================================================== *)
(** * The scenarios of the specification, run on the sample data *)
(* ===================================================================== *)

(** Root rotation: version 2, signed by the old key [A] and by the new key
    [B], is accepted after version 1; without the signature of [B] it fails
    the self-consistency check. *)
Example root_rotation :
  verify_root (H := sample_common) sample_verify root_v1 root_v2 = Accept ∧
  verify_root (H := sample_common) sample_verify root_v1 root_v2_without_B
    = Reject (ChainVerificationFault SelfConsistency) ∧
  verify_root (H := sample_common) sample_verify root_v1 root_v3
    = Reject VersionMismatchFault ∧
  verify_root (H := sample_common) sample_verify root_v2 root_v2
    = Reject VersionMismatchFault.
Proof. repeat split; vm_compute; reflexivity. Qed.

(** Insufficient signatures: with keys [A] and [B] and threshold 2, the
    signature of [A] alone is not enough, and adding that of [B] is. *)
Example insufficient_signatures :
  verify_delegation (H := sample_common) sample_verify "key_mgr" key_mgr_by_A
    root_v1 = Reject (InsufficientSignaturesFault 1 2) ∧
  verify_delegation (H := sample_common) sample_verify "key_mgr"
    key_mgr_by_A_and_B root_v1 = Accept ∧
  verify_delegation (H := sample_common) sample_verify "pkg_mgr" key_mgr_by_A
    root_v1 = Reject UnknownDelegationFault.
Proof. repeat split; vm_compute; reflexivity. Qed.

(** Whitespace other than U+0020 and U+00A0 is removed by the command line,
    not by [fetch_keyval_from_gpg]: called directly on a fingerprint with a
    tab, it hands the tab to the format check. *)
Example fingerprint_with_tab_directly :
  (fetch_keyval_from_gpg (H := sample_common) (H0 := sample_gpg)
     (VStr fingerprint_with_tab) no_files).1
  = Raise (Exn ValueError "Expected 40 hex characters") ∧
  (cli (H := sample_common) (H0 := sample_gpg) cli_verify_root
     cli_verify_delegation no_editor (GpgKeyLookup fingerprint_with_tab)
     no_files).1 = Ok None.
Proof. split; vm_compute; reflexivity. Qed.

(** The envelope that is not a dict but an instance of a subclass of dict:
    [json] would serialize it, [wrap_as_signable] refuses it. *)
Example wrap_refuses_subclass :
  isinstance ordered_foo TDict = true ∧
  (wrap_as_signable (H := sample_common) ordered_foo no_files).1
  = Raise (Exn TypeError
      ("wrap_dict_as_signable requires a JSON-serializable object, "
       +:+ "but the given argument is of type <class 'OrderedDict'>, "
       +:+ "which is not supported by the json library functions.")).
Proof. split; vm_compute; reflexivity. Qed.

(* ===================================================================== *)
(** * Further properties of the three modules *)
(* ===================================================================== *)

Import RootSigningFormats Editor Spellings Scenarios.

(* ===================================================================== *)
(** * Further properties of signing.py *)
(* ===================================================================== *)

Section SigningFurther.
Context `{Common}.

(** Assigning under a key what was assigned before leaves only the last
    assignment. *)
Lemma setitem_override (v v1 x y : value) (k : string) :
  setitem v k x = Ok v1 → setitem v1 k y = setitem v k y.
Proof.
  revert v1. induction v as [| | | | | | | |d|cls base IH]; intros v1 Hset;
    simpl in Hset; try discriminate.
  - injection Hset as <-. simpl. by rewrite insert_insert_eq.
  - destruct (setitem base k x) as [b|e] eqn:Hb; simpl in Hset; [|discriminate].
    injection Hset as <-. simpl. by rewrite (IH b).
Qed.

(** Assignments under two different keys can be made in either order. *)
Lemma setitem_commute (v v1 v12 v2 v21 x y : value) (k1 k2 : string) :
  k1 ≠ k2 →
  setitem v k1 x = Ok v1 → setitem v1 k2 y = Ok v12 →
  setitem v k2 y = Ok v2 → setitem v2 k1 x = Ok v21 →
  v12 = v21.
Proof.
  intros Hne. revert v1 v12 v2 v21.
  induction v as [| | | | | | | |d|cls base IH]; intros v1 v12 v2 v21 H1 H12 H2 H21;
    simpl in H1, H2; try discriminate.
  - injection H1 as <-. injection H2 as <-. simpl in H12, H21.
    injection H12 as <-. injection H21 as <-.
    f_equal. by apply insert_insert_ne.
  - destruct (setitem base k1 x) as [b1|] eqn:Hb1; simpl in H1; [|discriminate].
    destruct (setitem base k2 y) as [b2|] eqn:Hb2; simpl in H2; [|discriminate].
    injection H1 as <-. injection H2 as <-. simpl in H12, H21.
    destruct (setitem b1 k2 y) as [b12|] eqn:Hb12; simpl in H12; [|discriminate].
    destruct (setitem b2 k1 x) as [b21|] eqn:Hb21; simpl in H21; [|discriminate].
    injection H12 as <-. injection H21 as <-.
    f_equal. by apply (IH b1 b12 b2 b21).
Qed.

(** [serialize_and_sign] touches neither files nor console, whatever it is
    given. *)
Lemma serialize_and_sign_world (obj private_key : value) (w : world) :
  files (serialize_and_sign obj private_key w).2 = files w ∧
  stdout (serialize_and_sign obj private_key w).2 = stdout w.
Proof.
  unfold serialize_and_sign. run. repeat (case_match; simplify_eq/=); done.
Qed.

Lemma sign_package_world (private public_hex : value) (k : string)
    (x rd : value) (w : world) :
  files (sign_package private public_hex k x rd w).2 = files w ∧
  stdout (sign_package private public_hex k x rd w).2 = stdout w.
Proof.
  unfold sign_package, serialize_and_sign. run.
  repeat (case_match; simplify_eq/=); done.
Qed.

Lemma sign_package_conda_world (private public_hex : value) (k : string)
    (x rd : value) (w : world) :
  files (sign_package_conda private public_hex k x rd w).2 = files w ∧
  stdout (sign_package_conda private public_hex k x rd w).2 = stdout w.
Proof.
  unfold sign_package_conda, serialize_and_sign. run.
  repeat (case_match; simplify_eq/=); done.
Qed.

(** A loop whose body touches neither files nor console touches neither. *)
Lemma for_each_world {A} (body : string → value → A → M A)
    (pairs : list (string * value)) (acc : A) (w : world) :
  (∀ k x a w0, files (body k x a w0).2 = files w0 ∧
               stdout (body k x a w0).2 = stdout w0) →
  files (for_each pairs body acc w).2 = files w ∧
  stdout (for_each pairs body acc w).2 = stdout w.
Proof.
  intros Hbody. revert acc w.
  induction pairs as [|[k x] pairs IH]; intros acc w; [done|].
  simpl. unfold mbind, M_mbind, M_bind.
  destruct (Hbody k x acc w) as [Hf Ho].
  destruct (body k x acc w) as [[acc'|e] w1]; simpl in *; [|done].
  destruct (IH acc' w1) as [Hf' Ho']. by rewrite Hf', Ho'.
Qed.

End SigningFurther.

(** X1.  [serialize_and_sign] returns the lowercase hexadecimal text of the
    signature the key makes over the canonical bytes of the object, two
    digits for each byte; it asks for the canonical bytes first and for the
    signature second, and for nothing else.  When the object cannot be
    canonicalized it raises that error and the key is not asked to sign.
    Files and console are never touched. *)
Theorem serialize_and_sign_hex `{Common} (obj private_key : value) (w : world) :
  let r := serialize_and_sign obj private_key w in
  files r.2 = files w ∧ stdout r.2 = stdout w ∧
  (∀ h, r.1 = Ok h →
     ∃ data sig,
       canonserialize obj = Ok data ∧
       PrivateKey_sign private_key data = Ok sig ∧
       h = bytes_hex sig ∧
       is_lower_hex (2 * length sig) h = true ∧
       calls r.2 = (calls w ++ [CallCanonserialize obj;
                                CallSign private_key data])%list) ∧
  (∀ e, canonserialize obj = Raise e →
     r.1 = Raise e ∧ calls r.2 = (calls w ++ [CallCanonserialize obj])%list).
Proof.
  intros r. subst r.
  destruct (serialize_and_sign_world obj private_key w) as [Hf Ho].
  split; [done|]. split; [done|]. clear Hf Ho.
  unfold serialize_and_sign. run. split.
  - intros h Hh.
    destruct (canonserialize obj) as [data|] eqn:Hdata; simpl in *;
      [|discriminate].
    destruct (PrivateKey_sign private_key data) as [sig|] eqn:Hsig; simpl in *;
      [|discriminate].
    injection Hh as <-. exists data, sig.
    split; [done|]. split; [done|]. split; [done|].
    split; [apply bytes_hex_lower|]. by rewrite <- app_assoc.
  - intros e ->. done.
Qed.

Lemma serialize_and_sign_hex_witness :
  let r := serialize_and_sign (H := sample_common) metadata_foo
             (private_key seed_A) no_files in
  r.1 = Ok (bytes_hex sig_foo) ∧
  is_lower_hex 128 (bytes_hex sig_foo) = true ∧
  calls (serialize_and_sign (H := sample_common) (VBytes []) (private_key seed_A)
           no_files).2 = [CallCanonserialize (VBytes [])].
Proof.
  intros r.
  destruct (serialize_and_sign_hex (H := sample_common) metadata_foo
              (private_key seed_A) no_files) as (_ & _ & Hok & _).
  destruct (Hok (bytes_hex sig_foo) eq_refl)
    as (data & sig & Hdata & Hsig & Hh & Hlower & _).
  split; [reflexivity|]. split.
  - rewrite (sample_sign_length _ _ _ Hsig) in Hlower. exact Hlower.
  - destruct (serialize_and_sign_hex (H := sample_common) (VBytes [])
                (private_key seed_A) no_files) as (_ & _ & _ & Hraise).
    exact (proj2 (Hraise _ eq_refl)).
Defined.

(** X2.  [sign_signable] checks its arguments before anything else: when the
    key or the envelope fails its format check, the call raises that error
    with nothing canonicalized and nothing signed; the key is checked first.
    When these checks pass and the record of the new signature fails its own
    format check, the call raises that error: the envelope is assigned to
    only after every check. *)
Theorem sign_signable_checks_first `{Common} (signable private_key : value)
    (w : world) :
  (∀ e, checkformat_key private_key = Raise e →
     sign_signable signable private_key w = (Raise e, w)) ∧
  (∀ e, checkformat_key private_key = Ok () →
     checkformat_signable signable = Raise e →
     sign_signable signable private_key w = (Raise e, w)) ∧
  (∀ e signed data sig public pubhex,
     checkformat_key private_key = Ok () →
     checkformat_signable signable = Ok () →
     getitem signable "signed" = Ok signed →
     canonserialize signed = Ok data →
     PrivateKey_sign private_key data = Ok sig →
     PrivateKey_public_key private_key = Ok public →
     PublicKey_to_hex public = Ok pubhex →
     checkformat_signature (signature_record (bytes_hex sig)) = Raise e →
     (sign_signable signable private_key w).1 = Raise e).
Proof.
  unfold sign_signable, serialize_and_sign. run. split_and!.
  - by intros e ->.
  - by intros e -> ->.
  - intros e signed data sig public pubhex -> -> -> Hdata Hsig Hpub Hhex Hrec.
    simpl. rewrite Hdata. simpl. rewrite Hsig. simpl. rewrite Hpub. simpl.
    rewrite Hhex. simpl. by rewrite Hrec.
Qed.

Lemma sign_signable_checks_first_witness :
  sign_signable (H := sample_common) (VDict envelope_foo) (private_key [])
    no_files
  = (Raise (Exn ValueError "Expected a 32-byte key"), no_files) ∧
  sign_signable (H := sample_common) metadata_foo (private_key seed_A) no_files
  = (Raise (Exn TypeError "Expected a signable dictionary"), no_files).
Proof.
  split.
  - exact (proj1 (sign_signable_checks_first (H := sample_common)
                    (VDict envelope_foo) (private_key []) no_files)
             _ eq_refl).
  - exact (proj1 (proj2 (sign_signable_checks_first (H := sample_common)
                           metadata_foo (private_key seed_A) no_files))
             _ eq_refl eq_refl).
Defined.

(** X3.  Two keys with different public keys can sign an envelope in either
    order: when both orders go through, they leave the same envelope. *)
Theorem sign_signable_order_independent `{Common}
    (signable key1 key2 s1 s12 s2 s21 : value) (w w1 w12 w' w2 w21 : world) :
  public_hex_of key1 ≠ public_hex_of key2 →
  sign_signable signable key1 w = (Ok s1, w1) →
  sign_signable s1 key2 w1 = (Ok s12, w12) →
  sign_signable signable key2 w' = (Ok s2, w2) →
  sign_signable s2 key1 w2 = (Ok s21, w21) →
  s12 = s21.
Proof.
  intros Hne Hrun1 Hrun12 Hrun2 Hrun21.
  apply sign_signable_inv in Hrun1
    as (signed & data & sig1 & public1 & hex1 & sigs & sigs1 & _ & _ & Hsigned
        & Hdata & Hsig1 & Hpub1 & Hhex1 & _ & Hsigs & Hset1 & Hset1' & _).
  apply sign_signable_inv in Hrun2
    as (signed2 & data2 & sig2 & public2 & hex2 & sigs' & sigs2 & _ & _
        & Hsigned2 & Hdata2 & Hsig2 & Hpub2 & Hhex2 & _ & Hsigs' & Hset2
        & Hset2' & _).
  rewrite Hsigned in Hsigned2. injection Hsigned2 as <-.
  rewrite Hdata in Hdata2. injection Hdata2 as <-.
  rewrite Hsigs in Hsigs'. injection Hsigs' as <-.
  assert (Hhex : hex1 ≠ hex2).
  { intros ->. apply Hne. unfold public_hex_of.
    rewrite Hpub1, Hpub2. simpl. by rewrite Hhex1, Hhex2. }
  apply sign_signable_inv in Hrun12
    as (signed12 & data12 & sig12 & public12 & hex12 & sigs12 & sigs12' & _ & _
        & Hsigned12 & Hdata12 & Hsig12 & Hpub12 & Hhex12 & _ & Hsigs12 & Hset12
        & Hset12' & _).
  apply sign_signable_inv in Hrun21
    as (signed21 & data21 & sig21 & public21 & hex21 & sigs21 & sigs21' & _ & _
        & Hsigned21 & Hdata21 & Hsig21 & Hpub21 & Hhex21 & _ & Hsigs21 & Hset21
        & Hset21' & _).
  rewrite (getitem_setitem_ne _ _ _ _ _ Hset1'), Hsigned in Hsigned12 by done.
  injection Hsigned12 as <-.
  rewrite (getitem_setitem_ne _ _ _ _ _ Hset2'), Hsigned in Hsigned21 by done.
  injection Hsigned21 as <-.
  rewrite Hdata in Hdata12, Hdata21.
  injection Hdata12 as <-. injection Hdata21 as <-.
  rewrite Hsig2 in Hsig12. injection Hsig12 as <-.
  rewrite Hsig1 in Hsig21. injection Hsig21 as <-.
  rewrite Hpub2 in Hpub12. injection Hpub12 as <-.
  rewrite Hpub1 in Hpub21. injection Hpub21 as <-.
  rewrite Hhex2 in Hhex12. injection Hhex12 as <-.
  rewrite Hhex1 in Hhex21. injection Hhex21 as <-.
  rewrite (getitem_setitem_eq _ _ _ _ Hset1') in Hsigs12.
  injection Hsigs12 as <-.
  rewrite (getitem_setitem_eq _ _ _ _ Hset2') in Hsigs21.
  injection Hsigs21 as <-.
  assert (sigs12' = sigs21') as <-
    by exact (setitem_commute _ _ _ _ _ _ _ _ _ Hhex Hset1 Hset12 Hset2 Hset21).
  rewrite (setitem_override _ _ _ _ _ Hset1') in Hset12'.
  rewrite (setitem_override _ _ _ _ _ Hset2') in Hset21'.
  rewrite Hset12' in Hset21'. by injection Hset21'.
Qed.

Lemma sign_signable_order_independent_witness :
  let sign := sign_signable (H := sample_common) in
  let rA := sign (VDict envelope_foo) (private_key seed_A) no_files in
  let rAB := sign (after VNone rA.1) (private_key seed_B) rA.2 in
  let rB := sign (VDict envelope_foo) (private_key seed_B) no_files in
  let rBA := sign (after VNone rB.1) (private_key seed_A) rB.2 in
  rAB.1 = Ok (after VNone rAB.1) ∧ rBA.1 = Ok (after VNone rBA.1) ∧
  after VNone rAB.1 = after VNone rBA.1.
Proof.
  intros sign rA rAB rB rBA.
  split; [reflexivity|]. split; [reflexivity|].
  assert (Hne : public_hex_of (H := sample_common) (private_key seed_A)
                ≠ public_hex_of (H := sample_common) (private_key seed_B))
    by (vm_compute; discriminate).
  assert (HA : sign (VDict envelope_foo) (private_key seed_A) no_files
               = (Ok (after VNone rA.1), rA.2)) by reflexivity.
  assert (HAB : sign (after VNone rA.1) (private_key seed_B) rA.2
                = (Ok (after VNone rAB.1), rAB.2)) by reflexivity.
  assert (HB : sign (VDict envelope_foo) (private_key seed_B) no_files
               = (Ok (after VNone rB.1), rB.2)) by reflexivity.
  assert (HBA : sign (after VNone rB.1) (private_key seed_A) rB.2
                = (Ok (after VNone rBA.1), rBA.2)) by reflexivity.
  exact (sign_signable_order_independent (H := sample_common) _ _ _ _ _ _ _
           _ _ _ _ _ _ Hne HA HAB HB HBA).
Defined.

(** X4.  Wrapping an object and signing the envelope once gives
    [{"signatures": {pubkey-hex: {"signature": h}}, "signed": obj}]: one
    signature, made over the canonical bytes of the object itself. *)
Theorem wrap_then_sign `{Common} (obj private_key public : value)
    (data sig : bytes) (pubhex : string) (w : world) :
  type_in (type_of obj) SUPPORTED_SERIALIZABLE_TYPES = true →
  checkformat_key private_key = Ok () →
  checkformat_signable
    (VDict (<["signatures" := VDict ∅]> (<["signed" := obj]> ∅))) = Ok () →
  canonserialize obj = Ok data →
  PrivateKey_sign private_key data = Ok sig →
  PrivateKey_public_key private_key = Ok public →
  PublicKey_to_hex public = Ok (VStr pubhex) →
  checkformat_signature (signature_record (bytes_hex sig)) = Ok () →
  (signable ← wrap_as_signable obj; sign_signable signable private_key) w
  = (Ok (VDict (<["signatures" :=
                   VDict {[pubhex := signature_record (bytes_hex sig)]}]>
                  (<["signed" := obj]> ∅))),
     add_call (CallSign private_key data) (add_call (CallCanonserialize obj) w)).
Proof.
  intros Htype Hkey Hfmt Hdata Hsig Hpub Hhex Hrec.
  unfold wrap_as_signable. rewrite Htype. cbn [negb]. rewrite deepcopy_id.
  change ((signable ← mret (VDict (<["signatures" := VDict ∅]>
                                     (<["signed" := obj]> ∅)));
           sign_signable signable private_key) w)
    with (sign_signable (VDict (<["signatures" := VDict ∅]>
                                  (<["signed" := obj]> ∅))) private_key w).
  erewrite sign_signable_run; eauto.
Qed.

Lemma wrap_then_sign_witness :
  ((signable ← wrap_as_signable (H := sample_common) metadata_foo;
    sign_signable (H := sample_common) signable (private_key seed_A)) no_files).1
  = Ok (VDict (<["signatures" :=
                  VDict {[hex_A := signature_record (bytes_hex sig_foo)]}]>
                 (<["signed" := metadata_foo]> ∅))).
Proof.
  rewrite (wrap_then_sign (H := sample_common) metadata_foo (private_key seed_A)
             (public_key (toy_public seed_A)) data_foo sig_foo hex_A no_files
             eq_refl eq_refl eq_refl eq_refl eq_refl eq_refl eq_refl eq_refl).
  reflexivity.
Defined.

(** What a loop of [sign_all_in_repodata] that has run has left of files and
    console. *)
Ltac loop_world :=
  repeat match goal with
  | Hloop : for_each ?pairs (sign_package ?p ?h) ?acc ?w = _ |- _ =>
      let Hf := fresh "Hf" in let Ho := fresh "Ho" in
      destruct (for_each_world (sign_package p h) pairs acc w
                  (sign_package_world p h)) as [Hf Ho];
      rewrite Hloop in Hf, Ho; simpl in Hf, Ho; revert Hloop
  | Hloop : for_each ?pairs (sign_package_conda ?p ?h) ?acc ?w = _ |- _ =>
      let Hf := fresh "Hf" in let Ho := fresh "Ho" in
      destruct (for_each_world (sign_package_conda p h) pairs acc w
                  (sign_package_conda_world p h)) as [Hf Ho];
      rewrite Hloop in Hf, Ho; simpl in Hf, Ho; revert Hloop
  end; intros.

(** X5.  [sign_all_in_repodata] writes the file as its last step and writes
    nothing else: a call that raises, at whatever point, leaves every file as
    it was (there is no half-signed file); a call that returns has replaced
    the content of the one file named and of no other.  Nothing is
    printed. *)
Theorem sign_all_in_repodata_writes_last `{Common}
    (fname private_key_hex : value) (w : world) :
  let r := sign_all_in_repodata fname private_key_hex w in
  stdout r.2 = stdout w ∧
  (∀ e, r.1 = Raise e → files r.2 = files w) ∧
  (r.1 = Ok () →
     ∃ f before after,
       fname = VStr f ∧ files w !! f = Some before ∧
       files r.2 = <[f := after]> (files w)).
Proof.
  intros r. subst r.
  unfold sign_all_in_repodata, load_metadata_from_file, write_metadata_to_file.
  unfold mbind, mret, M_mbind, M_mret, M_bind, M_ret, lift, raise.
  repeat (case_match; simplify_eq/=); loop_world.
  all: split; [congruence|]; split; [intros; congruence|];
    try (intros; discriminate).
  intros _. eexists _, _, _. split; [reflexivity|]. split; [eassumption|].
  f_equal; first [reflexivity | congruence].
Qed.

Lemma sign_all_in_repodata_writes_last_witness :
  let w := with_files [("repodata.json", VDict packages)] in
  let r := sign_all_in_repodata (H := sample_common) (VStr "repodata.json")
             (VStr key_hex_A) w in
  r.1 = Raise (Exn ValueError
                 ("Expected a " +:+ dquote +:+ "packages" +:+ dquote
                  +:+ " entry in given repodata file.")) ∧
  files r.2 = files w.
Proof.
  intros w r. split; [reflexivity|].
  exact (proj1 (proj2 (sign_all_in_repodata_writes_last (H := sample_common)
                         (VStr "repodata.json") (VStr key_hex_A) w))
           _ eq_refl).
Defined.

(** X6.  On a file that loads but has no ["packages"] entry,
    [sign_all_in_repodata] raises [ValueError] once the key is read: nothing
    is canonicalized, signed, printed or written. *)
Theorem sign_all_in_repodata_needs_packages `{Common}
    (fname private_key_hex : string) (private public public_hex repodata : value)
    (w : world) :
  checkformat_hex_key (VStr private_key_hex) = Ok () →
  checkformat_string (VStr fname) = Ok () →
  PrivateKey_from_hex (VStr private_key_hex) = Ok private →
  PrivateKey_public_key private = Ok public →
  PublicKey_to_hex public = Ok public_hex →
  files w !! fname = Some repodata →
  contains "packages" repodata = Ok false →
  sign_all_in_repodata (VStr fname) (VStr private_key_hex) w
  = (Raise (Exn ValueError
              ("Expected a " +:+ dquote +:+ "packages" +:+ dquote
               +:+ " entry in given repodata file.")), w).
Proof.
  intros Hhexkey Hstring Hfrom Hpub Hhex Hfile Hpackages.
  unfold sign_all_in_repodata, load_metadata_from_file.
  unfold mbind, mret, M_mbind, M_mret, M_bind, M_ret, lift, raise.
  by rewrite Hhexkey, Hstring, Hfrom, Hpub, Hhex, Hfile, Hpackages.
Qed.

Lemma sign_all_in_repodata_needs_packages_witness :
  let w := with_files [("repodata.json", VDict packages);
                       ("names.json", VList [VStr "info"; VStr "signatures"])] in
  (sign_all_in_repodata (H := sample_common) (VStr "repodata.json")
     (VStr key_hex_A) w).2 = w ∧
  (sign_all_in_repodata (H := sample_common) (VStr "names.json")
     (VStr key_hex_A) w).2 = w.
Proof.
  intros w. split.
  - rewrite (sign_all_in_repodata_needs_packages (H := sample_common)
               "repodata.json" key_hex_A (private_key seed_A)
               (public_key (toy_public seed_A)) (VStr hex_A) (VDict packages) w
               eq_refl eq_refl eq_refl eq_refl eq_refl eq_refl eq_refl).
    reflexivity.
  - rewrite (sign_all_in_repodata_needs_packages (H := sample_common)
               "names.json" key_hex_A (private_key seed_A)
               (public_key (toy_public seed_A)) (VStr hex_A)
               (VList [VStr "info"; VStr "signatures"]) w
               eq_refl eq_refl eq_refl eq_refl eq_refl eq_refl eq_refl).
    reflexivity.
Defined.

(** X7.  Signing a repodata file a second time with the same key changes
    nothing: the second run returns and leaves every file as the first run
    left it. *)
Theorem sign_all_in_repodata_idempotent `{Common}
    (fname private_key_hex : string) (w : world)
    (repodata packages conda : gmap string value) (private public : value)
    (pubhex : string) :
  checkformat_hex_key (VStr private_key_hex) = Ok () →
  checkformat_string (VStr fname) = Ok () →
  PrivateKey_from_hex (VStr private_key_hex) = Ok private →
  PrivateKey_public_key private = Ok public →
  PublicKey_to_hex public = Ok (VStr pubhex) →
  files w !! fname = Some (VDict repodata) →
  repodata !! "packages" = Some (VDict packages) →
  default (VDict ∅) (repodata !! "packages.conda") = VDict conda →
  map_Forall (λ _ md, ∃ h, signature_hex_of private md = Ok h ∧
                checkformat_signature (signature_record h) = Ok ()) packages →
  map_Forall (λ _ md, ∃ h, signature_hex_of private md = Ok h) conda →
  ∃ w1 w2,
    sign_all_in_repodata (VStr fname) (VStr private_key_hex) w = (Ok (), w1) ∧
    sign_all_in_repodata (VStr fname) (VStr private_key_hex) w1 = (Ok (), w2) ∧
    files w2 = files w1 ∧ stdout w2 = stdout w.
Proof.
  intros Hhexkey Hstring Hfrom Hpub Hhex Hfile Hpackages Hconda Hall Hall_conda.
  destruct (sign_all_in_repodata_run fname private_key_hex w repodata packages
              conda private public pubhex) as (w1 & Hrun1 & Hfiles1 & Hout1);
    try done.
  set (signatures := entry_for private pubhex <$> (conda ∪ packages)) in *.
  set (repodata1 := <["signatures" := VDict signatures]> repodata) in *.
  destruct (sign_all_in_repodata_run fname private_key_hex w1 repodata1 packages
              conda private public pubhex) as (w2 & Hrun2 & Hfiles2 & Hout2);
    try done.
  - rewrite Hfiles1. apply lookup_insert_eq.
  - unfold repodata1. by rewrite lookup_insert_ne.
  - unfold repodata1. by rewrite lookup_insert_ne.
  - exists w1, w2. split; [done|]. split; [done|]. split; [|congruence].
    rewrite Hfiles2, Hfiles1. fold signatures. unfold repodata1.
    by rewrite !insert_insert_eq.
Qed.

Lemma sign_all_in_repodata_idempotent_witness :
  ∃ w1 w2,
    sign_all_in_repodata (H := sample_common) (VStr "repodata.json")
      (VStr key_hex_A) (with_files [("repodata.json", VDict repodata)])
    = (Ok (), w1) ∧
    sign_all_in_repodata (H := sample_common) (VStr "repodata.json")
      (VStr key_hex_A) w1 = (Ok (), w2) ∧
    files w2 = files w1.
Proof.
  destruct (sign_all_in_repodata_idempotent (H := sample_common)
              "repodata.json" key_hex_A
              (with_files [("repodata.json", VDict repodata)])
              repodata packages packages_conda
              (private_key seed_A) (public_key (toy_public seed_A)) hex_A
              eq_refl eq_refl eq_refl eq_refl eq_refl eq_refl eq_refl eq_refl
              sample_packages_sign sample_packages_conda_sign)
    as (w1 & w2 & Hrun1 & Hrun2 & Hfiles & _).
  exists w1, w2. split; [exact Hrun1|]. split; [exact Hrun2 | exact Hfiles].
Defined.

(* ===================================================================== *)
(** * Further properties of root_signing.py *)
(* ===================================================================== *)

Section RootSigningFurther.
Context `{Common} `{Gpg}.

Lemma sign_via_gpg_world (data fp : value) (incl : bool) (w : world) :
  files (sign_via_gpg data fp incl w).2 = files w ∧
  stdout (sign_via_gpg data fp incl w).2 = stdout w.
Proof.
  unfold sign_via_gpg, _check_sslib_available. run.
  repeat (case_match; simplify_eq/=); done.
Qed.

Lemma fetch_keyval_from_gpg_world (fp : value) (w : world) :
  files (fetch_keyval_from_gpg fp w).2 = files w ∧
  stdout (fetch_keyval_from_gpg fp w).2 = stdout w.
Proof.
  unfold fetch_keyval_from_gpg, _check_sslib_available.
  unfold mbind, mret, M_mbind, M_mret, M_bind, M_ret, lift, raise, record.
  repeat (case_match; simplify_eq/=); done.
Qed.

Lemma sign_root_metadata_dict_via_gpg_world (root_signable fp : value)
    (w : world) :
  files (sign_root_metadata_dict_via_gpg root_signable fp w).2 = files w ∧
  stdout (sign_root_metadata_dict_via_gpg root_signable fp w).2 = stdout w.
Proof.
  unfold sign_root_metadata_dict_via_gpg, _check_sslib_available.
  unfold mbind, mret, M_mbind, M_mret, M_bind, M_ret, lift, raise, record.
  destruct SSLIB_AVAILABLE; [|done]. cbn [negb].
  destruct (is_signable root_signable); [|done]. cbn [negb].
  destruct (getitem root_signable "signed") as [signed|]; [|done].
  destruct (canonserialize signed) as [data|]; [|done].
  pose proof (sign_via_gpg_world (VBytes data) fp false
                (add_call (CallCanonserialize signed) w)) as [Hf1 Ho1].
  destruct (sign_via_gpg _ _ _ _) as [[sig|] w1]; [|done].
  pose proof (fetch_keyval_from_gpg_world fp w1) as [Hf2 Ho2].
  destruct (fetch_keyval_from_gpg fp w1) as [[q|] w2];
    simpl in *; [|split; congruence].
  repeat (case_match; simplify_eq/=); split; congruence.
Qed.

End RootSigningFurther.

(** X8.  Without securesystemslib every function of [root_signing] that
    talks to GPG raises [ImportError] before it does anything else, and so do
    the subcommands built on them: nothing is checked, canonicalized, asked
    of GPG, printed or written. *)
Theorem gpg_functions_need_sslib `{Common} `{Gpg}
    (verify_root : value → value → outcome unit)
    (verify_delegation : value → value → value → outcome unit)
    (interactive_modify_metadata : value → M unit) :
  SSLIB_AVAILABLE = false →
  let unavailable :=
    Exn ImportError
      "The securesystemslib library is required, which appears to be unavailable." in
  let run := cli verify_root verify_delegation interactive_modify_metadata in
  (∀ data fp include_fingerprint w,
     sign_via_gpg data fp include_fingerprint w = (Raise unavailable, w)) ∧
  (∀ fp w, fetch_keyval_from_gpg fp w = (Raise unavailable, w)) ∧
  (∀ root_signable fp w,
     sign_root_metadata_dict_via_gpg root_signable fp w
     = (Raise unavailable, w)) ∧
  (∀ fname fp obj w, files w !! fname = Some obj →
     sign_root_metadata_via_gpg (VStr fname) fp w = (Raise unavailable, w)) ∧
  (∀ spelling w, run (GpgKeyLookup spelling) w = (Raise unavailable, w)) ∧
  (∀ spelling filename obj w, files w !! filename = Some obj →
     run (GpgSign spelling filename) w = (Raise unavailable, w)).
Proof.
  intros Hno unavailable run. subst unavailable run.
  unfold cli, sign_root_metadata_via_gpg, sign_root_metadata_dict_via_gpg,
    fetch_keyval_from_gpg, sign_via_gpg, _check_sslib_available,
    load_metadata_from_file.
  unfold mbind, mret, M_mbind, M_mret, M_bind, M_ret, lift, raise.
  rewrite Hno. cbn [negb files].
  split_and!; try done.
  - by intros fname fp obj w ->.
  - by intros spelling filename obj w ->.
Qed.

Lemma gpg_functions_need_sslib_witness :
  cli (H := sample_common) (H0 := no_gpg) cli_verify_root cli_verify_delegation
    no_editor (GpgKeyLookup fingerprint_as_printed) no_files
  = (Raise (Exn ImportError
       "The securesystemslib library is required, which appears to be unavailable."),
     no_files).
Proof.
  exact (proj1 (proj2 (proj2 (proj2 (proj2
           (gpg_functions_need_sslib (H := sample_common) (H0 := no_gpg)
              cli_verify_root cli_verify_delegation no_editor eq_refl)))))
           fingerprint_as_printed no_files).
Defined.

(** X9.  [sign_via_gpg] checks the fingerprint and then the data before it
    asks GPG for anything: when either check fails, the call raises that
    error and GPG has not been called.  A reply of GPG without ["keyid"]
    makes the call raise [KeyError], with or without [include_fingerprint]. *)
Theorem sign_via_gpg_checks_first `{Common} `{Gpg}
    (data_to_sign gpg_key_fingerprint : value) (include_fingerprint : bool)
    (w : world) :
  SSLIB_AVAILABLE = true →
  (∀ e, checkformat_gpg_fingerprint gpg_key_fingerprint = Raise e →
     sign_via_gpg data_to_sign gpg_key_fingerprint include_fingerprint w
     = (Raise e, w)) ∧
  (∀ e, checkformat_gpg_fingerprint gpg_key_fingerprint = Ok () →
     checkformat_byteslike data_to_sign = Raise e →
     sign_via_gpg data_to_sign gpg_key_fingerprint include_fingerprint w
     = (Raise e, w)) ∧
  (∀ reply, checkformat_gpg_fingerprint gpg_key_fingerprint = Ok () →
     checkformat_byteslike data_to_sign = Ok () →
     create_signature data_to_sign gpg_key_fingerprint = Ok (VDict reply) →
     reply !! "keyid" = None →
     (sign_via_gpg data_to_sign gpg_key_fingerprint include_fingerprint w).1
     = Raise (Exn KeyError (squote +:+ "keyid" +:+ squote))).
Proof.
  intros Havailable.
  unfold sign_via_gpg, _check_sslib_available.
  unfold mbind, mret, M_mbind, M_mret, M_bind, M_ret, lift, raise, record.
  rewrite Havailable. cbn [negb]. split_and!.
  - by intros e ->.
  - by intros e -> ->.
  - intros reply -> -> Hreply Hkeyid. rewrite Hreply.
    destruct include_fingerprint; simpl; by rewrite Hkeyid.
Qed.

Lemma sign_via_gpg_checks_first_witness :
  sign_via_gpg (H := sample_common) (H0 := sample_gpg) (VBytes [])
    (VStr fingerprint_as_printed) false no_files
  = (Raise (Exn ValueError "Expected 40 hex characters"), no_files) ∧
  (sign_via_gpg (H := sample_common) (H0 := gpg_without_keyid) (VBytes [])
     (VStr fingerprint) true no_files).1
  = Raise (Exn KeyError "'keyid'").
Proof.
  split.
  - exact (proj1 (sign_via_gpg_checks_first (H := sample_common)
                    (H0 := sample_gpg) (VBytes []) (VStr fingerprint_as_printed)
                    false no_files eq_refl) _ eq_refl).
  - exact (proj2 (proj2 (sign_via_gpg_checks_first (H := sample_common)
                    (H0 := gpg_without_keyid) (VBytes []) (VStr fingerprint)
                    true no_files eq_refl)) _ eq_refl eq_refl eq_refl eq_refl).
Defined.

(** X10.  A call of [sign_root_metadata_dict_via_gpg] that returns has asked
    for exactly three things, in this order: the canonical bytes of the
    payload, a GPG signature over these bytes for the fingerprint as it was
    given, and the public key for the normalized fingerprint.  The fingerprint
    is checked as given: one that the format check refuses (as GPG prints it,
    with spaces and capitals) makes the call raise that error with GPG never
    called, although [fetch_keyval_from_gpg] would have normalized it. *)
Theorem sign_root_metadata_dict_via_gpg_calls `{Common} `{Gpg}
    (root_signable gpg_key_fingerprint : value) (w : world) :
  (∀ root_signable' w',
     sign_root_metadata_dict_via_gpg root_signable gpg_key_fingerprint w
       = (Ok root_signable', w') →
     ∃ signed data_to_sign normal,
       getitem root_signable "signed" = Ok signed ∧
       canonserialize signed = Ok data_to_sign ∧
       checkformat_gpg_fingerprint gpg_key_fingerprint = Ok () ∧
       normalized gpg_key_fingerprint = Ok normal ∧
       calls w' = (calls w ++
                   [CallCanonserialize signed;
                    CallGpgCreateSignature (VBytes data_to_sign)
                      gpg_key_fingerprint;
                    CallGpgExportPubkey normal])%list) ∧
  (∀ e signed data_to_sign,
     SSLIB_AVAILABLE = true →
     is_signable root_signable = true →
     getitem root_signable "signed" = Ok signed →
     canonserialize signed = Ok data_to_sign →
     checkformat_gpg_fingerprint gpg_key_fingerprint = Raise e →
     sign_root_metadata_dict_via_gpg root_signable gpg_key_fingerprint w
     = (Raise e, add_call (CallCanonserialize signed) w)).
Proof.
  split.
  - intros root_signable' w' Hrun.
    unfold sign_root_metadata_dict_via_gpg, _check_sslib_available in Hrun.
    unfold mbind, mret, M_mbind, M_mret, M_bind, M_ret, lift, raise, record
      in Hrun.
    destruct SSLIB_AVAILABLE; simpl in Hrun; [|discriminate].
    destruct (is_signable root_signable); simpl in Hrun; [|discriminate].
    destruct (getitem root_signable "signed") as [signed|] eqn:Hsigned;
      [|discriminate].
    destruct (canonserialize signed) as [data|] eqn:Hdata; [|discriminate].
    destruct (sign_via_gpg _ _ _ _) as [[sig_dict|] w1] eqn:Hsign;
      [|discriminate].
    destruct (fetch_keyval_from_gpg _ _) as [[raw_pubkey|] w2] eqn:Hfetch;
      [|discriminate].
    apply sign_via_gpg_inv in Hsign as (_ & _ & Hfp & _ & _ & _ & ->).
    apply fetch_keyval_from_gpg_inv in Hfetch
      as (nfp & _ & _ & Hnorm & _ & _ & _ & ->).
    repeat (case_match; simplify_eq/=).
    exists signed, data, nfp. split_and!; try done.
    by rewrite <- !app_assoc.
  - intros e signed data Havailable Hsignable Hsigned Hdata Hfp.
    unfold sign_root_metadata_dict_via_gpg, sign_via_gpg, _check_sslib_available.
    unfold mbind, mret, M_mbind, M_mret, M_bind, M_ret, lift, raise, record.
    rewrite Havailable, Hsignable. cbn [negb].
    by rewrite Hsigned, Hdata, Hfp.
Qed.

Lemma sign_root_metadata_dict_via_gpg_calls_witness :
  sign_root_metadata_dict_via_gpg (H := sample_common) (H0 := sample_gpg)
    (VDict envelope_foo) (VStr fingerprint_as_printed) no_files
  = (Raise (Exn ValueError "Expected 40 hex characters"),
     add_call (CallCanonserialize metadata_foo) no_files) ∧
  (fetch_keyval_from_gpg (H := sample_common) (H0 := sample_gpg)
     (VStr fingerprint_as_printed) no_files).1 = Ok (VStr hex_G).
Proof.
  split; [|reflexivity].
  exact (proj2 (sign_root_metadata_dict_via_gpg_calls (H := sample_common)
                  (H0 := sample_gpg) (VDict envelope_foo)
                  (VStr fingerprint_as_printed) no_files)
           _ metadata_foo data_foo eq_refl eq_refl eq_refl eq_refl eq_refl).
Defined.

(** X11.  [sign_root_metadata_via_gpg] rewrites the file it was given, and no
    other, with the envelope [sign_root_metadata_dict_via_gpg] returns for
    the content of that file; when loading or signing raises, every file is
    as it was.  Nothing is printed. *)
Theorem sign_root_metadata_via_gpg_file `{Common} `{Gpg}
    (root_md_fname gpg_key_fingerprint : value) (w : world) :
  let r := sign_root_metadata_via_gpg root_md_fname gpg_key_fingerprint w in
  stdout r.2 = stdout w ∧
  (∀ e, r.1 = Raise e → files r.2 = files w) ∧
  (r.1 = Ok () →
     ∃ fname root_signable root_signable' w',
       root_md_fname = VStr fname ∧
       files w !! fname = Some root_signable ∧
       sign_root_metadata_dict_via_gpg root_signable gpg_key_fingerprint w
         = (Ok root_signable', w') ∧
       files r.2 = <[fname := root_signable']> (files w)).
Proof.
  intros r. subst r.
  unfold sign_root_metadata_via_gpg, load_metadata_from_file,
    write_metadata_to_file.
  unfold mbind, mret, M_mbind, M_mret, M_bind, M_ret.
  destruct root_md_fname as [| | | |fname| | | | |]; try done.
  destruct (files w !! fname) as [root_signable|] eqn:Hfile; [|done].
  pose proof (sign_root_metadata_dict_via_gpg_world root_signable
                gpg_key_fingerprint w) as [Hf Ho].
  destruct (sign_root_metadata_dict_via_gpg root_signable gpg_key_fingerprint w)
    as [[root_signable'|e] w'] eqn:Hrun; simpl in *.
  - split; [done|]. split; [done|]. intros _.
    exists fname, root_signable, root_signable', w'. by rewrite Hf.
  - split; [done|]. split; [by intros|]. done.
Qed.

Lemma sign_root_metadata_via_gpg_file_witness :
  let w := with_files [("root.json", VDict envelope_foo)] in
  let r := sign_root_metadata_via_gpg (H := sample_common) (H0 := sample_gpg)
             (VStr "root.json") (VStr fingerprint_as_printed) w in
  r.1 = Raise (Exn ValueError "Expected 40 hex characters") ∧
  files r.2 = files w.
Proof.
  intros w r. split; [reflexivity|].
  exact (proj1 (proj2 (sign_root_metadata_via_gpg_file (H := sample_common)
                         (H0 := sample_gpg) (VStr "root.json")
                         (VStr fingerprint_as_printed) w)) _ eq_refl).
Defined.

(* ===================================================================== *)
(** * Further properties of the text normalizations and of cli.py *)
(* ===================================================================== *)

Section TextFurther.

Lemma py_lower_char_blank (c : ascii) :
  is_blank (py_lower_char c) = is_blank c.
Proof. destruct c as [[] [] [] [] [] [] [] []]; by vm_compute. Qed.

Lemma py_lower_char_space (c : ascii) :
  py_isspace (py_lower_char c) = py_isspace c.
Proof. destruct c as [[] [] [] [] [] [] [] []]; by vm_compute. Qed.

Lemma py_lower_char_idemp (c : ascii) :
  py_lower_char (py_lower_char c) = py_lower_char c.
Proof. destruct c as [[] [] [] [] [] [] [] []]; by vm_compute. Qed.

Lemma is_blank_space (c : ascii) : is_blank c = true → py_isspace c = true.
Proof.
  unfold is_blank. intros Hc. apply orb_true_iff in Hc as [Hc|Hc];
    apply Ascii.eqb_eq in Hc as ->; reflexivity.
Qed.

(** What the normalization of [fetch_keyval_from_gpg] computes, character by
    character. *)
Lemma normalized_cons (c : ascii) (s : string) :
  py_replace_char nbsp "" (py_replace_char " " "" (py_lower (String c s)))
  = if is_blank c
    then py_replace_char nbsp "" (py_replace_char " " "" (py_lower s))
    else String (py_lower_char c)
           (py_replace_char nbsp "" (py_replace_char " " "" (py_lower s))).
Proof.
  rewrite <- (py_lower_char_blank c). unfold is_blank.
  cbn [py_lower py_replace_char].
  destruct (Ascii.eqb (py_lower_char c) " ") eqn:Hsp; [done|].
  cbn [py_replace_char orb]. by destruct (Ascii.eqb (py_lower_char c) nbsp).
Qed.

Lemma normalized_blanks (canonical spelling : string) :
  spells_with_blanks canonical spelling →
  normalized (VStr spelling) = Ok (VStr canonical).
Proof.
  unfold normalized. cbn [lower replace mbind outcome_mbind outcome_bind].
  intros Hspells. do 2 f_equal.
  induction Hspells as [|c canonical spelling Hblank _ IH
                        |c c' canonical spelling Hdigit _ IH].
  - done.
  - by rewrite normalized_cons, Hblank.
  - rewrite normalized_cons.
    apply writes_digit_sound in Hdigit as (_ & Hnospace & Hlower).
    destruct (is_blank c') eqn:Hblank.
    + apply is_blank_space in Hblank. congruence.
    + by rewrite Hlower, IH.
Qed.

Lemma spells_with_blanks_lower_hex (canonical spelling : string) :
  spells_with_blanks canonical spelling →
  string_forallb is_lower_hex_char canonical = true.
Proof.
  induction 1 as [| |c c' canonical spelling Hdigit _ IH]; [done..|].
  apply writes_digit_sound in Hdigit as (Hc & _). simpl. by rewrite Hc, IH.
Qed.

(** The characters the normalization keeps: the lowered characters of the
    text, except the two blanks. *)
Lemma normalized_chars (s : string) (c : ascii) :
  c ∈ chars (py_replace_char nbsp "" (py_replace_char " " "" (py_lower s))) ↔
  ∃ c0, c0 ∈ chars s ∧ py_lower_char c0 = c ∧ is_blank c0 = false.
Proof.
  induction s as [|a s IH].
  - simpl. split; [by intros ?%elem_of_nil|].
    by intros (c0 & ?%elem_of_nil & _).
  - rewrite normalized_cons. change (chars (String a s)) with (a :: chars s).
    destruct (is_blank a) eqn:Hblank.
    + rewrite IH. split.
      * intros (c0 & Hin & Hc). exists c0. split; [by right | done].
      * intros (c0 & Hin & Hlow & Hc0).
        apply elem_of_cons in Hin as [->|Hin]; [congruence|].
        by exists c0.
    + change (chars (String (py_lower_char a) ?t))
        with (py_lower_char a :: chars t).
      rewrite elem_of_cons, IH. split.
      * intros [->|(c0 & Hin & Hc)].
        -- exists a. split; [by left | done].
        -- exists c0. split; [by right | done].
      * intros (c0 & Hin & Hlow & Hc0).
        apply elem_of_cons in Hin as [->|Hin]; [by left|].
        right. by exists c0.
Qed.

(** [''.join(s.split())] character by character: the whitespace is dropped. *)
Lemma join_split_cons (c : ascii) (s : string) :
  py_join "" (py_split (String c s))
  = if py_isspace c then py_join "" (py_split s)
    else String c (py_join "" (py_split s)).
Proof.
  unfold py_split. cbn [py_split_from]. destruct (py_isspace c); [done|].
  by rewrite py_join_split_from.
Qed.

Lemma join_split_no_space (s : string) :
  string_forallb (λ c, negb (py_isspace c)) (py_join "" (py_split s)) = true.
Proof.
  induction s as [|c s IH]; [done|]. rewrite join_split_cons.
  destruct (py_isspace c) eqn:Hc; [done|]. simpl. by rewrite Hc, IH.
Qed.

Lemma join_split_fixed (s : string) :
  string_forallb (λ c, negb (py_isspace c)) s = true →
  py_join "" (py_split s) = s.
Proof.
  induction s as [|c s IH]; [done|]. simpl. intros Hs.
  apply andb_true_iff in Hs as [Hc Hs]. rewrite join_split_cons.
  apply negb_true_iff in Hc. rewrite Hc. by rewrite IH.
Qed.

Lemma py_lower_no_space (s : string) :
  string_forallb (λ c, negb (py_isspace c)) (py_lower s)
  = string_forallb (λ c, negb (py_isspace c)) s.
Proof.
  induction s as [|c s IH]; [done|]. simpl.
  by rewrite py_lower_char_space, IH.
Qed.

Lemma py_lower_idemp (s : string) : py_lower (py_lower s) = py_lower s.
Proof.
  induction s as [|c s IH]; [done|]. simpl.
  by rewrite py_lower_char_idemp, IH.
Qed.

(** A text without whitespace loses nothing to the two replacements. *)
Lemma replace_blanks_fixed (s : string) :
  string_forallb (λ c, negb (py_isspace c)) s = true →
  py_replace_char nbsp "" (py_replace_char " " "" s) = s.
Proof.
  induction s as [|c s IH]; [done|]. simpl. intros Hs.
  apply andb_true_iff in Hs as [Hc Hs]. apply negb_true_iff in Hc.
  destruct (Ascii.eqb c " ") eqn:Hsp.
  { apply Ascii.eqb_eq in Hsp as ->. discriminate Hc. }
  simpl.
  destruct (Ascii.eqb c nbsp) eqn:Hnb.
  { apply Ascii.eqb_eq in Hnb as ->. discriminate Hc. }
  by rewrite IH.
Qed.

End TextFurther.

(** X12.  [fetch_keyval_from_gpg] itself takes a fingerprint as GPG prints
    it: for a text that is 40 lowercase hexadecimal digits up to letter case
    and to the characters U+0020 and U+00A0 anywhere, it normalizes the text
    to these digits and asks GPG for the key of that fingerprint, and returns
    the raw key of the reply.  The normalization keeps every other
    character, lowered: whitespace other than these two is not removed.
    Assumed of the format check: it accepts every string of 40 lowercase
    hexadecimal digits. *)
Theorem fetch_keyval_from_gpg_accepts_blanks `{Common} `{Gpg}
    (spelling canonical : string) (w : world) :
  (∀ s, is_lower_hex 40 s = true → checkformat_gpg_fingerprint (VStr s) = Ok ()) →
  SSLIB_AVAILABLE = true →
  spells_with_blanks canonical spelling →
  String.length canonical = 40%nat →
  normalized (VStr spelling) = Ok (VStr canonical) ∧
  fetch_keyval_from_gpg (VStr spelling) w
  = (export_pubkey (VStr canonical) ≫= raw_key_of,
     add_call (CallGpgExportPubkey (VStr canonical)) w) ∧
  (∀ text : string, ∃ normal,
     normalized (VStr text) = Ok (VStr normal) ∧
     ∀ c, c ∈ chars normal ↔
          ∃ c0, c0 ∈ chars text ∧ py_lower_char c0 = c ∧ is_blank c0 = false).
Proof.
  intros Haccept Havailable Hspells Hlength.
  pose proof (normalized_blanks _ _ Hspells) as Hnorm.
  pose proof (spells_with_blanks_lower_hex _ _ Hspells) as Hhex.
  assert (Hfmt : checkformat_gpg_fingerprint (VStr canonical) = Ok ()).
  { apply Haccept. unfold is_lower_hex. by rewrite Hhex, Hlength. }
  split; [done|]. split.
  - unfold fetch_keyval_from_gpg, _check_sslib_available.
    unfold normalized, raw_key_of in *.
    unfold mbind, mret, M_mbind, M_mret, M_bind, M_ret, lift, raise, record
      in *.
    rewrite Havailable. cbn [negb]. unfold outcome_mbind in *.
    rewrite Hnorm, Hfmt.
    by destruct (export_pubkey (VStr canonical)).
  - intros text. eexists. split; [reflexivity|]. apply normalized_chars.
Qed.

Lemma fingerprint_with_nbsp_spelled :
  spells_with_blanks fingerprint fingerprint_with_nbsp.
Proof.
  unfold fingerprint, fingerprint_with_nbsp, fingerprint_as_printed.
  cbn [py_replace_char Ascii.eqb Bool.eqb]. cbn.
  repeat first
    [ apply blanks_end
    | apply blanks_digit; [reflexivity|]
    | apply blanks_blank; [reflexivity|] ].
Qed.

Lemma fetch_keyval_from_gpg_accepts_blanks_witness :
  fetch_keyval_from_gpg (H := sample_common) (H0 := sample_gpg)
    (VStr fingerprint_with_nbsp) no_files
  = (Ok (VStr hex_G),
     add_call (CallGpgExportPubkey (VStr fingerprint)) no_files).
Proof.
  exact (proj1 (proj2 (fetch_keyval_from_gpg_accepts_blanks (H := sample_common)
                         (H0 := sample_gpg) fingerprint_with_nbsp fingerprint
                         no_files sample_fingerprint_accepted eq_refl
                         fingerprint_with_nbsp_spelled eq_refl))).
Defined.

(** X13.  The normalization of the command line, [''.join(s.split()).lower()],
    gives for every text a text without whitespace that lowering leaves as it
    is; normalizing once more changes nothing, and neither does the
    normalization of [fetch_keyval_from_gpg] that follows it in
    [gpg-key-lookup] and [gpg-sign]. *)
Theorem strip_and_lower_normal_form (s : string) :
  string_forallb (λ c, negb (py_isspace c)) (strip_and_lower s) = true ∧
  py_lower (strip_and_lower s) = strip_and_lower s ∧
  strip_and_lower (strip_and_lower s) = strip_and_lower s ∧
  normalized (VStr (strip_and_lower s)) = Ok (VStr (strip_and_lower s)).
Proof.
  assert (Hspace : string_forallb (λ c, negb (py_isspace c)) (strip_and_lower s)
                   = true).
  { unfold strip_and_lower. rewrite py_lower_no_space. apply join_split_no_space. }
  assert (Hlower : py_lower (strip_and_lower s) = strip_and_lower s)
    by apply py_lower_idemp.
  split; [done|]. split; [done|]. split.
  - unfold strip_and_lower at 1. by rewrite (join_split_fixed _ Hspace).
  - unfold normalized. cbn [lower replace mbind outcome_mbind outcome_bind].
    by rewrite Hlower, (replace_blanks_fixed _ Hspace).
Qed.

Section Spelled.

(** A whitespace character is not changed by lowering, and is no digit. *)
Lemma space_fixed (c : ascii) :
  py_isspace c = true → py_lower_char c = c ∧ is_lower_hex_char c = false.
Proof.
  destruct c as [[] [] [] [] [] [] [] []]; intros Hc; try discriminate Hc;
    by vm_compute.
Qed.

Lemma string_forallb_chars (p : ascii → bool) (s : string) (c : ascii) :
  string_forallb p s = true → c ∈ chars s → p c = true.
Proof.
  induction s as [|a s IH]; simpl.
  - by intros _ ?%elem_of_nil.
  - intros Hs. apply andb_true_iff in Hs as [Ha Hs].
    change (chars (String a s)) with (a :: chars s).
    intros [->|Hin]%elem_of_cons; [done | by apply IH].
Qed.

End Spelled.

(** C9, as amended.  The command line takes a fingerprint in any spelling:
    for a text that is 40 lowercase hexadecimal digits up to letter case and
    to whitespace anywhere, [gpg-key-lookup] and [gpg-sign] strip and lower it
    to exactly these 40 digits; the normalization of [fetch_keyval_from_gpg]
    then leaves them as they are, the format check accepts them, and GPG is
    asked for that canonical fingerprint: [gpg-key-lookup] then prints the raw
    key GPG resolves, and fails only if GPG does.  [fetch_keyval_from_gpg]
    itself lowers the text and removes U+0020 and U+00A0 only: called
    directly, it accepts the spelling when these are its only separators, and
    it keeps every other whitespace character of the spelling, so that the
    text it validates is not the canonical one and a format check that
    accepts 40 lowercase hexadecimal digits only makes it raise, with GPG not
    asked.  Assumed of the format check: it accepts every string of 40
    lowercase hexadecimal digits. *)
Theorem gpg_key_lookup_accepts_spellings `{Common} `{Gpg}
    (verify_root : value → value → outcome unit)
    (verify_delegation : value → value → value → outcome unit)
    (interactive_modify_metadata : value → M unit)
    (spelling canonical : string) (w : world) :
  (∀ s, is_lower_hex 40 s = true → checkformat_gpg_fingerprint (VStr s) = Ok ()) →
  SSLIB_AVAILABLE = true →
  spells canonical spelling →
  String.length canonical = 40%nat →
  let run := cli verify_root verify_delegation interactive_modify_metadata in
  strip_and_lower spelling = canonical ∧
  is_lower_hex 40 canonical = true ∧
  normalized (VStr (strip_and_lower spelling)) = Ok (VStr canonical) ∧
  checkformat_gpg_fingerprint (VStr canonical) = Ok () ∧
  (∀ params q,
     export_pubkey (VStr canonical) = Ok params → raw_key_of params = Ok q →
     run (GpgKeyLookup spelling) w
     = (Ok None,
        add_stdout ("Underlying ed25519 key value: " +:+ str q)
          (add_call (CallGpgExportPubkey (VStr canonical)) w))) ∧
  (∀ e, export_pubkey (VStr canonical) = Raise e →
     run (GpgKeyLookup spelling) w
     = (Raise e, add_call (CallGpgExportPubkey (VStr canonical)) w)) ∧
  (∀ filename,
     run (GpgSign spelling filename) w
     = (sign_root_metadata_via_gpg (VStr filename) (VStr canonical);;
        mret None) w) ∧
  (spells_with_blanks canonical spelling →
     normalized (VStr spelling) = Ok (VStr canonical) ∧
     fetch_keyval_from_gpg (VStr spelling) w
     = (export_pubkey (VStr canonical) ≫= raw_key_of,
        add_call (CallGpgExportPubkey (VStr canonical)) w)) ∧
  (∀ c, c ∈ chars spelling → py_isspace c = true → is_blank c = false →
     ∃ kept,
       normalized (VStr spelling) = Ok (VStr kept) ∧
       c ∈ chars kept ∧ kept ≠ canonical ∧
       ((∀ s, checkformat_gpg_fingerprint (VStr s) = Ok () →
              is_lower_hex 40 s = true) →
        ∃ e, fetch_keyval_from_gpg (VStr spelling) w = (Raise e, w))).
Proof.
  intros Haccept Havailable Hspells Hlength run. subst run.
  pose proof (strip_and_lower_spelling _ _ Hspells) as Hstrip.
  pose proof (spells_lower_hex _ _ Hspells) as Hhex.
  assert (Hcanonical : is_lower_hex 40 canonical = true).
  { unfold is_lower_hex. rewrite Hhex, Hlength. done. }
  pose proof (normalized_lower_hex _ Hhex) as Hnorm.
  pose proof (Haccept _ Hcanonical) as Hfmt.
  split; [done|]. split; [done|]. split; [by rewrite Hstrip|]. split; [done|].
  assert (Hfetch : ∀ text w0,
    normalized (VStr text) = Ok (VStr canonical) →
    fetch_keyval_from_gpg (VStr text) w0
    = (export_pubkey (VStr canonical) ≫= raw_key_of,
       add_call (CallGpgExportPubkey (VStr canonical)) w0)).
  { intros text w0 Htext.
    unfold fetch_keyval_from_gpg, _check_sslib_available.
    unfold normalized, raw_key_of in *.
    unfold mbind, mret, M_mbind, M_mret, M_bind, M_ret, lift, raise, record
      in *.
    rewrite Havailable. cbn [negb]. unfold outcome_mbind in *.
    rewrite Htext, Hfmt.
    by destruct (export_pubkey (VStr canonical)). }
  split_and!.
  - intros params q Hexport Hraw. unfold cli. rewrite Hstrip.
    unfold mbind, mret, M_mbind, M_mret, M_bind, M_ret, print.
    rewrite (Hfetch _ _ Hnorm), Hexport. simpl. by rewrite Hraw.
  - intros e Hexport. unfold cli. rewrite Hstrip.
    unfold mbind, mret, M_mbind, M_mret, M_bind, M_ret, print.
    by rewrite (Hfetch _ _ Hnorm), Hexport.
  - intros filename. unfold cli. by rewrite Hstrip.
  - intros Hblanks. pose proof (normalized_blanks _ _ Hblanks) as Hdirect.
    split; [done | by apply Hfetch].
  - intros c Hc Hspace Hblank.
    destruct (space_fixed c Hspace) as [Hlower Hnodigit].
    set (kept := py_replace_char nbsp ""
                   (py_replace_char " " "" (py_lower spelling))).
    assert (Hkept : normalized (VStr spelling) = Ok (VStr kept)) by done.
    assert (Hin : c ∈ chars kept).
    { apply normalized_chars. by exists c. }
    assert (Hkept_hex : string_forallb is_lower_hex_char kept = false).
    { destruct (string_forallb is_lower_hex_char kept) eqn:Hall; [|done].
      pose proof (string_forallb_chars _ _ _ Hall Hin). congruence. }
    exists kept. split; [done|]. split; [done|]. split; [congruence|].
    intros Hstrict.
    destruct (checkformat_gpg_fingerprint (VStr kept)) as [[]|e] eqn:Hcheck.
    { apply Hstrict in Hcheck. unfold is_lower_hex in Hcheck.
      rewrite Hkept_hex in Hcheck. by rewrite andb_false_r in Hcheck. }
    exists e.
    unfold fetch_keyval_from_gpg, _check_sslib_available.
    unfold normalized in Hkept.
    unfold mbind, mret, M_mbind, M_mret, M_bind, M_ret, lift, raise, record
      in *.
    rewrite Havailable. cbn [negb]. unfold outcome_mbind in *.
    by rewrite Hkept, Hcheck.
Qed.

Lemma fingerprint_with_tab_spelled : spells fingerprint fingerprint_with_tab.
Proof.
  unfold fingerprint, fingerprint_with_tab. cbn.
  repeat first
    [ apply spells_end
    | apply spells_digit; [reflexivity|]
    | apply spells_space; [reflexivity|] ].
Qed.

Lemma sample_fingerprint_strict (s : string) :
  checkformat_gpg_fingerprint (Common := sample_common) (VStr s) = Ok () →
  is_lower_hex 40 s = true.
Proof. simpl. by destruct (is_lower_hex 40 s). Qed.

Lemma gpg_key_lookup_accepts_spellings_witness :
  cli (H := sample_common) (H0 := sample_gpg)
    cli_verify_root cli_verify_delegation no_editor
    (GpgKeyLookup fingerprint_as_printed) no_files
  = (Ok None,
     add_stdout ("Underlying ed25519 key value: " +:+ hex_G)
       (add_call (CallGpgExportPubkey (VStr fingerprint)) no_files)) ∧
  cli (H := sample_common) (H0 := sample_gpg)
    cli_verify_root cli_verify_delegation no_editor
    (GpgKeyLookup fingerprint_with_tab) no_files
  = (Ok None,
     add_stdout ("Underlying ed25519 key value: " +:+ hex_G)
       (add_call (CallGpgExportPubkey (VStr fingerprint)) no_files)) ∧
  (∃ e, fetch_keyval_from_gpg (H := sample_common) (H0 := sample_gpg)
          (VStr fingerprint_with_tab) no_files = (Raise e, no_files)).
Proof.
  split; [|split].
  - destruct (gpg_key_lookup_accepts_spellings (H := sample_common)
                (H0 := sample_gpg) cli_verify_root cli_verify_delegation
                no_editor fingerprint_as_printed fingerprint no_files
                sample_fingerprint_accepted eq_refl fingerprint_spelled eq_refl)
      as (_ & _ & _ & _ & Hlookup & _).
    exact (Hlookup _ (VStr hex_G) eq_refl eq_refl).
  - destruct (gpg_key_lookup_accepts_spellings (H := sample_common)
                (H0 := sample_gpg) cli_verify_root cli_verify_delegation
                no_editor fingerprint_with_tab fingerprint no_files
                sample_fingerprint_accepted eq_refl fingerprint_with_tab_spelled
                eq_refl)
      as (_ & _ & _ & _ & Hlookup & _).
    exact (Hlookup _ (VStr hex_G) eq_refl eq_refl).
  - destruct (gpg_key_lookup_accepts_spellings (H := sample_common)
                (H0 := sample_gpg) cli_verify_root cli_verify_delegation
                no_editor fingerprint_with_tab fingerprint no_files
                sample_fingerprint_accepted eq_refl fingerprint_with_tab_spelled
                eq_refl)
      as (_ & _ & _ & _ & _ & _ & _ & _ & Hkept).
    assert (Htab : ascii_of_nat 9 ∈ chars fingerprint_with_tab).
    { apply (list_elem_of_lookup_2 _ 20%nat). reflexivity. }
    destruct (Hkept (ascii_of_nat 9) Htab eq_refl eq_refl)
      as (kept & _ & _ & _ & Hraise).
    exact (Hraise sample_fingerprint_strict).
Defined.

(** C9, as stated, fails for the lookup itself.  The fingerprint with a tab
    between its two halves is the 40 digits up to whitespace, but
    [fetch_keyval_from_gpg] removes U+0020 and U+00A0 only: the tab stays, the
    text it validates is not the canonical one, and the format check refuses
    it. *)
Lemma lookup_keeps_tab :
  ¬ lookup_accepts_every_spelling (H := sample_common) (H0 := sample_gpg).
Proof.
  intros Hclaim.
  destruct (Hclaim fingerprint_with_tab fingerprint no_files
              fingerprint_with_tab_spelled eq_refl) as [Hnormal _].
  vm_compute in Hnormal. discriminate Hnormal.
Qed.

(** X14.  [_gpg_pubkey_in_ssl_format] checks the fingerprint and then the
    key value, and raises the error of the first check that fails.  When both
    pass it returns a key with exactly the fields ["type"], ["method"],
    ["hashes"], ["keyid"] and ["keyval"], whose ["keyid"] is the fingerprint
    and whose raw key value, read as [fetch_keyval_from_gpg] reads it, is the
    one given: a GPG that exports this key for a fingerprint in normal form
    makes [fetch_keyval_from_gpg] return that key value. *)
Theorem gpg_pubkey_in_ssl_format_round_trip `{Common} `{Gpg} `{SslibFormats}
    (fingerprint q : value) :
  (∀ e, checkformat_gpg_fingerprint fingerprint = Raise e →
     _gpg_pubkey_in_ssl_format fingerprint q = Raise e) ∧
  (∀ e, checkformat_gpg_fingerprint fingerprint = Ok () →
     checkformat_hex_key q = Raise e →
     _gpg_pubkey_in_ssl_format fingerprint q = Raise e) ∧
  (checkformat_gpg_fingerprint fingerprint = Ok () →
   checkformat_hex_key q = Ok () →
   ∃ key,
     _gpg_pubkey_in_ssl_format fingerprint q = Ok (VDict key) ∧
     dom key = {["type"; "method"; "hashes"; "keyid"; "keyval"]} ∧
     key !! "keyid" = Some fingerprint ∧
     raw_key_of (VDict key) = Ok q ∧
     (∀ w, SSLIB_AVAILABLE = true →
        normalized fingerprint = Ok fingerprint →
        export_pubkey fingerprint = Ok (VDict key) →
        fetch_keyval_from_gpg fingerprint w
        = (Ok q, add_call (CallGpgExportPubkey fingerprint) w))).
Proof.
  unfold _gpg_pubkey_in_ssl_format. split_and!.
  - by intros e ->.
  - by intros e -> ->.
  - intros Hfp Hq. rewrite Hfp, Hq. eexists. split; [reflexivity|].
    split; [|split; [|split]].
    + cbn [list_to_map foldr uncurry fst snd].
      rewrite !dom_insert_L, dom_empty_L. set_solver.
    + reflexivity.
    + reflexivity.
    + intros w Havailable Hnorm Hexport.
      unfold fetch_keyval_from_gpg, _check_sslib_available.
      unfold normalized in Hnorm.
      unfold mbind, mret, M_mbind, M_mret, M_bind, M_ret, lift, raise, record
        in *.
      rewrite Havailable. cbn [negb]. unfold outcome_mbind in *.
      by rewrite Hnorm, Hfp, Hexport.
Qed.

Lemma gpg_pubkey_in_ssl_format_round_trip_witness :
  fetch_keyval_from_gpg (H := sample_common) (H0 := gpg_in_ssl_format)
    (VStr fingerprint) no_files
  = (Ok (VStr hex_G),
     add_call (CallGpgExportPubkey (VStr fingerprint)) no_files).
Proof.
  destruct (gpg_pubkey_in_ssl_format_round_trip (H := sample_common)
              (H0 := gpg_in_ssl_format) (H1 := sample_formats)
              (VStr fingerprint) (VStr hex_G)) as (_ & _ & Hok).
  destruct (Hok eq_refl eq_refl) as (key & Hkey & _ & _ & _ & Hfetch).
  exact (Hfetch no_files eq_refl eq_refl Hkey).
Defined.

Section CliFurther.
Context `{Common} `{Gpg}.

(** An object that is not a string, nor an instance of a subclass of [str],
    equals no string and cannot be concatenated to one. *)
Lemma not_str (v : value) (s prefix : string) :
  isinstance v TStr = false →
  eq_str v s = false ∧
  concat prefix v = type_error "can only concatenate str to str".
Proof.
  induction v as [| | | | | | | | |cls base IH]; simpl; try done.
Qed.

End CliFurther.


(** X16.  When the untrusted file declares a type that is not a string and
    the verifier rejects it with a [CCT_Error], [verify-metadata] does not
    return 20: building the message of the failure raises [TypeError], with
    nothing printed. *)
Theorem verify_metadata_type_not_text `{Common} `{Gpg}
    (verify_root : value → value → outcome unit)
    (verify_delegation : value → value → value → outcome unit)
    (interactive_modify_metadata : value → M unit)
    (trusted_fn untrusted_fn : string) (trusted untrusted metadata_type : value)
    (e : exn) (w : world) :
  files w !! untrusted_fn = Some untrusted →
  files w !! trusted_fn = Some trusted →
  (getitem untrusted "signed" ≫= λ signed, getitem signed "type")
    = Ok metadata_type →
  isinstance metadata_type TStr = false →
  verify_delegation metadata_type untrusted trusted = Raise e →
  exn_cls e = CCT_Error →
  cli verify_root verify_delegation interactive_modify_metadata
    (VerifyMetadata trusted_fn untrusted_fn) w
  = (Raise (Exn TypeError "can only concatenate str to str"), w).
Proof.
  intros Huntrusted Htrusted Htype Hnot Hverify Hcls.
  unfold cli, load_metadata_from_file, try_except.
  unfold mbind, mret, M_mbind, M_mret, M_bind, M_ret, lift, raise, print,
    outcome_mbind in *.
  rewrite Huntrusted, Htrusted, Htype.
  rewrite (proj1 (not_str metadata_type "root" "" Hnot)).
  rewrite Hverify, Hcls. cbn [exn_class_eqb].
  by rewrite (proj2 (not_str metadata_type "" _ Hnot)).
Qed.

Lemma verify_metadata_type_not_text_witness :
  let w := with_files [("1.root.json", root_v1); ("numbered.json", numbered)] in
  cli (H := sample_common) (H0 := sample_gpg) cli_verify_root reject_delegation
    no_editor (VerifyMetadata "1.root.json" "numbered.json") w
  = (Raise (Exn TypeError "can only concatenate str to str"), w).
Proof.
  intros w.
  exact (verify_metadata_type_not_text (H := sample_common) (H0 := sample_gpg)
           cli_verify_root reject_delegation no_editor
           "1.root.json" "numbered.json" root_v1 numbered (VInt 5)
           (Exn CCT_Error "verification failed") w
           eq_refl eq_refl eq_refl eq_refl eq_refl eq_refl).
Defined.

(* ===================================================================== *)
(** * Properties of the interactive editor *)
(* ===================================================================== *)

(** Unfolds the statement combinators of the editor. *)
Ltac run_editor :=
  unfold promptfor, _input_func, attempt, Editor.run;
  unfold mbind, mret, E_mbind, E_mret, E_bind, E_ret,
    M_mbind, M_mret, M_bind, M_ret, lift, print.


Section EditorLemmas.
Context `{Common} `{Gpg} `{Interactive}.

(** [fn_write] reads one line and writes [metadata] to the file it names. *)
Lemma fn_write_effect (metadata : value) (c : console) :
  let rc := fn_write metadata c in
  (∀ x, rc.1 = Returns x →
     ∃ fname, x = (1, metadata) ∧ stdin c = fname :: stdin rc.2 ∧
              files (env rc.2) = <[fname := metadata]> (files (env c))) ∧
  (∀ r, rc.1 = Raises r → r = EOFError ∧ stdin c = [] ∧ stdin rc.2 = [] ∧
                          files (env rc.2) = files (env c)).
Proof.
  unfold fn_write, write_metadata_to_file. run_editor.
  destruct (stdin c) as [|fname rest] eqn:Hin; simpl.
  - split; [done|]. by intros r [= <-].
  - split; [|done]. intros x [= <-]. by exists fname.
Qed.

(** The functions of the other options leave the files alone, whatever they
    return or raise. *)
Lemma fn_abort_quiet (metadata : value) (c : console) :
  stdin (fn_abort metadata c).2 `suffix_of` stdin c ∧
  files (env (fn_abort metadata c).2) = files (env c).
Proof. unfold fn_abort. run_editor. done. Qed.

Lemma fn_addsig_quiet (metadata : value) (c : console) :
  stdin (fn_addsig metadata c).2 `suffix_of` stdin c ∧
  files (env (fn_addsig metadata c).2) = files (env c).
Proof.
  unfold fn_addsig. run_editor.
  destruct SSLIB_AVAILABLE; cbn [negb stdin env];
    (destruct (stdin c) as [|line rest] eqn:Hin; cbn [stdin env]; [done|]);
    assert (Hrest : rest `suffix_of` line :: rest) by (by apply suffix_cons_r).
  all: destruct (is_hex_key _);
    [destruct (PrivateKey_from_hex _); cbn [stdin env]
    |destruct (is_gpg_fingerprint _)].
  all: try match goal with
    | |- context [sign_signable ?m ?k ?w] =>
        pose proof (sign_signable_world m k w) as [Hf _];
        destruct (sign_signable m k w) as [[?|?] ?]
    | |- context [sign_root_metadata_dict_via_gpg ?m ?k ?w] =>
        pose proof (sign_root_metadata_dict_via_gpg_world m k w) as [Hf _];
        destruct (sign_root_metadata_dict_via_gpg m k w) as [[?|?] ?]
    end.
  all: cbn [stdin env fst snd] in *; split; [done | simpl in *; congruence].
Qed.

Lemma fn_thresh_quiet (metadata : value) (c : console) :
  stdin (fn_thresh metadata c).2 `suffix_of` stdin c ∧
  files (env (fn_thresh metadata c).2) = files (env c).
Proof.
  unfold fn_thresh. run_editor.
  destruct (stdin c) as [|line rest] eqn:Hin; cbn [stdin env]; [done|].
  assert (Hrest : rest `suffix_of` line :: rest) by by apply suffix_cons_r.
  destruct (outcome_mbind _ _ _ _) as [present|]; cbn [stdin env]; [|done].
  destruct present; cbn [negb stdin env]; [|done].
  destruct (threshold_in metadata line) as [current|]; cbn [stdin env]; [|done].
  destruct rest as [|line' rest']; cbn [stdin env]; [done|].
  assert (Hrest' : rest' `suffix_of` line :: line' :: rest')
    by (do 2 apply suffix_cons_r; done).
  destruct (int line') as [n|]; [|done].
  destruct (1 <=? n); [|done].
  destruct (set_threshold_in _ _ _); cbn [stdin env]; done.
Qed.

(** Every option but 0 is one of these. *)
Lemma options_quiet :
  Forall (λ option : Z * ((value → E (Z * value)) * string),
            option.1 = 0 ∨
            ∀ metadata c,
              stdin (option.2.1 metadata c).2 `suffix_of` stdin c ∧
              files (env (option.2.1 metadata c).2) = files (env c))
         options.
Proof.
  unfold options.
  repeat apply Forall_cons_2; try apply Forall_nil_2; cbn [fst snd];
    first [ by left | right; intros metadata c ];
    first [ apply fn_abort_quiet | apply fn_addsig_quiet
          | apply fn_thresh_quiet | done ].
Qed.

Lemma dict_get_elem_of {A} (key : Z) (pairs : list (Z * A)) (a : A) :
  dict_get key pairs = Some a → (key, a) ∈ pairs.
Proof.
  induction pairs as [|[k x] pairs IH]; simpl; [done|].
  destruct (Z.eqb_spec k key) as [->|_].
  - intros [= <-]. by left.
  - intros Hget. right. by apply IH.
Qed.

(** What a round does to the input and to the files: it reads lines from the
    front of the input, at least one when it returns; and either it leaves
    the files alone, or option 0 was chosen and it returns 1 having written
    [metadata] to the file named by the line after the choice. *)
Lemma iteration_effect (metadata : value) (c : console) :
  let rc := iteration metadata c in
  stdin rc.2 `suffix_of` stdin c ∧
  (∀ x, rc.1 = Returns x → (length (stdin rc.2) < length (stdin c))%nat) ∧
  (files (env rc.2) = files (env c) ∨
   ∃ choice fname,
     rc.1 = Returns (1, metadata) ∧ int choice = Some 0 ∧
     stdin c = choice :: fname :: stdin rc.2 ∧
     files (env rc.2) = <[fname := metadata]> (files (env c))).
Proof.
  unfold iteration. run_editor. cbn [stdin env].
  destruct (json_dumps metadata) as [formatted|]; cbn [stdin env fst snd];
    [|split_and!; [done | done | by left]].
  destruct (highlight formatted) as [highlighted|]; cbn [stdin env fst snd];
    [|split_and!; [done | done | by left]].
  destruct (stdin c) as [|line rest] eqn:Hin; cbn [stdin env fst snd];
    [split_and!; [done | done | by left]|].
  assert (Hrest : rest `suffix_of` line :: rest) by by apply suffix_cons_r.
  destruct (int line) as [selected|] eqn:Hline; cbn [stdin env fst snd];
    [|split_and!; [done | simpl; lia | by left]].
  destruct (dict_get selected options) as [[fn description]|] eqn:Hoption;
    cbn [stdin env fst snd]; [|split_and!; [done | simpl; lia | by left]].
  pose proof (dict_get_elem_of _ _ _ Hoption) as Hin_options.
  pose proof (proj1 (Forall_forall _ _) options_quiet _ Hin_options) as Hquiet.
  cbn [fst snd] in Hquiet.
  destruct Hquiet as [->|Hquiet].
  - injection Hoption as <- <-.
    match goal with
    | |- context [fn_write metadata ?c1] =>
        destruct (fn_write_effect metadata c1) as [Hreturns Hraises];
        destruct (fn_write metadata c1) as [[x|r] c2]
    end; cbn [stdin env fst snd] in *.
    + destruct (Hreturns x eq_refl) as (fname & -> & -> & Hfiles).
      split_and!.
      * by do 2 apply suffix_cons_r.
      * intros _ _. simpl. lia.
      * right. by exists line, fname.
    + destruct (Hraises r eq_refl) as (_ & -> & -> & Hfiles).
      split_and!; [by apply suffix_nil | done | by left].
  - match goal with
    | |- context [fn metadata ?c1] =>
        destruct (Hquiet metadata c1) as [Hsuffix Hfiles];
        destruct (fn metadata c1) as [r c2]
    end; cbn [stdin env fst snd] in *.
    split_and!.
    + by etrans.
    + intros x _. apply suffix_length in Hsuffix. simpl. lia.
    + by left.
Qed.

(** The loop, for whatever number of rounds: the same, with the choice of
    option 0 in the last round. *)
Lemma while_not_done_effect (fuel : nat) (metadata : value) (c : console) :
  let rc := while_not_done fuel metadata c in
  stdin rc.2 `suffix_of` stdin c ∧
  (files (env rc.2) = files (env c) ∨
   ∃ before choice fname written,
     rc.1 = Returns (Some written) ∧ int choice = Some 0 ∧
     stdin c = (before ++ choice :: fname :: stdin rc.2)%list ∧
     files (env rc.2) = <[fname := written]> (files (env c))).
Proof.
  revert metadata c. induction fuel as [|fuel IH]; intros metadata c.
  { simpl. split; [done | by left]. }
  cbn [while_not_done]. unfold mbind, E_mbind, E_bind.
  destruct (iteration_effect metadata c) as (Hsuffix & _ & Hfiles).
  destruct (iteration metadata c) as [[[code metadata1]|r] c1];
    cbn [fst snd] in *.
  - destruct (code =? 0) eqn:Hdone.
    + destruct Hfiles as [Hsame|(choice & fname & [= -> ->] & _)];
        [|discriminate Hdone].
      destruct (IH metadata1 c1) as [Hsuffix1 Hfiles1].
      split; [by etrans|].
      destruct Hfiles1 as [Hsame1|(before & choice & fname & written & Hret
                                   & Hchoice & Hstdin & Hwritten)].
      * left. congruence.
      * right. destruct Hsuffix as [read Hread].
        exists (read ++ before)%list, choice, fname, written.
        split; [done|]. split; [done|]. split.
        -- rewrite Hread, Hstdin. by rewrite <- app_assoc.
        -- by rewrite Hwritten, Hsame.
    + cbn [fst snd]. split; [done|].
      destruct Hfiles as [Hsame|(choice & fname & [= -> ->] & Hchoice & Hstdin
                                 & Hwritten)]; [by left|].
      right. by exists [], choice, fname, metadata.
  - split; [done|]. destruct Hfiles as [Hsame|(? & ? & ? & _)]; [left; done | done].
Qed.

(** With more rounds allowed than there are lines of input, the loop ends
    before the rounds are used up. *)
Lemma while_not_done_ends (fuel : nat) (metadata : value) (c : console) :
  (length (stdin c) < fuel)%nat →
  (while_not_done fuel metadata c).1 ≠ Returns None.
Proof.
  revert metadata c. induction fuel as [|fuel IH]; intros metadata c Hfuel;
    [lia|].
  cbn [while_not_done]. unfold mbind, E_mbind, E_bind.
  destruct (iteration_effect metadata c) as (_ & Hshorter & _).
  destruct (iteration metadata c) as [[[code metadata1]|r] c1];
    cbn [fst snd] in *; [|done].
  specialize (Hshorter _ eq_refl).
  destruct (code =? 0); [|done].
  apply IH. lia.
Qed.

(** And the result is the same for every such number of rounds. *)
Lemma while_not_done_fuel (fuel fuel' : nat) (metadata : value) (c : console) :
  (length (stdin c) < fuel)%nat → (length (stdin c) < fuel')%nat →
  while_not_done fuel metadata c = while_not_done fuel' metadata c.
Proof.
  revert fuel' metadata c.
  induction fuel as [|fuel IH]; intros fuel' metadata c Hfuel Hfuel'; [lia|].
  destruct fuel' as [|fuel']; [lia|].
  cbn [while_not_done]. unfold mbind, E_mbind, E_bind.
  destruct (iteration_effect metadata c) as (_ & Hshorter & _).
  destruct (iteration metadata c) as [[[code metadata1]|r] c1];
    cbn [fst snd] in *; [|done].
  specialize (Hshorter _ eq_refl).
  destruct (code =? 0); [|done].
  apply IH; lia.
Qed.

End EditorLemmas.

(** X17.  On a finite input the editor always comes to an end: the loop
    never needs more rounds than there are lines, since every round that
    returns has read one; so the editor returns, or raises, and at the end of
    the input it raises [EOFError].  With [pygments] missing it raises
    [TypeError] at once, without the hint it was meant to print and without
    reading anything. *)
Theorem interactive_modify_metadata_ends `{Common} `{Gpg} `{Interactive}
    (metadata : value) (c : console) :
  let rc := interactive_modify_metadata metadata c in
  rc.1 ≠ Returns None ∧
  (pygments_available = true →
   ∀ rounds, (length (stdin c) < rounds)%nat →
     rc = while_not_done rounds metadata c) ∧
  (pygments_available = true → stdin c = [] →
   ∀ formatted highlighted,
     json_dumps metadata = Ok formatted →
     highlight formatted = Ok highlighted →
     rc.1 = Raises EOFError ∧ files (env rc.2) = files (env c)) ∧
  (pygments_available = false →
   rc = (Raises (Error (Exn TypeError
           "catching classes that do not inherit from BaseException is not allowed")),
         c)).
Proof.
  intros rc. subst rc. unfold interactive_modify_metadata.
  rewrite deepcopy_id.
  destruct pygments_available; cbn [negb].
  - split_and!; try done.
    + apply while_not_done_ends. lia.
    + intros _ rounds Hrounds. apply while_not_done_fuel; lia.
    + intros _ Hin formatted highlighted Hdumps Hhighlight.
      rewrite Hin. cbn [length while_not_done].
      unfold mbind, E_mbind, E_bind, iteration. run_editor.
      rewrite Hdumps, Hhighlight. cbn [stdin env]. rewrite Hin. done.
  - split_and!; done.
Qed.

Lemma interactive_modify_metadata_ends_witness :
  (interactive_modify_metadata (H := sample_common) (H0 := sample_gpg)
     (H1 := sample_interactive) metadata_foo (typing [])).1 = Raises EOFError ∧
  (interactive_modify_metadata (H := sample_common) (H0 := sample_gpg)
     (H1 := no_pygments) metadata_foo (typing ["1"])).2 = typing ["1"].
Proof.
  split.
  - destruct (interactive_modify_metadata_ends (H := sample_common)
                (H0 := sample_gpg) (H1 := sample_interactive) metadata_foo
                (typing [])) as (_ & _ & Hempty & _).
    exact (proj1 (Hempty eq_refl eq_refl _ _ eq_refl eq_refl)).
  - destruct (interactive_modify_metadata_ends (H := sample_common)
                (H0 := sample_gpg) (H1 := no_pygments) metadata_foo
                (typing ["1"])) as (_ & _ & _ & Hmissing).
    rewrite (Hmissing eq_refl). reflexivity.
Defined.

(** X18.  The editor writes at most one file, and only by option 0: either
    every file is as it was, or the last round chose option 0, the editor
    returned, and exactly the file named by the line after that choice now
    holds the metadata as the editor left it.  So an abort, an exception and
    the end of the input all leave every file untouched, whatever was signed
    or changed before. *)
Theorem interactive_modify_metadata_writes_once `{Common} `{Gpg} `{Interactive}
    (metadata : value) (c : console) :
  let rc := interactive_modify_metadata metadata c in
  stdin rc.2 `suffix_of` stdin c ∧
  (∀ r, rc.1 = Raises r → files (env rc.2) = files (env c)) ∧
  (files (env rc.2) = files (env c) ∨
   ∃ before choice fname written,
     rc.1 = Returns (Some written) ∧ int choice = Some 0 ∧
     stdin c = (before ++ choice :: fname :: stdin rc.2)%list ∧
     files (env rc.2) = <[fname := written]> (files (env c))).
Proof.
  intros rc. subst rc. unfold interactive_modify_metadata.
  destruct pygments_available; cbn [negb fst snd].
  - destruct (while_not_done_effect (S (length (stdin c))) (deepcopy metadata) c)
      as [Hsuffix Hfiles].
    split; [done|]. split; [|done].
    intros r Hr. destruct Hfiles as [Hsame|(? & ? & ? & ? & Hret & _)];
      [done | congruence].
  - split; [done|]. split; [done | by left].
Qed.

Lemma interactive_modify_metadata_writes_once_witness :
  let edit := interactive_modify_metadata (H := sample_common)
                (H0 := sample_gpg) (H1 := sample_interactive) metadata_foo in
  files (env (edit (typing ["x"; "3"; "1"; "0"; "never.json"])).2) = ∅ ∧
  files (env (edit (typing ["12"; "3"; "0"; "foo.json"])).2)
  = {["foo.json" := metadata_foo]}.
Proof.
  intros edit. split.
  - destruct (interactive_modify_metadata_writes_once (H := sample_common)
                (H0 := sample_gpg) (H1 := sample_interactive) metadata_foo
                (typing ["x"; "3"; "1"; "0"; "never.json"]))
      as (_ & _ & [Hsame|(before & choice & fname & written & _ & _ & _ & Hw)]).
    + exact Hsame.
    + reflexivity.
  - reflexivity.
Defined.

Section EditorOptions.
Context `{Common} `{Gpg} `{Interactive}.

(** What the assignment of a threshold changes, and what it keeps. *)
Lemma set_threshold_in_frame (metadata metadata' x : value) (delegation : string) :
  set_threshold_in metadata delegation x = Ok metadata' →
  threshold_in metadata' delegation = Ok x ∧
  (∀ field, field ≠ "signed" →
     getitem metadata' field = getitem metadata field) ∧
  (∀ field, field ≠ "delegations" →
     (getitem metadata' "signed" ≫= λ signed, getitem signed field)
     = (getitem metadata "signed" ≫= λ signed, getitem signed field)) ∧
  (∀ other, other ≠ delegation →
     (delegations_in metadata' ≫= λ delegations, getitem delegations other)
     = (delegations_in metadata ≫= λ delegations, getitem delegations other)) ∧
  (∀ field, field ≠ "threshold" →
     (delegations_in metadata' ≫= λ delegations,
        getitem delegations delegation ≫= λ entry, getitem entry field)
     = (delegations_in metadata ≫= λ delegations,
          getitem delegations delegation ≫= λ entry, getitem entry field)).
Proof.
  unfold set_threshold_in, threshold_in, delegations_in.
  unfold mbind, outcome_mbind, outcome_bind.
  destruct (getitem metadata "signed") as [signed|] eqn:Hsigned; [|done].
  destruct (getitem signed "delegations") as [delegations|] eqn:Hdelegations;
    [|done].
  destruct (getitem delegations delegation) as [entry|] eqn:Hentry; [|done].
  destruct (setitem entry "threshold" x) as [entry'|] eqn:Hset1; [|done].
  destruct (setitem delegations delegation entry') as [delegations'|] eqn:Hset2;
    [|done].
  destruct (setitem signed "delegations" delegations') as [signed'|] eqn:Hset3;
    [|done].
  intros Hset4.
  rewrite (getitem_setitem_eq _ _ _ _ Hset4).
  rewrite (getitem_setitem_eq _ _ _ _ Hset3).
  rewrite (getitem_setitem_eq _ _ _ _ Hset2).
  split_and!.
  - by apply (getitem_setitem_eq _ _ _ _ Hset1).
  - intros field Hfield. by apply (getitem_setitem_ne _ _ _ _ _ Hset4).
  - intros field Hfield. by apply (getitem_setitem_ne _ _ _ _ _ Hset3).
  - intros other Hother. by apply (getitem_setitem_ne _ _ _ _ _ Hset2).
  - intros field Hfield. by apply (getitem_setitem_ne _ _ _ _ _ Hset1).
Qed.

(** The numbers that are not the key of an option. *)
Lemma dict_get_options_none (selected : Z) :
  selected < 0 ∨ 9 < selected → dict_get selected options = None.
Proof.
  intros Hout. unfold options. cbn [dict_get].
  repeat match goal with
  | |- context [?k =? selected] => destruct (Z.eqb_spec k selected); [lia|]
  end.
  done.
Qed.

Lemma sign_via_gpg_any_world (data fp : value) (incl : bool) (w1 w2 : world) :
  (sign_via_gpg data fp incl w1).1 = (sign_via_gpg data fp incl w2).1.
Proof.
  unfold sign_via_gpg, _check_sslib_available. run.
  repeat (case_match; simplify_eq/=); done.
Qed.

Lemma fetch_keyval_from_gpg_any_world (fp : value) (w1 w2 : world) :
  (fetch_keyval_from_gpg fp w1).1 = (fetch_keyval_from_gpg fp w2).1.
Proof.
  unfold fetch_keyval_from_gpg, _check_sslib_available.
  unfold mbind, mret, M_mbind, M_mret, M_bind, M_ret, lift, raise, record.
  repeat (case_match; simplify_eq/=); done.
Qed.

(** Whether [sign_root_metadata_dict_via_gpg] returns, and what, does not
    depend on the world it runs in. *)
Lemma sign_root_metadata_dict_via_gpg_any_world (root_signable fp : value)
    (w1 w2 : world) :
  (sign_root_metadata_dict_via_gpg root_signable fp w1).1
  = (sign_root_metadata_dict_via_gpg root_signable fp w2).1.
Proof.
  unfold sign_root_metadata_dict_via_gpg, _check_sslib_available.
  unfold mbind, mret, M_mbind, M_mret, M_bind, M_ret, lift, raise, record.
  destruct SSLIB_AVAILABLE; [|done]. cbn [negb].
  destruct (is_signable root_signable); [|done]. cbn [negb].
  destruct (getitem root_signable "signed") as [signed|]; [|done].
  destruct (canonserialize signed) as [data|]; [|done].
  pose proof (sign_via_gpg_any_world (VBytes data) fp false
                (add_call (CallCanonserialize signed) w1)
                (add_call (CallCanonserialize signed) w2)) as Hsign.
  destruct (sign_via_gpg _ _ _ (add_call _ w1)) as [[sig1|] w1'];
    destruct (sign_via_gpg _ _ _ (add_call _ w2)) as [[sig2|] w2'];
    simpl in Hsign; simplify_eq; [|done].
  pose proof (fetch_keyval_from_gpg_any_world fp w1' w2') as Hfetch.
  destruct (fetch_keyval_from_gpg fp w1') as [[q1|] w1''];
    destruct (fetch_keyval_from_gpg fp w2') as [[q2|] w2''];
    simpl in Hfetch; simplify_eq; [|done].
  repeat (case_match; simplify_eq/=); done.
Qed.

End EditorOptions.

(** X19.  Option 7 changes a threshold and nothing else.  When its function
    returns, the loop goes on, and either the metadata is as it was (unknown
    delegation, or a reply that is not an integer of 1 or more), or the
    delegation named by the first line has as threshold the integer of the
    second line, which is at least 1, while its other fields, the other
    delegations, the other fields of the payload and everything outside the
    payload, the signatures among it, are as before. *)
Theorem fn_thresh_changes_threshold_only `{Common} `{Gpg} `{Interactive}
    (metadata metadata' : value) (code : Z) (c : console) :
  (fn_thresh metadata c).1 = Returns (code, metadata') →
  code = 0 ∧
  (metadata' = metadata ∨
   ∃ delegation reply rest new_thresh,
     stdin c = delegation :: reply :: rest ∧
     int reply = Some new_thresh ∧ 1 ≤ new_thresh ∧
     threshold_in metadata' delegation = Ok (VInt new_thresh) ∧
     (∀ field, field ≠ "signed" →
        getitem metadata' field = getitem metadata field) ∧
     (∀ field, field ≠ "delegations" →
        (getitem metadata' "signed" ≫= λ signed, getitem signed field)
        = (getitem metadata "signed" ≫= λ signed, getitem signed field)) ∧
     (∀ other, other ≠ delegation →
        (delegations_in metadata' ≫= λ delegations, getitem delegations other)
        = (delegations_in metadata ≫= λ delegations, getitem delegations other)) ∧
     (∀ field, field ≠ "threshold" →
        (delegations_in metadata' ≫= λ delegations,
           getitem delegations delegation ≫= λ entry, getitem entry field)
        = (delegations_in metadata ≫= λ delegations,
             getitem delegations delegation ≫= λ entry, getitem entry field))).
Proof.
  unfold fn_thresh. run_editor.
  destruct (stdin c) as [|delegation rest] eqn:Hin; cbn [stdin env]; [done|].
  destruct (outcome_mbind _ _ _ _) as [present|]; cbn [stdin env]; [|done].
  destruct present; cbn [negb stdin env];
    [|intros [= <- <-]; split; [done | by left]].
  destruct (threshold_in metadata delegation) as [current|]; cbn [stdin env];
    [|done].
  destruct rest as [|reply rest]; cbn [stdin env]; [done|].
  destruct (int reply) as [n|] eqn:Hreply;
    [|intros [= <- <-]; split; [done | by left]].
  destruct (Z.leb_spec 1 n) as [Hn|Hn];
    [|intros [= <- <-]; split; [done | by left]].
  destruct (set_threshold_in metadata delegation (VInt n)) as [updated|] eqn:Hset;
    cbn [stdin env]; [|done].
  intros [= <- <-]. split; [done|]. right.
  exists delegation, reply, rest, n.
  split; [done|]. split; [done|]. split; [done|].
  by apply set_threshold_in_frame.
Qed.

Lemma fn_thresh_changes_threshold_only_witness :
  let rc := fn_thresh (H := sample_common) (H1 := sample_interactive) root_v1
              (typing ["key_mgr"; "1"]) in
  let updated := after root_v1 (set_threshold_in root_v1 "key_mgr" (VInt 1)) in
  rc.1 = Returns (0, updated) ∧
  threshold_in root_v1 "key_mgr" = Ok (VInt 2) ∧
  threshold_in updated "key_mgr" = Ok (VInt 1) ∧
  getitem updated "signatures" = getitem root_v1 "signatures".
Proof.
  intros rc updated.
  assert (Hrun : rc.1 = Returns (0, updated)) by reflexivity.
  split; [exact Hrun|]. split; [reflexivity|].
  destruct (fn_thresh_changes_threshold_only (H := sample_common)
              (H0 := sample_gpg) (H1 := sample_interactive) root_v1 updated 0
              (typing ["key_mgr"; "1"]) Hrun)
    as (_ & [Hsame|(delegation & reply & rest & n & Hin & Hreply & _ & Hnew
                    & Hframe & _)]).
  - split; [reflexivity|]. by rewrite Hsame.
  - split; [reflexivity|]. by apply Hframe.
Defined.

(** X20.  Option 2 reads one line, removes its whitespace and lowers it, and
    signs with what the text is.  A private key in hex signs as
    [sign_signable] does, and an error of the key or of the signing is raised
    out of the editor.  A GPG fingerprint signs as
    [sign_root_metadata_dict_via_gpg] does, and an error there is not raised:
    the metadata is as it was and the loop goes on.  Any other text signs
    nothing: no call is made, the metadata is as it was and the loop goes on.
    No file is touched in any case. *)
Theorem fn_addsig_outcomes `{Common} `{Gpg} `{Interactive}
    (metadata : value) (c : console) (line : string) (rest : list string) :
  stdin c = line :: rest →
  let key := VStr (strip_and_lower line) in
  let rc := fn_addsig metadata c in
  stdin rc.2 = rest ∧ files (env rc.2) = files (env c) ∧
  (is_hex_key key = true →
     rc.1 = match private_key ← PrivateKey_from_hex key;
                  (sign_signable metadata private_key (env c)).1 with
            | Ok signed => Returns (0, signed)
            | Raise e => Raises (Error e)
            end) ∧
  (is_hex_key key = false → is_gpg_fingerprint key = true →
     rc.1 = Returns
              (0, after metadata
                    (sign_root_metadata_dict_via_gpg metadata key (env c)).1)) ∧
  (is_hex_key key = false → is_gpg_fingerprint key = false →
     rc.1 = Returns (0, metadata) ∧ calls (env rc.2) = calls (env c)).
Proof.
  intros Hin key rc. subst key rc.
  destruct (fn_addsig_quiet metadata c) as [_ Hfiles].
  split; [|split; [done|]]; clear Hfiles.
  all: unfold fn_addsig; run_editor.
  all: destruct SSLIB_AVAILABLE; cbn [negb stdin env]; rewrite Hin;
    cbn [stdin env].
  all: destruct (is_hex_key _) eqn:Hhex;
    [destruct (PrivateKey_from_hex _) as [private_key|e] eqn:Hfrom;
     cbn [stdin env mbind outcome_mbind outcome_bind]
    |destruct (is_gpg_fingerprint _) eqn:Hgpg].
  all: try match goal with
    | |- context [sign_signable ?m ?k ?w] =>
        pose proof (sign_signable_any_world m k w (env c)) as Hany;
        destruct (sign_signable m k w) as [[?|?] ?];
        destruct (sign_signable m k (env c)) as [[?|?] ?]
    | |- context [sign_root_metadata_dict_via_gpg ?m ?k ?w] =>
        pose proof (sign_root_metadata_dict_via_gpg_any_world m k w (env c))
          as Hany;
        destruct (sign_root_metadata_dict_via_gpg m k w) as [[?|?] ?];
        destruct (sign_root_metadata_dict_via_gpg m k (env c)) as [[?|?] ?]
    end.
  all: cbn [stdin env fst snd after] in *; simplify_eq; try done.
  all: split_and!; try done; intros; simplify_eq; done.
Qed.

Lemma fn_addsig_outcomes_witness :
  (fn_addsig (H := sample_common) (H0 := no_gpg) (H1 := sample_interactive)
     (VDict envelope_foo) (typing [fingerprint_as_printed])).1
  = Returns (0, VDict envelope_foo) ∧
  (fn_addsig (H := sample_common) (H0 := sample_gpg) (H1 := sample_interactive)
     metadata_foo (typing [key_hex_A])).1
  = Raises (Error (Exn TypeError "Expected a signable dictionary")) ∧
  (fn_addsig (H := sample_common) (H0 := sample_gpg) (H1 := sample_interactive)
     (VDict envelope_foo) (typing ["my key"])).1
  = Returns (0, VDict envelope_foo).
Proof.
  split; [|split].
  - destruct (fn_addsig_outcomes (H := sample_common) (H0 := no_gpg)
                (H1 := sample_interactive) (VDict envelope_foo)
                (typing [fingerprint_as_printed]) fingerprint_as_printed []
                eq_refl) as (_ & _ & _ & Hgpg & _).
    exact (Hgpg eq_refl eq_refl).
  - destruct (fn_addsig_outcomes (H := sample_common) (H0 := sample_gpg)
                (H1 := sample_interactive) metadata_foo
                (typing [key_hex_A]) key_hex_A [] eq_refl)
      as (_ & _ & Hraw & _).
    exact (Hraw eq_refl).
  - destruct (fn_addsig_outcomes (H := sample_common) (H0 := sample_gpg)
                (H1 := sample_interactive) (VDict envelope_foo)
                (typing ["my key"]) "my key" [] eq_refl)
      as (_ & _ & _ & _ & Hother).
    exact (proj1 (Hother eq_refl eq_refl)).
Defined.

(** X21.  A round that gets a choice other than 0, 2 and 7 changes nothing:
    it reads that one line, touches no file, makes no call, and leaves the
    metadata as it was.  For a line that is not a number, a number outside
    0..9, and the options 3, 4, 5, 6, 8 and 9 (which do nothing yet) the loop
    goes on; for option 1 it ends, and what was changed is not written
    anywhere. *)
Theorem iteration_without_effect `{Common} `{Gpg} `{Interactive}
    (metadata : value) (c : console) (line : string) (rest : list string)
    (formatted_metadata highlighted : string) :
  json_dumps metadata = Ok formatted_metadata →
  highlight formatted_metadata = Ok highlighted →
  stdin c = line :: rest →
  int line ∉ [Some 0; Some 2; Some 7] →
  let rc := iteration metadata c in
  rc.1 = Returns (if bool_decide (int line = Some 1) then 1 else 0, metadata) ∧
  stdin rc.2 = rest ∧ files (env rc.2) = files (env c) ∧
  calls (env rc.2) = calls (env c).
Proof.
  intros Hdumps Hhighlight Hin Hchoice rc. subst rc.
  unfold iteration. run_editor. cbn [stdin env].
  rewrite Hdumps, Hhighlight. cbn [stdin env]. rewrite Hin.
  destruct (int line) as [selected|] eqn:Hline;
    [|rewrite bool_decide_eq_false_2 by done; done].
  destruct (decide (selected < 0 ∨ 9 < selected)) as [Hout|Hrange].
  { rewrite (dict_get_options_none selected Hout).
    rewrite bool_decide_eq_false_2 by (intros [= ->]; lia). done. }
  assert (Hcases : selected = 1 ∨ selected = 3 ∨ selected = 4 ∨ selected = 5
                   ∨ selected = 6 ∨ selected = 8 ∨ selected = 9).
  { assert (selected ≠ 0 ∧ selected ≠ 2 ∧ selected ≠ 7) as (? & ? & ?);
      [|lia].
    split_and!; intros ->; apply Hchoice; set_solver. }
  destruct Hcases as [->|[->|[->|[->|[->|[->| ->]]]]]]; done.
Qed.

Lemma iteration_without_effect_witness :
  let round := iteration (H := sample_common) (H0 := sample_gpg)
                 (H1 := sample_interactive) metadata_foo in
  (round (typing ["4"; "0"])).1 = Returns (0, metadata_foo) ∧
  (round (typing ["1"; "0"])).1 = Returns (1, metadata_foo) ∧
  (round (typing ["-1"; "0"])).1 = Returns (0, metadata_foo) ∧
  stdin (round (typing ["10"; "0"])).2 = ["0"].
Proof.
  intros round.
  assert (Hchoice : ∀ line, decimal line ∉ [Some 0; Some 2; Some 7] →
    ∀ rest, (round (typing (line :: rest))).1
            = Returns (if bool_decide (decimal line = Some 1) then 1 else 0,
                       metadata_foo) ∧
            stdin (round (typing (line :: rest))).2 = rest).
  { intros line Hline rest.
    destruct (iteration_without_effect (H := sample_common) (H0 := sample_gpg)
                (H1 := sample_interactive) metadata_foo
                (typing (line :: rest)) line rest _ _ eq_refl eq_refl eq_refl
                Hline) as (Hret & Hrest & _).
    split; [exact Hret | exact Hrest]. }
  split; [|split; [|split]].
  - apply (Hchoice "4"). vm_compute. set_solver.
  - apply (Hchoice "1"). vm_compute. set_solver.
  - apply (Hchoice "-1"). vm_compute. set_solver.
  - apply (Hchoice "10"). vm_compute. set_solver.
Defined.

(* ===================================================================== *)
(** * Signing and verifying *)
(* ===================================================================== *)

(** X22.  What [sign_signable] writes is what [verify_delegation] reads: an
    envelope signed with a key whose public key the delegation lists, for a
    delegation with threshold 1 and a payload that declares the role, is
    accepted, whatever other signatures the envelope (a dict with a dict of
    signatures, as loaded from a file) carries.  Assumed of the key: its
    signatures have 64 bytes and verify against its public key. *)
Theorem signed_envelope_verifies `{Common}
    (verify_signature : string → string → bytes → bool)
    (role_name : string) (envelope : gmap string value)
    (private_key public signable' trusted record : value) (pubhex : string)
    (delegations signatures : gmap string value)
    (delegation : Authentication.delegation) (w w' : world) :
  (∀ data sig, PrivateKey_sign private_key data = Ok sig →
     length sig = 64%nat ∧ verify_signature (bytes_hex sig) pubhex data = true) →
  PrivateKey_public_key private_key = Ok public →
  PublicKey_to_hex public = Ok (VStr pubhex) →
  envelope !! "signatures" = Some (VDict signatures) →
  sign_signable (VDict envelope) private_key w = (Ok signable', w') →
  declares (VDict envelope) role_name = true →
  delegations_of trusted = Some delegations →
  delegations !! role_name = Some record →
  read_delegation record = Some delegation →
  pubhex ∈ pubkeys delegation →
  threshold delegation = 1 →
  verify_delegation verify_signature role_name signable' trusted = Accept.
Proof.
  intros Hkey Hpub Hhex Hdict Hrun Hdeclares Hds Hrole Hread Hlisted Hthreshold.
  apply sign_signable_inv in Hrun
    as (signed & data & sig & public' & pubhex' & sigs & sigs' & _ & _ & Hsigned
        & Hdata & Hsig & Hpub' & Hhex' & _ & Hsigs & Hset & Hset' & _).
  rewrite Hpub in Hpub'. injection Hpub' as <-.
  rewrite Hhex in Hhex'. injection Hhex' as <-.
  destruct (Hkey data sig Hsig) as [Hlen Hverifies].
  simpl in Hsigned, Hsigs, Hset'. injection Hset' as <-.
  destruct (envelope !! "signed") as [signed0|] eqn:Hsigned0; [|discriminate].
  injection Hsigned as ->.
  rewrite Hdict in Hsigs. injection Hsigs as <-.
  unfold verify_delegation. rewrite Hds, Hrole, Hread.
  cbn [signed_payload signatures_of].
  rewrite lookup_insert_ne, Hsigned0 by done. rewrite lookup_insert_eq.
  simpl in Hset. injection Hset as <-. rewrite Hdata.
  set (d := signatures).
  assert (Htally : 1 ≤ tally verify_signature
                         (<[pubhex := signature_record (bytes_hex sig)]> d)
                         data (pubkeys delegation)).
  { rewrite tally_valid_signers.
    assert (Hin : pubhex ∈ valid_signers verify_signature
                    (<[pubhex := signature_record (bytes_hex sig)]> d)
                    data (pubkeys delegation)).
    { unfold valid_signers. apply elem_of_filter. split.
      - split; [done|]. unfold signature_verifies.
        rewrite lookup_insert_eq. cbn [read_signature signature_record].
        rewrite lookup_singleton_eq.
        pose proof (bytes_hex_lower sig) as Hlower. rewrite Hlen in Hlower.
        change (2 * 64)%nat with 128%nat in Hlower. by rewrite Hlower.
      - apply elem_of_dom. rewrite lookup_insert_eq. eauto. }
    assert (size (valid_signers verify_signature
                    (<[pubhex := signature_record (bytes_hex sig)]> d)
                    data (pubkeys delegation)) ≠ 0%nat).
    { intros Hzero. apply size_empty_inv in Hzero. set_solver. }
    lia. }
  rewrite Hthreshold.
  destruct (Z.ltb_spec (tally verify_signature
              (<[pubhex := signature_record (bytes_hex sig)]> d) data
              (pubkeys delegation)) 1) as [Hlt|_]; [lia|].
  unfold declares, signed_field in *.
  rewrite lookup_insert_ne by done. rewrite Hsigned0 in *.
  destruct signed as [| | | | | | | |payload|]; try discriminate Hdeclares.
  destruct (payload !! "type") as [t|]; [|discriminate Hdeclares].
  by rewrite Hdeclares.
Qed.

Lemma sample_sign_verifies (data sig : bytes) :
  PrivateKey_sign (Common := sample_common) (private_key seed_A) data = Ok sig →
  length sig = 64%nat ∧ sample_verify (bytes_hex sig) hex_A data = true.
Proof.
  intros [= <-]. split; [apply toy_sign_length|].
  unfold sample_verify.
  assert (Hraw : bytes_fromhex hex_A = Some (toy_public seed_A))
    by (vm_compute; reflexivity).
  rewrite Hraw.
  assert (Hseed : reverse (toy_public seed_A) = seed_A)
    by (vm_compute; reflexivity).
  rewrite Hseed. apply String.eqb_refl.
Qed.

Lemma signed_envelope_verifies_witness :
  let signed := after VNone
    (sign_signable (H := sample_common)
       (VDict (list_to_map [("signatures", VDict ∅); ("signed", root_v2_signed)]))
       (private_key seed_A) no_files).1 in
  verify_delegation (H := sample_common) sample_verify "root" signed root_v1
  = Accept.
Proof.
  intros signed.
  set (ds := default ∅ (delegations_of root_v1)).
  assert (Hin : hex_A ∈ [hex_A]) by (by left).
  exact (signed_envelope_verifies (H := sample_common) sample_verify "root"
           (list_to_map [("signatures", VDict ∅); ("signed", root_v2_signed)])
           (private_key seed_A) (public_key (toy_public seed_A)) signed root_v1
           (delegation_record [hex_A] 1) hex_A ds ∅ (Delegation [hex_A] 1)
           no_files _ sample_sign_verifies eq_refl eq_refl eq_refl eq_refl
           eq_refl eq_refl eq_refl eq_refl Hin eq_refl).
Defined.
